(** * laceworkreports: the report-aggregation engine of [sdk/ReportHelpers.py]

    A shallow embedding of the account discovery, of the schema-evolving
    SQLite sync store, of the report fetchers and of the compliance and
    vulnerability aggregation queries, with the properties the
    specification states about them.

    Conventions.
    - A Python value that may be [None], and an SQL value that may be NULL,
      is an [option]; [None] is Python's [None], respectively SQL's NULL.
    - SQLite INTEGER values are [Z]; SQLite's [/] on integers truncates
      towards zero ([Z.quot]) and yields NULL on a zero divisor.
    - SQLite REAL arithmetic (the [CAST(... AS FLOAT)] of the compliance
      percentage, [AVG]) is carried out on exact rationals; the counts the
      queries work on are far below the size where a binary64 rounding could
      move a quotient across an integer.
    - A query is a function from the tables it reads to the list of its
      result rows; only the columns that take part in a computation are
      kept in the row records, the columns copied through are left out. *)

From Stdlib Require Import List Bool Arith ZArith Lia String Ascii Permutation QArith
  Sorted.
Import ListNotations.
Open Scope Z_scope.
Open Scope string_scope.

Set Implicit Arguments.
Set Warnings "-register-all".

(* ================================================================== *)
(** ** SQL values and operators, as SQLite evaluates them *)

Module Sql.

(** Three-valued comparison: NULL as soon as one operand is NULL. *)
Definition eq_text (a b : option string) : option bool :=
  match a, b with
  | Some x, Some y => Some (String.eqb x y)
  | _, _ => None
  end.

Definition eq_int (a b : option Z) : option bool :=
  match a, b with
  | Some x, Some y => Some (Z.eqb x y)
  | _, _ => None
  end.

Definition gt (a b : option Z) : option bool :=
  match a, b with
  | Some x, Some y => Some (Z.gtb x y)
  | _, _ => None
  end.

Definition lt (a b : option Z) : option bool :=
  match a, b with
  | Some x, Some y => Some (Z.ltb x y)
  | _, _ => None
  end.

Definition not3 (a : option bool) : option bool :=
  match a with Some x => Some (negb x) | None => None end.

Definition and3 (a b : option bool) : option bool :=
  match a, b with
  | Some false, _ | _, Some false => Some false
  | Some true, Some true => Some true
  | _, _ => None
  end.

(** A WHERE clause, and a WHEN arm of a CASE, fire on true only: false
    and NULL both fall through. *)
Definition holds (a : option bool) : bool :=
  match a with Some true => true | _ => false end.

Definition add (a b : option Z) : option Z :=
  match a, b with Some x, Some y => Some (x + y) | _, _ => None end.

Definition sub (a b : option Z) : option Z :=
  match a, b with Some x, Some y => Some (x - y) | _, _ => None end.

Definition mul (a b : option Z) : option Z :=
  match a, b with Some x, Some y => Some (x * y) | _, _ => None end.

(** Integer division: truncating, NULL on a zero divisor. *)
Definition div (a b : option Z) : option Z :=
  match a, b with
  | Some x, Some y => if Z.eqb y 0 then None else Some (Z.quot x y)
  | _, _ => None
  end.

(** The non-NULL values of a column. *)
Fixpoint non_null (A : Type) (l : list (option A)) : list A :=
  match l with
  | [] => []
  | Some x :: l' => x :: non_null l'
  | None :: l' => non_null l'
  end.

Definition total (l : list Z) : Z := fold_right Z.add 0 l.

(** SUM skips NULLs and is NULL when nothing is left. *)
Definition sum (l : list (option Z)) : option Z :=
  match non_null l with
  | [] => None
  | x :: xs => Some (total (x :: xs))
  end.

(** CAST(x AS INTEGER) of a REAL truncates towards zero. *)
Definition cast_integer (q : Q) : Z := Z.quot (Qnum q) (Zpos (Qden q)).

(** AVG skips NULLs, is REAL, and is NULL when nothing is left. *)
Definition avg (l : list (option Z)) : option Q :=
  match non_null l with
  | [] => None
  | x :: xs => Some (Qmake (total (x :: xs)) (Pos.of_nat (List.length (x :: xs))))
  end.

(** First occurrences, in scan order: DISTINCT, and the keys of GROUP BY. *)
Fixpoint distinct (A : Type) (eqb : A -> A -> bool) (l : list A) : list A :=
  match l with
  | [] => []
  | x :: l' => x :: filter (fun y => negb (eqb x y)) (distinct eqb l')
  end.

(** COUNT(DISTINCT c): the distinct non-NULL values. *)
Definition count_distinct (l : list (option string)) : Z :=
  Z.of_nat (List.length (distinct String.eqb (non_null l))).

(** Two values fall into the same partition or group when they are equal,
    NULL being equal to NULL there. *)
Definition same (a b : option string) : bool :=
  match a, b with
  | Some x, Some y => String.eqb x y
  | None, None => true
  | _, _ => false
  end.

(** [ROW_NUMBER() OVER (PARTITION BY ...) = 1]: no row scanned before this
    one lies in its partition.  [seen] holds the rows scanned so far. *)
Definition first_row (A : Type) (same_partition : A -> A -> bool)
           (seen : list A) (r : A) : bool :=
  negb (existsb (same_partition r) seen).

Definition is_null (A : Type) (a : option A) : bool :=
  match a with None => true | Some _ => false end.

(** [x IN (SELECT c FROM ...)]: true on a match; otherwise NULL when [x] or
    one of the values is NULL, and false when none is. *)
Definition in_list (a : option string) (l : list (option string)) : option bool :=
  match l with
  | [] => Some false
  | _ :: _ =>
      if existsb (fun y => holds (eq_text a y)) l then Some true
      else if is_null a || existsb (@is_null string) l then None
      else Some false
  end.

(** The errors a statement can fail with, by the message SQLite gives:
    "table T has no column named C", "duplicate column name: C",
    "near ...: syntax error", "no such table: T". *)
Inductive error :=
| NoSuchColumn (column : string)
| DuplicateColumn (column : string)
| SyntaxError
| NoSuchTable.

(** ORDER BY: NULL sorts first, then numbers, then text bytewise. *)
Definition cmp_text (a b : option string) : comparison :=
  match a, b with
  | None, None => Eq
  | None, Some _ => Lt
  | Some _, None => Gt
  | Some x, Some y => String.compare x y
  end.

Definition cmp_int (a b : option Z) : comparison :=
  match a, b with
  | None, None => Eq
  | None, Some _ => Lt
  | Some _, None => Gt
  | Some x, Some y => Z.compare x y
  end.

(** The next ORDER BY term decides when the earlier ones tie. *)
Definition then_by (c1 c2 : comparison) : comparison :=
  match c1 with Eq => c2 | _ => c1 end.

Fixpoint insert_row (A : Type) (cmp : A -> A -> comparison) (r : A) (l : list A) : list A :=
  match l with
  | [] => [r]
  | x :: l' =>
      match cmp r x with
      | Gt => x :: insert_row cmp r l'
      | _ => r :: x :: l'
      end
  end.

Definition order_by (A : Type) (cmp : A -> A -> comparison) (l : list A) : list A :=
  fold_right (insert_row cmp) [] l.

End Sql.

(* ================================================================== *)
(** ** [VulnerabilityQueries] *)

Module VulnerabilityQueries.

(** A row of the agent table [machines] (written by [get_active_machines]):
    the tenant, the composite account id and the instance id tag. *)
Record machine := {
  LWACCOUNT : option string;
  ACCOUNTID : option string;
  TAG_INSTANCEID : option string }.

(** The [machineTags] JSON object of a finding. *)
Record machine_tags := {
  Hostname : option string;
  InstanceId : option string }.

(** A row of the synced vulnerability table [:db_table]: one finding of one
    vulnerability on one instance. *)
Record finding := {
  lwAccount : option string;
  accountId : option string;
  vulnId : option string;
  severity : option string;
  machineTags : option machine_tags }.

(** [json_extract(t.machineTags, '$.InstanceId')] *)
Definition json_InstanceId (t : finding) : option string :=
  match machineTags t with
  | Some tags => InstanceId tags
  | None => None
  end.

(** [json_extract(t.machineTags, '$.Hostname')] *)
Definition json_Hostname (t : finding) : option string :=
  match machineTags t with
  | Some tags => Hostname tags
  | None => None
  end.

(** [WHERE json_extract(t.machineTags, '$.InstanceId') IN
      (SELECT DISTINCT TAG_INSTANCEID from machines)] *)
Definition has_agent (machines : list machine) (t : finding) : bool :=
  Sql.holds (Sql.in_list (json_InstanceId t) (map TAG_INSTANCEID machines)).

(** [PARTITION BY json_extract(t.machineTags, '$.InstanceId'), t.vulnId] *)
Definition same_instance_vuln (a b : finding) : bool :=
  Sql.same (json_InstanceId a) (json_InstanceId b) && Sql.same (vulnId a) (vulnId b).

(** [PARTITION BY json_extract(t.machineTags, '$.InstanceId')] *)
Definition same_instance (a b : finding) : bool :=
  Sql.same (json_InstanceId a) (json_InstanceId b).

(** The rows of the innermost subquery [t2]. *)
Record t2_row := {
  t2_accountId : option string;
  t2_lwAccount : option string;
  t2_hostname : option string;
  t2_instanceId : option string;
  t2_vulnId : option string;
  t2_severity : option string;
  _vulncount : Z;
  _instcount : Z;
  critical : Z;
  high : Z;
  medium : Z;
  low : Z;
  info : Z }.

(** [CASE WHEN t.severity = 'Critical' THEN 1 ELSE 0 END] and its siblings. *)
Definition severity_flag (name : string) (t : finding) : Z :=
  if Sql.holds (Sql.eq_text (severity t) (Some name)) then 1 else 0.

Definition t2_select (seen : list finding) (t : finding) : t2_row :=
  {| t2_accountId := accountId t;
     t2_lwAccount := lwAccount t;
     t2_hostname := json_Hostname t;
     t2_instanceId := json_InstanceId t;
     t2_vulnId := vulnId t;
     t2_severity := severity t;
     _vulncount := if Sql.first_row same_instance_vuln seen t then 1 else 0;
     _instcount := if Sql.first_row same_instance seen t then 1 else 0;
     critical := severity_flag "Critical" t;
     high := severity_flag "High" t;
     medium := severity_flag "Medium" t;
     low := severity_flag "Low" t;
     info := severity_flag "Info" t |}.

(** The window functions number the rows that passed the WHERE clause, in
    scan order. *)
Fixpoint t2_scan (seen : list finding) (rows : list finding) : list t2_row :=
  match rows with
  | [] => []
  | t :: rest => t2_select seen t :: t2_scan (t :: seen) rest
  end.

Definition t2 (machines : list machine) (db_table : list finding) : list t2_row :=
  t2_scan [] (filter (has_agent machines) db_table).

(** [SUM(e) OVER (PARTITION BY t2.instanceId)] at row [r]. *)
Definition sum_over_instance (rows : list t2_row) (e : t2_row -> Z) (r : t2_row) : option Z :=
  Sql.sum (map (fun r' => Some (e r'))
               (filter (fun r' => Sql.same (t2_instanceId r) (t2_instanceId r')) rows)).

(** The scoring curve: the CASE of [total_coverage], first matching arm wins,
    NULL when no arm matches. *)
Definition step_function (total_critical total_high total_medium total_low total_info : option Z)
  : option Z :=
  if Sql.holds (Sql.gt total_critical (Some 10)) then Some 0
  else if Sql.holds (Sql.gt total_critical (Some 5)) then Some 5
  else if Sql.holds (Sql.gt total_critical (Some 0)) then Some 9
  else if Sql.holds (Sql.gt total_high (Some 10)) then Some 40
  else if Sql.holds (Sql.gt total_high (Some 5)) then Some 45
  else if Sql.holds (Sql.gt total_high (Some 0)) then Some 49
  else if Sql.holds (Sql.gt total_medium (Some 10)) then Some 60
  else if Sql.holds (Sql.gt total_medium (Some 5)) then Some 65
  else if Sql.holds (Sql.gt total_medium (Some 0)) then Some 69
  else if Sql.holds (Sql.gt total_low (Some 10)) then Some 70
  else if Sql.holds (Sql.gt total_low (Some 5)) then Some 75
  else if Sql.holds (Sql.gt total_low (Some 0)) then Some 79
  else if Sql.holds (Sql.gt total_info (Some 10)) then Some 95
  else if Sql.holds (Sql.gt total_info (Some 5)) then Some 90
  else if Sql.holds (Sql.eq_int total_info (Some 0)) then Some 100
  else None.

(** The rows of the subquery [t3] of the roll-ups: the columns of the
    ['report'] query and [_instcount]. *)
Record t3_row := {
  t3_lwAccount : option string;
  t3_accountId : option string;
  t3_hostname : option string;
  t3_instanceId : option string;
  t3_vulnId : option string;
  t3_severity : option string;
  t3_instcount : Z;
  t3_total_violation_count : option Z;
  t3_total_critical : option Z;
  t3_total_high : option Z;
  t3_total_medium : option Z;
  t3_total_low : option Z;
  t3_total_info : option Z;
  t3_total_coverage : option Z }.

Definition t3_select (rows : list t2_row) (r : t2_row) : t3_row :=
  {| t3_lwAccount := t2_lwAccount r;
     t3_accountId := t2_accountId r;
     t3_hostname := t2_hostname r;
     t3_instanceId := t2_instanceId r;
     t3_vulnId := t2_vulnId r;
     t3_severity := t2_severity r;
     t3_instcount := _instcount r;
     t3_total_violation_count := sum_over_instance rows _vulncount r;
     t3_total_critical := sum_over_instance rows (fun x => critical x * _vulncount x) r;
     t3_total_high := sum_over_instance rows (fun x => high x * _vulncount x) r;
     t3_total_medium := sum_over_instance rows (fun x => medium x * _vulncount x) r;
     t3_total_low := sum_over_instance rows (fun x => low x * _vulncount x) r;
     t3_total_info := sum_over_instance rows (fun x => info x * _vulncount x) r;
     t3_total_coverage :=
       step_function
         (sum_over_instance rows (fun x => critical x * _vulncount x) r)
         (sum_over_instance rows (fun x => high x * _vulncount x) r)
         (sum_over_instance rows (fun x => medium x * _vulncount x) r)
         (sum_over_instance rows (fun x => low x * _vulncount x) r)
         (sum_over_instance rows (fun x => info x * _vulncount x) r) |}.

Definition t3 (machines : list machine) (db_table : list finding) : list t3_row :=
  let rows := t2 machines db_table in map (t3_select rows) rows.

(** The rows of the ['report'] query. *)
Record report_row := {
  lwAccount_ : option string;
  accountId_ : option string;
  hostname : option string;
  instanceId : option string;
  vulnId_ : option string;
  severity_ : option string;
  total_violation_count : option Z;
  total_critical : option Z;
  total_high : option Z;
  total_medium : option Z;
  total_low : option Z;
  total_info : option Z;
  total_coverage : option Z }.

Definition report_select (r : t3_row) : report_row :=
  {| lwAccount_ := t3_lwAccount r;
     accountId_ := t3_accountId r;
     hostname := t3_hostname r;
     instanceId := t3_instanceId r;
     vulnId_ := t3_vulnId r;
     severity_ := t3_severity r;
     total_violation_count := t3_total_violation_count r;
     total_critical := t3_total_critical r;
     total_high := t3_total_high r;
     total_medium := t3_total_medium r;
     total_low := t3_total_low r;
     total_info := t3_total_info r;
     total_coverage := t3_total_coverage r |}.

(** [VulnerabilityQueries["report"]] *)
Definition report (machines : list machine) (db_table : list finding) : list report_row :=
  map report_select (t3 machines db_table).

(** [SELECT COUNT(DISTINCT TAG_INSTANCEID) FROM machines
     WHERE t3.lwAccount = lwAccount AND t3.accountId = accountId]: inside the
    subquery the unqualified names are the columns of [machines]. *)
Definition machines_of_account (machines : list machine) (lw acct : option string) : Z :=
  Sql.count_distinct
    (map TAG_INSTANCEID
         (filter (fun m => Sql.holds (Sql.and3 (Sql.eq_text lw (LWACCOUNT m))
                                               (Sql.eq_text acct (ACCOUNTID m))))
                 machines)).

(** [GROUP BY lwAccount, accountId] *)
Definition same_account (a b : option string * option string) : bool :=
  Sql.same (fst a) (fst b) && Sql.same (snd a) (snd b).

Definition t3_account (r : t3_row) : option string * option string :=
  (t3_lwAccount r, t3_accountId r).

(** The weighted roll-up of the per-instance scores of one account. *)
Definition weighted_coverage (total_assets assets_in_violation : Z) (scores : option Z)
  : option Z :=
  Sql.div (Sql.add (Sql.mul (Sql.sub (Some total_assets) (Some assets_in_violation))
                            (Some 100))
                   scores)
          (Some total_assets).

(** The rows of [account_coverage], the subquery [t4] of the summaries. *)
Record account_row := {
  a_lwAccount : option string;
  a_accountId : option string;
  a_total_assets_in_violation : Z;
  a_total_assets : Z;
  a_critical : option Z;
  a_high : option Z;
  a_medium : option Z;
  a_low : option Z;
  a_info : option Z;
  a_total_violation_count : option Z;
  a_total_coverage : option Z }.

(** [SUM(_instcount * c)] over the rows of a group. *)
Definition sum_instcount (c : t3_row -> option Z) (grp : list t3_row) : option Z :=
  Sql.sum (map (fun r => Sql.mul (Some (t3_instcount r)) (c r)) grp).

Definition account_select (machines : list machine) (rows : list t3_row)
           (g : option string * option string) : account_row :=
  let grp := filter (fun r => same_account g (t3_account r)) rows in
  {| a_lwAccount := fst g;
     a_accountId := snd g;
     a_total_assets_in_violation := Sql.count_distinct (map t3_instanceId grp);
     a_total_assets := machines_of_account machines (fst g) (snd g);
     a_critical := sum_instcount t3_total_critical grp;
     a_high := sum_instcount t3_total_high grp;
     a_medium := sum_instcount t3_total_medium grp;
     a_low := sum_instcount t3_total_low grp;
     a_info := sum_instcount t3_total_info grp;
     a_total_violation_count := sum_instcount t3_total_violation_count grp;
     a_total_coverage :=
       weighted_coverage (machines_of_account machines (fst g) (snd g))
                         (Sql.count_distinct (map t3_instanceId grp))
                         (sum_instcount t3_total_coverage grp) |}.

(** [VulnerabilityQueries["account_coverage"]] *)
Definition account_coverage (machines : list machine) (db_table : list finding)
  : list account_row :=
  let rows := t3 machines db_table in
  map (account_select machines rows) (Sql.distinct same_account (map t3_account rows)).

(** The rows of [total_summary] and of [lwaccount_summary]. *)
Record summary_row := {
  s_lwAccount : option string;
  s_total_accounts : Z;
  s_total_assets_in_violation : option Z;
  s_total_assets : option Z;
  s_critical : option Z;
  s_high : option Z;
  s_medium : option Z;
  s_low : option Z;
  s_info : option Z;
  s_total_violation_count : option Z;
  s_total_coverage : option Z }.

Definition summary_select (lw : option string) (t4 : list account_row) : summary_row :=
  {| s_lwAccount := lw;
     s_total_accounts := Sql.count_distinct (map a_accountId t4);
     s_total_assets_in_violation :=
       Sql.sum (map (fun a => Some (a_total_assets_in_violation a)) t4);
     s_total_assets := Sql.sum (map (fun a => Some (a_total_assets a)) t4);
     s_critical := Sql.sum (map a_critical t4);
     s_high := Sql.sum (map a_high t4);
     s_medium := Sql.sum (map a_medium t4);
     s_low := Sql.sum (map a_low t4);
     s_info := Sql.sum (map a_info t4);
     s_total_violation_count := Sql.sum (map a_total_violation_count t4);
     s_total_coverage :=
       option_map Sql.cast_integer (Sql.avg (map a_total_coverage t4)) |}.

(** [VulnerabilityQueries["total_summary"]]: one row, whatever [t4] holds. *)
Definition total_summary (machines : list machine) (db_table : list finding)
  : list summary_row :=
  [summary_select (Some "Any") (account_coverage machines db_table)].

(** [VulnerabilityQueries["lwaccount_summary"]]: [t4] grouped by tenant. *)
Definition lwaccount_summary (machines : list machine) (db_table : list finding)
  : list summary_row :=
  let t4 := account_coverage machines db_table in
  map (fun lw => summary_select lw (filter (fun a => Sql.same lw (a_lwAccount a)) t4))
      (Sql.distinct Sql.same (map a_lwAccount t4)).

(** [VulnerabilityQueries["lwaccount"]] *)
Definition lwaccount (db_table : list finding) : list (option string) :=
  Sql.distinct Sql.same (map lwAccount db_table).

(** *** The quantities the specification speaks of *)

(** The findings the queries score: those of instances with an agent. *)
Definition scored (machines : list machine) (db_table : list finding) : list finding :=
  filter (has_agent machines) db_table.

(** The deduplicated count of a severity bucket of an instance: among the
    scored findings, one per (instance, vulnerability) pair - the first in
    scan order -, those of the instance that carry the severity. *)
Definition bucket_count (name : string) (i : option string) (rows : list finding) : Z :=
  Z.of_nat
    (List.length
       (filter (fun t => Sql.same i (json_InstanceId t)
                         && Sql.holds (Sql.eq_text (severity t) (Some name)))
               (Sql.distinct same_instance_vuln rows))).

(** The score of an instance: the [total_coverage] the ['report'] query gives
    its rows. *)
Definition instance_score (machines : list machine) (db_table : list finding)
           (i : string) : option Z :=
  match find (fun r => Sql.same (Some i) (instanceId r)) (report machines db_table) with
  | Some r => total_coverage r
  | None => None
  end.

(** The instances with findings of an account: the distinct instance ids of
    the scored findings booked on that (lwAccount, accountId). *)
Definition instances_with_findings (machines : list machine) (db_table : list finding)
           (g : option string * option string) : list string :=
  Sql.distinct String.eqb
    (Sql.non_null
       (map instanceId
            (filter (fun r => same_account g (lwAccount_ r, accountId_ r))
                    (report machines db_table)))).

(** The weighted formula as the specification words it for an account:
    [((total_assets - instances with findings) * 100 + sum of their scores)
     / total_assets], the sum being SQL's. *)
Definition claimed_account_coverage (machines : list machine) (db_table : list finding)
           (g : option string * option string) : option Z :=
  let with_findings := instances_with_findings machines db_table g in
  weighted_coverage (machines_of_account machines (fst g) (snd g))
                    (Z.of_nat (List.length with_findings))
                    (Sql.sum (map (instance_score machines db_table) with_findings)).

(** The same formula over the whole fleet: every agent instance of
    [machines], every scored instance of the table. *)
Definition claimed_fleet_coverage (machines : list machine) (db_table : list finding)
  : option Z :=
  let with_findings :=
    Sql.distinct String.eqb (Sql.non_null (map instanceId (report machines db_table))) in
  weighted_coverage (Sql.count_distinct (map TAG_INSTANCEID machines))
                    (Z.of_nat (List.length with_findings))
                    (Sql.sum (map (instance_score machines db_table) with_findings)).

(** And over one tenant: the agent instances and the scored instances of
    that [lwAccount]. *)
Definition claimed_tenant_coverage (machines : list machine) (db_table : list finding)
           (lw : option string) : option Z :=
  let with_findings :=
    Sql.distinct String.eqb
      (Sql.non_null
         (map instanceId
              (filter (fun r => Sql.same lw (lwAccount_ r)) (report machines db_table)))) in
  weighted_coverage
    (Sql.count_distinct
       (map TAG_INSTANCEID (filter (fun m => Sql.same lw (LWACCOUNT m)) machines)))
    (Z.of_nat (List.length with_findings))
    (Sql.sum (map (instance_score machines db_table) with_findings)).

(** The non-NULL values of a column, added up. *)
Definition tot (l : list (option Z)) : Z := Sql.total (Sql.non_null l).

(** Every scored instance is booked on one account: its findings all carry
    the same lwAccount and accountId. *)
Definition single_account (machines : list machine) (db_table : list finding) : Prop :=
  forall t1 t2,
    In t1 (scored machines db_table) -> In t2 (scored machines db_table) ->
    json_InstanceId t1 = json_InstanceId t2 ->
    lwAccount t1 = lwAccount t2 /\ accountId t1 = accountId t2.

(** Sample rows. *)
Definition machine_of (lw acct i : string) : machine :=
  {| LWACCOUNT := Some lw; ACCOUNTID := Some acct; TAG_INSTANCEID := Some i |}.

Definition finding_of (lw acct i vuln sev : string) : finding :=
  {| lwAccount := Some lw; accountId := Some acct; vulnId := Some vuln;
     severity := Some sev;
     machineTags := Some {| Hostname := None; InstanceId := Some i |} |}.

(** One tenant, two accounts: one agent instance in the first, three in the
    second; one instance of each has one High finding. *)
Definition fleet_machines : list machine :=
  [machine_of "T" "aws:1" "i-1"; machine_of "T" "aws:2" "i-2";
   machine_of "T" "aws:2" "i-3"; machine_of "T" "aws:2" "i-4"].

Definition fleet_findings : list finding :=
  [finding_of "T" "aws:1" "i-1" "CVE-1" "High";
   finding_of "T" "aws:2" "i-2" "CVE-1" "High"].

(** An instance whose findings are booked on two accounts. *)
Definition shared_machines : list machine :=
  [machine_of "T" "aws:1" "i-1"; machine_of "T" "aws:2" "i-1"].

Definition shared_findings : list finding :=
  [finding_of "T" "aws:1" "i-1" "CVE-1" "High";
   finding_of "T" "aws:2" "i-1" "CVE-2" "High"].

(** The mean of a list of integers, truncated towards zero; NULL for the
    empty list. *)
Definition truncated_mean (l : list Z) : option Z :=
  match l with
  | [] => None
  | _ :: _ => Some (Z.quot (Sql.total l) (Z.of_nat (List.length l)))
  end.

(** The findings, and the [t2] rows, of one account group. *)
Definition in_account (g : option string * option string) (t : finding) : bool :=
  same_account g (lwAccount t, accountId t).

Definition in_account_row (g : option string * option string) (r : t2_row) : bool :=
  same_account g (t2_lwAccount r, t2_accountId r).

(** A score looked up under a nullable instance id. *)
Definition score_of (v : string -> option Z) (o : option string) : option Z :=
  match o with Some i => v i | None => None end.

(** The instance has no finding among those scanned so far. *)
Definition unseen (seen : list finding) (i : string) : bool :=
  negb (existsb (fun s => Sql.same (Some i) (json_InstanceId s)) seen).

End VulnerabilityQueries.

(* ================================================================== *)
(** ** [ComplianceQueries] *)

Module ComplianceQueries.

(** An element of a [VIOLATIONS] array. *)
Record violation := {
  resource : string;
  region : string }.

(** An element of the [recommendations] array of a compliance report: one
    control.  A field that is absent or JSON null reads as NULL. *)
Record recommendation := {
  TITLE : option string;
  INFO_LINK : option string;
  REC_ID : option string;
  STATUS : option string;
  CATEGORY : option string;
  SERVICE : option string;
  VIOLATIONS : option (list violation);
  SUPPRESSIONS : option (list string);
  RESOURCE_COUNT : option Z;
  ASSESSED_RESOURCE_COUNT : option Z;
  SEVERITY : option Z }.

(** A row of the synced compliance table [:db_table]. *)
Record compliance := {
  reportType : option string;
  reportTime : option string;
  reportTitle : option string;
  accountId : option string;
  lwAccount : option string;
  recommendations : option (list recommendation) }.

(** [FROM :db_table, json_each(:db_table.recommendations)]: every report row
    paired with every element of its array; no row for a NULL array. *)
Definition json_each (db_table : list compliance) : list (compliance * recommendation) :=
  flat_map (fun t => match recommendations t with
                     | Some recs => map (fun c => (t, c)) recs
                     | None => []
                     end) db_table.

(** [json_array_length(x)] *)
Definition json_array_length (A : Type) (x : option (list A)) : option Z :=
  option_map (fun l => Z.of_nat (List.length l)) x.

(** The CASE that names a severity code. *)
Definition severity_name (code : option Z) : option string :=
  if Sql.holds (Sql.eq_int code (Some 1)) then Some "info"
  else if Sql.holds (Sql.eq_int code (Some 2)) then Some "low"
  else if Sql.holds (Sql.eq_int code (Some 3)) then Some "medium"
  else if Sql.holds (Sql.eq_int code (Some 4)) then Some "high"
  else if Sql.holds (Sql.eq_int code (Some 5)) then Some "critical"
  else None.

(** [CAST(100 - cast(v AS FLOAT)*100/a AS INTEGER)] *)
Definition coverage_real (v a : option Z) : option Z :=
  match v, a with
  | Some v, Some a =>
      if Z.eqb a 0 then None
      else Some (Sql.cast_integer (100 - inject_Z v * 100 / inject_Z a)%Q)
  | _, _ => None
  end.

(** The CASE of [percent]. *)
Definition percent_of (violation_count assessed : option Z) : option Z :=
  if Sql.holds (Sql.gt violation_count assessed) then Some 100
  else coverage_real violation_count assessed.

(** The rows of the ['report'] query. *)
Record report_row := {
  r_reportType : option string;
  r_reportTime : option string;
  r_reportTitle : option string;
  r_accountId : option string;
  r_lwAccount : option string;
  title : option string;
  info_link : option string;
  rec_id : option string;
  status : option string;
  category : option string;
  service : option string;
  violations : option (list violation);
  suppressions : option (list string);
  resource_count : option Z;
  assessed_resource_count : option Z;
  violation_count : option Z;
  suppression_count : option Z;
  severity : option string;
  severity_number : option Z;
  percent : option Z }.

Definition report_select (tc : compliance * recommendation) : report_row :=
  let (t, c) := tc in
  {| r_reportType := reportType t;
     r_reportTime := reportTime t;
     r_reportTitle := reportTitle t;
     r_accountId := accountId t;
     r_lwAccount := lwAccount t;
     title := TITLE c;
     info_link := INFO_LINK c;
     rec_id := REC_ID c;
     status := STATUS c;
     category := CATEGORY c;
     service := SERVICE c;
     violations := VIOLATIONS c;
     suppressions := SUPPRESSIONS c;
     resource_count := RESOURCE_COUNT c;
     assessed_resource_count := ASSESSED_RESOURCE_COUNT c;
     violation_count := json_array_length (VIOLATIONS c);
     suppression_count := json_array_length (SUPPRESSIONS c);
     severity := severity_name (SEVERITY c);
     severity_number := SEVERITY c;
     percent := percent_of (json_array_length (VIOLATIONS c)) (ASSESSED_RESOURCE_COUNT c) |}.

(** [where percent < 100 AND status != 'Compliant'] *)
Definition report_where (r : report_row) : bool :=
  Sql.holds (Sql.and3 (Sql.lt (percent r) (Some 100))
                      (Sql.not3 (Sql.eq_text (status r) (Some "Compliant")))).

(** [order by accountId, reportType, rec_id] *)
Definition report_order (a b : report_row) : comparison :=
  Sql.then_by (Sql.cmp_text (r_accountId a) (r_accountId b))
    (Sql.then_by (Sql.cmp_text (r_reportType a) (r_reportType b))
                 (Sql.cmp_text (rec_id a) (rec_id b))).

(** [ComplianceQueries["report"]] *)
Definition report (db_table : list compliance) : list report_row :=
  Sql.order_by report_order (filter report_where (map report_select (json_each db_table))).

(** The rows of the subquery [t] of the roll-ups, one per control. *)
Record t_row := {
  t_lwAccount : option string;
  t_accountId : option string;
  total_assessed_resource_count : option Z;
  total_violation_count : option Z;
  t_severity : option string;
  t_severity_number : option Z }.

Definition t_select (tc : compliance * recommendation) : t_row :=
  let (t, c) := tc in
  {| t_lwAccount := lwAccount t;
     t_accountId := accountId t;
     total_assessed_resource_count := ASSESSED_RESOURCE_COUNT c;
     total_violation_count := json_array_length (VIOLATIONS c);
     t_severity := severity_name (SEVERITY c);
     t_severity_number := SEVERITY c |}.

Definition t (db_table : list compliance) : list t_row :=
  map t_select (json_each db_table).

(** [SUM(CASE WHEN severity_number = n THEN total_violation_count ELSE 0 END)] *)
Definition sum_severity_number (n : Z) (grp : list t_row) : option Z :=
  Sql.sum (map (fun r => if Sql.holds (Sql.eq_int (t_severity_number r) (Some n))
                         then total_violation_count r else Some 0) grp).

(** The CASE of the aggregate [total_coverage]: integer arithmetic on the
    two sums. *)
Definition total_coverage_of (violations assessed : option Z) : option Z :=
  if Sql.holds (Sql.gt violations assessed) then Some 100
  else Sql.sub (Some 100) (Sql.div (Sql.mul violations (Some 100)) assessed).

(** [CASE WHEN CAST(x AS INTEGER) IS NULL THEN 0 ELSE CAST(x AS INTEGER) END] *)
Definition null_to_zero (x : option Z) : Z :=
  match x with None => 0 | Some z => z end.

(** The aggregate columns the three roll-ups share. *)
Record buckets := {
  total_coverage : option Z;
  b_total_assessed_resource_count : Z;
  b_total_violation_count : Z;
  critical : option Z;
  high : option Z;
  medium : option Z;
  low : option Z;
  info : option Z }.

Definition aggregate (grp : list t_row) : buckets :=
  {| total_coverage :=
       total_coverage_of (Sql.sum (map total_violation_count grp))
                         (Sql.sum (map total_assessed_resource_count grp));
     b_total_assessed_resource_count :=
       null_to_zero (Sql.sum (map total_assessed_resource_count grp));
     b_total_violation_count := null_to_zero (Sql.sum (map total_violation_count grp));
     critical := sum_severity_number 1 grp;
     high := sum_severity_number 2 grp;
     medium := sum_severity_number 3 grp;
     low := sum_severity_number 4 grp;
     info := sum_severity_number 5 grp |}.

(** [GROUP BY accountId, lwAccount] *)
Definition same_account (a b : option string * option string) : bool :=
  Sql.same (fst a) (fst b) && Sql.same (snd a) (snd b).

Definition t_account (r : t_row) : option string * option string :=
  (t_accountId r, t_lwAccount r).

(** The rows of [account_coverage]: accountId, lwAccount, the aggregates. *)
Definition account_row : Type := (option string * option string) * buckets.

(** [ORDER BY accountId, lwAccount, total_coverage] *)
Definition account_order (a b : account_row) : comparison :=
  Sql.then_by (Sql.cmp_text (fst (fst a)) (fst (fst b)))
    (Sql.then_by (Sql.cmp_text (snd (fst a)) (snd (fst b)))
                 (Sql.cmp_int (total_coverage (snd a)) (total_coverage (snd b)))).

(** [ComplianceQueries["account_coverage"]] *)
Definition account_coverage (db_table : list compliance) : list account_row :=
  let rows := t db_table in
  Sql.order_by account_order
    (map (fun g => (g, aggregate (filter (fun r => same_account g (t_account r)) rows)))
         (Sql.distinct same_account (map t_account rows))).

(** The rows of the summaries: lwAccount, total_accounts, the aggregates. *)
Definition summary_row : Type := (option string * Z) * buckets.

(** [ComplianceQueries["total_summary"]]: one row, whatever the table holds. *)
Definition total_summary (db_table : list compliance) : list summary_row :=
  let rows := t db_table in
  [((Some "Any", Sql.count_distinct (map t_accountId rows)), aggregate rows)].

(** [ComplianceQueries["lwaccount_summary"]]: grouped by tenant. *)
Definition lwaccount_summary (db_table : list compliance) : list summary_row :=
  let rows := t db_table in
  map (fun lw =>
         let grp := filter (fun r => Sql.same lw (t_lwAccount r)) rows in
         ((lw, Sql.count_distinct (map t_accountId grp)), aggregate grp))
      (Sql.distinct Sql.same (map t_lwAccount rows)).

(** The violations of the controls of one severity name, as the
    specification buckets them: the name is the one the [severity] column
    gives the control. *)
Definition violations_of_severity (name : string) (grp : list t_row) : option Z :=
  Sql.sum (map (fun r => if Sql.holds (Sql.eq_text (t_severity r) (Some name))
                         then total_violation_count r else Some 0) grp).

(** Sample rows. *)
Definition control (sev : Z) (viol : list violation) (assessed : Z) (st : string)
  : recommendation :=
  {| TITLE := None; INFO_LINK := None; REC_ID := Some "AWS_CIS_1_1"; STATUS := Some st;
     CATEGORY := None; SERVICE := None; VIOLATIONS := Some viol; SUPPRESSIONS := Some [];
     RESOURCE_COUNT := Some assessed; ASSESSED_RESOURCE_COUNT := Some assessed;
     SEVERITY := Some sev |}.

Definition report_of (lw acct : string) (recs : list recommendation) : compliance :=
  {| reportType := Some "AWS_CIS_S3"; reportTime := None; reportTitle := None;
     accountId := Some acct; lwAccount := Some lw; recommendations := Some recs |}.

Definition bucket (n : nat) : list violation :=
  repeat {| resource := "arn:aws:s3:::b"; region := "us-east-1" |} n.

(** One account with one control of severity code 5 (critical) that two
    resources violate. *)
Definition critical_table : list compliance :=
  [report_of "T" "aws:1" [control 5 (bucket 2) 10 "NonCompliant"]].

(** One control violated by 5 of 10 resources, one by 12 where 10 were
    assessed. *)
Definition percent_table : list compliance :=
  [report_of "T" "aws:1" [control 4 (bucket 5) 10 "NonCompliant";
                          control 4 (bucket 12) 10 "NonCompliant"]].

End ComplianceQueries.

(* ================================================================== *)
(** ** Python values, dicts and strings *)

Module Py.

(** The JSON-shaped values a report row holds. *)
Inductive value :=
| None_
| Bool (b : bool)
| Int (z : Z)
| Float (mantissa exponent : Z)
| Str (s : string)
| List_ (l : list value)
| Dict (d : list (string * value)).

(** A dict with string keys, in insertion order. *)
Definition dict : Type := list (string * value).

Definition keys (d : dict) : list string := map fst d.

(** [d.get(k)] *)
Fixpoint get (d : dict) (k : string) : option value :=
  match d with
  | [] => None
  | (k', v) :: d' => if String.eqb k k' then Some v else get d' k
  end.

(** [d[k] = v]: the value of a present key is replaced in place, a new key
    goes to the end. *)
Fixpoint set_item (d : dict) (k : string) (v : value) : dict :=
  match d with
  | [] => [(k, v)]
  | (k', v') :: d' =>
      if String.eqb k k' then (k, v) :: d' else (k', v') :: set_item d' k v
  end.

(** [d.pop(k)]: the dict without [k]; [None] stands for the KeyError. *)
Fixpoint pop (d : dict) (k : string) : option dict :=
  match d with
  | [] => None
  | (k', v') :: d' =>
      if String.eqb k k' then Some d'
      else option_map (cons (k', v')) (pop d' k)
  end.

(** [a == b] on the values above. *)
Fixpoint eqb (a b : value) : bool :=
  match a, b with
  | None_, None_ => true
  | Bool x, Bool y => Bool.eqb x y
  | Int x, Int y => Z.eqb x y
  | Float m e, Float m' e' => Z.eqb m m' && Z.eqb e e'
  | Str x, Str y => String.eqb x y
  | List_ l, List_ l' =>
      (fix all2 (l l' : list value) : bool :=
         match l, l' with
         | [], [] => true
         | x :: t, y :: t' => eqb x y && all2 t t'
         | _, _ => false
         end) l l'
  | Dict d, Dict d' =>
      (fix all2 (d d' : list (string * value)) : bool :=
         match d, d' with
         | [], [] => true
         | (k, x) :: t, (k', y) :: t' => String.eqb k k' && eqb x y && all2 t t'
         | _, _ => false
         end) d d'
  | _, _ => false
  end.

(** [s.split(sep)] for a one-character separator: never empty. *)
Fixpoint split (sep : ascii) (s : string) : list string :=
  match s with
  | EmptyString => [EmptyString]
  | String c s' =>
      if Ascii.eqb c sep then EmptyString :: split sep s'
      else match split sep s' with
           | seg :: segs => String c seg :: segs
           | [] => [String c EmptyString]
           end
  end.

Definition upper_char (c : ascii) : ascii :=
  let n := nat_of_ascii c in
  if (Nat.leb 97 n && Nat.leb n 122)%bool then ascii_of_nat (n - 32) else c.

Definition lower_char (c : ascii) : ascii :=
  let n := nat_of_ascii c in
  if (Nat.leb 65 n && Nat.leb n 90)%bool then ascii_of_nat (n + 32) else c.

Fixpoint map_string (f : ascii -> ascii) (s : string) : string :=
  match s with
  | EmptyString => EmptyString
  | String c s' => String (f c) (map_string f s')
  end.

(** [s.upper()], on ASCII text. *)
Definition upper (s : string) : string := map_string upper_char s.

Definition lower (s : string) : string := map_string lower_char s.

(** [x in l] for a list of strings. *)
Definition contains (l : list string) (x : string) : bool := existsb (String.eqb x) l.

(** What an f-string prints for a value that is a str or [None]. *)
Definition format (o : option string) : string :=
  match o with
  | Some s => s
  | None => "None"
  end.

(** The exceptions the modelled code lets escape. *)
Inductive exn :=
| IndexError
| ValueError
| TypeError
| KeyError
| ApiError
| Exception (msg : string)
| OperationalError (e : Sql.error).

Inductive outcome (A : Type) :=
| Return (a : A)
| Raise (e : exn).

Arguments Return {A} a.
Arguments Raise {A} e.

Definition bind (A B : Type) (m : outcome A) (k : A -> outcome B) : outcome B :=
  match m with
  | Return a => k a
  | Raise e => Raise e
  end.

End Py.

(* ================================================================== *)
(** ** [ReportHelper.get_cloud_accounts] *)

Module Discovery.

(** The fields of an integration every branch reads:
    [row["name"]], [row["isOrg"]], [row["enabled"]], [row["state"]["ok"]]. *)
Record common := {
  name : string;
  isOrg : bool;
  enabled : bool;
  state_ok : bool }.

(** An element of [cloud_accounts["data"]], by its [type] tag, with the
    fields its branch reads: the keys of
    [state.details.projectErrors] / [subscriptionErrors], [data.id],
    [data.idType], [data.crossAccountCredentials.roleArn], [data.tenantId]. *)
Inductive integration :=
| GcpCfg (c : common) (projectErrors : list string) (id idType : string)
| AwsCfg (c : common) (roleArn : string)
| AzureCfg (c : common) (subscriptionErrors : list string) (tenantId : string)
| OtherCfg (type : string) (c : common).

(** A row of the LQL query over [LW_HE_MACHINES]. *)
Record machine_account := {
  ACCOUNTID : option string;
  PROJECTID : option string;
  VMPROVIDER : option string }.

(** An entry of the returned list. *)
Record account := {
  a_lwAccount : string;
  accountId : string;
  a_name : string;
  a_isOrg : option bool;
  a_enabled : bool;
  a_state : option bool;
  a_type : string }.

(** The locals of the function: the result list and the three dedup lists. *)
Record locals := {
  accounts : list account;
  aws_accounts : list string;
  gcp_accounts : list string;
  azure_accounts : list string }.

Definition integrated (lwAccount accountId type : string) (c : common) : account :=
  {| a_lwAccount := lwAccount;
     accountId := accountId;
     a_name := name c;
     a_isOrg := Some (isOrg c);
     a_enabled := enabled c;
     a_state := Some (state_ok c);
     a_type := type |}.

Definition lql_discovered (lwAccount accountId type : string) : account :=
  {| a_lwAccount := lwAccount;
     accountId := accountId;
     a_name := "LQL Discovered";
     a_isOrg := None;
     a_enabled := true;
     a_state := None;
     a_type := type |}.

(** The organization id of a GcpCfg row after the override. *)
Definition gcp_orgId (id idType : string) (organization : option string) : option string :=
  let orgId := if String.eqb idType "ORGANIZATION" then Some id else None in
  match orgId with
  | Some _ => orgId
  | None => match organization with
            | Some _ => organization
            | None => orgId
            end
  end.

(** [for projectId in projectIds: ...] *)
Definition gcp_project (lwAccount : string) (c : common) (orgId : option string)
           (st : locals) (projectId : string) : locals :=
  let accountId := "gcp:" ++ Py.format orgId ++ ":" ++ projectId in
  if negb (Py.contains (gcp_accounts st) projectId) then
    {| accounts := accounts st ++ [integrated lwAccount accountId "GcpCfg" c];
       aws_accounts := aws_accounts st;
       gcp_accounts := gcp_accounts st ++ [projectId];
       azure_accounts := azure_accounts st |}
  else st.

(** [for subscriptionId in subscriptionIds: ...] *)
Definition azure_subscription (lwAccount : string) (c : common) (tenantId : string)
           (st : locals) (subscriptionId : string) : locals :=
  let accountId := "az:" ++ tenantId ++ ":" ++ Py.upper subscriptionId in
  if negb (Py.contains (azure_accounts st) (Py.upper subscriptionId)) then
    {| accounts := accounts st ++ [integrated lwAccount accountId "AzureCfg" c];
       aws_accounts := aws_accounts st;
       gcp_accounts := gcp_accounts st;
       azure_accounts := azure_accounts st ++ [Py.upper subscriptionId] |}
  else st.

(** The body of [for row in cloud_accounts["data"]]. *)
Definition integration_row (lwAccount : string) (organization : option string)
           (st : locals) (row : integration) : Py.outcome locals :=
  match row with
  | GcpCfg c projectIds id idType =>
      Py.Return (fold_left (gcp_project lwAccount c (gcp_orgId id idType organization))
                           projectIds st)
  | AwsCfg c roleArn =>
      match nth_error (Py.split ":" roleArn) 4 with
      | None => Py.Raise Py.IndexError
      | Some account =>
          let accountId := "aws:" ++ account in
          if negb (Py.contains (aws_accounts st) account) then
            Py.Return
              {| accounts := accounts st ++ [integrated lwAccount accountId "AwsCfg" c];
                 aws_accounts := aws_accounts st ++ [account];
                 gcp_accounts := gcp_accounts st;
                 azure_accounts := azure_accounts st |}
          else Py.Return st
      end
  | AzureCfg c subscriptionIds tenantId =>
      Py.Return (fold_left (azure_subscription lwAccount c tenantId) subscriptionIds st)
  | OtherCfg _ _ => Py.Return st
  end.

Fixpoint integration_pass (lwAccount : string) (organization : option string)
         (st : locals) (rows : list integration) : Py.outcome locals :=
  match rows with
  | [] => Py.Return st
  | row :: rest =>
      Py.bind (integration_row lwAccount organization st row)
              (fun st' => integration_pass lwAccount organization st' rest)
  end.

(** [accountId.split(":")[-1]] *)
Definition last_segment (accountId : string) : string :=
  last (Py.split ":" accountId) "".

Definition equals (o : option string) (s : string) : bool :=
  match o with
  | Some x => String.eqb x s
  | None => false
  end.

(** The three conditions of the if / elif / elif over a telemetry row; each
    gives the raw identifier when it holds. *)
Definition aws_candidate (st : locals) (m : machine_account) : option string :=
  match ACCOUNTID m with
  | Some a =>
      if equals (VMPROVIDER m) "AWS" && negb (Py.contains (aws_accounts st) a)
      then Some a else None
  | None => None
  end.

Definition gcp_candidate (st : locals) (m : machine_account) : option string :=
  match PROJECTID m with
  | Some p =>
      if equals (VMPROVIDER m) "GCE" && negb (Py.contains (gcp_accounts st) p)
      then Some p else None
  | None => None
  end.

Definition azure_candidate (st : locals) (m : machine_account) : option string :=
  match PROJECTID m with
  | Some p =>
      if equals (VMPROVIDER m) "Azure" && negb (Py.contains (azure_accounts st) p)
      then Some p else None
  | None => None
  end.

(** The body of [for m in machine_accounts]. *)
Definition telemetry_row (lwAccount : string) (st : locals) (m : machine_account) : locals :=
  match aws_candidate st m with
  | Some a =>
      let accountId := "aws:" ++ a in
      if negb (Py.contains (aws_accounts st) (last_segment accountId)) then
        {| accounts := accounts st ++ [lql_discovered lwAccount accountId "AwsLql"];
           aws_accounts := aws_accounts st ++ [a];
           gcp_accounts := gcp_accounts st;
           azure_accounts := azure_accounts st |}
      else st
  | None =>
  match gcp_candidate st m with
  | Some p =>
      let accountId := "gcp::" ++ p in
      if negb (Py.contains (gcp_accounts st) (last_segment accountId)) then
        {| accounts := accounts st ++ [lql_discovered lwAccount accountId "GcpLql"];
           aws_accounts := aws_accounts st;
           gcp_accounts := gcp_accounts st ++ [p];
           azure_accounts := azure_accounts st |}
      else st
  | None =>
  match azure_candidate st m with
  | Some p =>
      let accountId := "az::" ++ p in
      if negb (Py.contains (azure_accounts st) (last_segment accountId)) then
        {| accounts := accounts st ++ [lql_discovered lwAccount accountId "AzureLql"];
           aws_accounts := aws_accounts st;
           gcp_accounts := gcp_accounts st;
           azure_accounts := azure_accounts st ++ [p] |}
      else st
  | None => st
  end end end.

Definition telemetry_pass (lwAccount : string) (st : locals)
           (machine_accounts : list machine_account) : locals :=
  fold_left (telemetry_row lwAccount) machine_accounts st.

Definition start : locals :=
  {| accounts := []; aws_accounts := []; gcp_accounts := []; azure_accounts := [] |}.

(** [get_cloud_accounts]: [cloud_accounts] is [cloud_accounts["data"]],
    [machine_accounts] the rows the LQL query returned. *)
Definition get_cloud_accounts (cloud_accounts : list integration)
           (machine_accounts : list machine_account)
           (lwAccount : string) (organization : option string)
  : Py.outcome (list account) :=
  Py.bind (integration_pass lwAccount organization start cloud_accounts)
          (fun st => Py.Return (accounts (telemetry_pass lwAccount st machine_accounts))).

Fixpoint has_colon (s : string) : bool :=
  match s with
  | EmptyString => false
  | String c s' => Ascii.eqb c ":" || has_colon s'
  end.

(** The scope segment an integration puts into its composite keys: the
    organization id of a GcpCfg row, the tenant id of an AzureCfg row. *)
Definition scope_segment (organization : option string) (row : integration) : string :=
  match row with
  | GcpCfg _ _ id idType => Py.format (gcp_orgId id idType organization)
  | AzureCfg _ _ tenantId => tenantId
  | _ => ""
  end.

(** An entry that the telemetry pass may put on top of the locals [st]: an
    LQL-discovered account of a telemetry row whose raw identifier is not
    in the provider's dedup list of [st]. *)
Definition telemetry_derived (lwAccount : string) (st : locals)
           (machine_accounts : list machine_account) (e : account) : Prop :=
  (exists a, e = lql_discovered lwAccount ("aws:" ++ a) "AwsLql" /\
             ~ In a (aws_accounts st) /\
             exists m, In m machine_accounts /\ ACCOUNTID m = Some a /\
                       VMPROVIDER m = Some "AWS") \/
  (exists p, e = lql_discovered lwAccount ("gcp::" ++ p) "GcpLql" /\
             ~ In p (gcp_accounts st) /\
             exists m, In m machine_accounts /\ PROJECTID m = Some p /\
                       VMPROVIDER m = Some "GCE") \/
  (exists p, e = lql_discovered lwAccount ("az::" ++ p) "AzureLql" /\
             ~ In p (azure_accounts st) /\
             exists m, In m machine_accounts /\ PROJECTID m = Some p /\
                       VMPROVIDER m = Some "Azure").

(** The composite key of an entry is built from a raw identifier of the
    dedup list of its provider, behind a scope segment without colon. *)
Definition keyed (st : locals) (e : account) : Prop :=
  (exists x, accountId e = "aws:" ++ x /\ In x (aws_accounts st)) \/
  (exists o p, accountId e = "gcp:" ++ o ++ ":" ++ p /\
               has_colon o = false /\ In p (gcp_accounts st)) \/
  (exists t s, accountId e = "az:" ++ t ++ ":" ++ s /\
               has_colon t = false /\ In s (azure_accounts st)).

Definition well_keyed (st : locals) : Prop :=
  NoDup (map accountId (accounts st)) /\ Forall (keyed st) (accounts st).

(** The dedup lists only grow. *)
Definition grows (st st' : locals) : Prop :=
  incl (aws_accounts st) (aws_accounts st') /\
  incl (gcp_accounts st) (gcp_accounts st') /\
  incl (azure_accounts st) (azure_accounts st').

Definition some_common : common :=
  {| name := "integration"; isOrg := false; enabled := true; state_ok := true |}.


(** A GCP project that is integrated and also seen in the telemetry. *)
Definition gcp_integrations : list integration :=
  [GcpCfg some_common ["proj-1"] "123" "ORGANIZATION"].

Definition gcp_telemetry : list machine_account :=
  [{| ACCOUNTID := None; PROJECTID := Some "proj-1"; VMPROVIDER := Some "GCE" |};
   {| ACCOUNTID := None; PROJECTID := Some "proj-2"; VMPROVIDER := Some "GCE" |}].

(** What a pass over integrations keeps and brings: well-keyed locals,
    grown dedup lists, and entries with an [isOrg] appended. *)
Definition extended (st st' : locals) : Prop :=
  well_keyed st' /\ grows st st' /\
  exists added, accounts st' = (accounts st ++ added)%list /\
                Forall (fun e => a_isOrg e <> None) added.

End Discovery.

(* ================================================================== *)
(** ** [ReportHelper.get_compliance_report] *)

Module ComplianceFetch.

(** What a call of the Lacework client gives: the ["data"] list of the
    response, or a [laceworksdk.exceptions.ApiError]. *)
Inductive api_result :=
| ApiOk (data : list Py.dict)
| ApiFail.

(** [client.compliance]: the three report getters, by their keyword
    arguments in the order of the source ([file_format] is always "json"). *)
Record client := {
  get_latest_aws_report : string -> string -> api_result;
  get_latest_gcp_report : string -> string -> string -> api_result;
  get_latest_azure_report : string -> string -> string -> api_result }.

(** What the call does besides returning: the reports it fetches and the
    lines it logs. *)
Inductive event :=
| Fetch_aws (aws_account_id report_type : string)
| Fetch_gcp (gcp_organization_id gcp_project_id report_type : string)
| Fetch_azure (azure_tenant_id azure_subscription_id report_type : string)
| Log_error
| Log_warn.

Definition is_none (A : Type) (o : option A) : bool :=
  match o with None => true | Some _ => false end.

(** [r.pop(k)] for each [k] of [drop], in order. *)
Fixpoint pop_all (r : Py.dict) (drop : list string) : Py.outcome Py.dict :=
  match drop with
  | [] => Py.Return r
  | k :: rest =>
      match Py.pop r k with
      | Some r' => pop_all r' rest
      | None => Py.Raise Py.KeyError
      end
  end.

(** The body of a [try]: pop the last element of the data, inject the two
    context fields, drop the provider's own id fields, append to [result]. *)
Definition try_body (data : list Py.dict) (cloud_account lwAccount : string)
           (drop : list string) : Py.outcome (list Py.dict) :=
  match rev data with
  | [] => Py.Raise Py.IndexError
  | r :: _ =>
      let r := Py.set_item r "accountId" (Py.Str cloud_account) in
      let r := Py.set_item r "lwAccount" (Py.Str lwAccount) in
      Py.bind (pop_all r drop) (fun r => Py.Return [r])
  end.

(** A [try] with its [except ApiError] handler. *)
Definition try_fetch (report : api_result) (fetch : event)
           (cloud_account lwAccount : string) (drop : list string)
           (ignore_errors : bool) : Py.outcome (list Py.dict) * list event :=
  match report with
  | ApiOk data => (try_body data cloud_account lwAccount drop, [fetch])
  | ApiFail =>
      (if ignore_errors then Py.Return [] else Py.Raise Py.ApiError, [fetch; Log_error])
  end.

(** [get_compliance_report]; the three compliance arguments are the
    [.value] strings of their enums. *)
Definition get_compliance_report (c : client) (lwAccount cloud_account : string)
           (aws_compliance gcp_compliance azure_compliance : string)
           (ignore_errors : bool) (organization : option string)
  : Py.outcome (list Py.dict) * list event :=
  let cloud_account_details := Py.split ":" cloud_account in
  let csp := hd "" cloud_account_details in
  if String.eqb csp "aws" then
    match nth_error cloud_account_details 1 with
    | None => (Py.Raise Py.IndexError, [])
    | Some accountId =>
        try_fetch (get_latest_aws_report c accountId aws_compliance)
                  (Fetch_aws accountId aws_compliance)
                  cloud_account lwAccount [] ignore_errors
    end
  else if String.eqb csp "gcp" then
    match cloud_account_details with
    | [_; orgId; projectId] =>
        (* a segment of a split string is a str: it is not None *)
        let orgId : option string := Some orgId in
        if is_none organization && is_none orgId then
          (* the message of the warning subscripts the str [cloud_account]
             with 'projectIds' *)
          (Py.Raise Py.TypeError, [])
        else
          let orgId :=
            match orgId with
            | Some _ => orgId
            | None => match organization with
                      | Some _ => organization
                      | None => orgId
                      end
            end in
          try_fetch (get_latest_gcp_report c (Py.format orgId) projectId gcp_compliance)
                    (Fetch_gcp (Py.format orgId) projectId gcp_compliance)
                    cloud_account lwAccount ["organizationId"; "projectId"] ignore_errors
    | _ => (Py.Raise Py.ValueError, [])
    end
  else if String.eqb csp "az" then
    match cloud_account_details with
    | [_; tenantId; subscriptionId] =>
        try_fetch (get_latest_azure_report c tenantId subscriptionId azure_compliance)
                  (Fetch_azure tenantId subscriptionId azure_compliance)
                  cloud_account lwAccount ["tenantId"; "subscriptionId"] ignore_errors
    | _ => (Py.Raise Py.ValueError, [])
    end
  else (Py.Return [], []).

(** What the specification asks of a GCP key without organization id: with
    [ignore_errors] the project is skipped with a warning and nothing is
    fetched; without it the call raises. *)
Definition skipped_or_raised (ignore_errors : bool)
           (r : Py.outcome (list Py.dict) * list event) : Prop :=
  if ignore_errors then r = (Py.Return [], [Log_warn])
  else exists e, fst r = Py.Raise e.

(** A client whose GCP getter answers with one report. *)
Definition gcp_reporting_client : client :=
  {| get_latest_aws_report := fun _ _ => ApiFail;
     get_latest_gcp_report := fun _ _ _ =>
       ApiOk [[("reportType", Py.Str "GCP_CIS12");
               ("organizationId", Py.Str "");
               ("projectId", Py.Str "my-project");
               ("recommendations", Py.List_ [])]];
     get_latest_azure_report := fun _ _ _ => ApiFail |}.

End ComplianceFetch.

(* ================================================================== *)
(** ** The SQLite store behind [df.to_sql] and [con.execute] *)

Module Store.

Local Open Scope list_scope.

(** The declared type of a column: JSON, INTEGER and TEXT are the ones the
    repair writes into its ALTER statements, the others are the ones pandas
    derives when it creates a table. *)
Inductive coltype := JSON | INTEGER | TEXT | BIGINT | FLOAT | BOOLEAN.

(** A stored value; [None] is NULL. *)
Definition cell : Type := option Py.value.

(** A table: its columns in declaration order and its rows in insertion
    order, every row holding one cell per column. *)
Record table := {
  columns : list (string * coltype);
  data : list (list cell) }.

(** SQLite matches column names without regard to ASCII case. *)
Definition ident_eqb (a b : string) : bool := String.eqb (Py.lower a) (Py.lower b).

Definition has_column (t : table) (k : string) : bool :=
  existsb (fun c => ident_eqb (fst c) k) (columns t).



(** The cell of a stored row under the column named [k]. *)
Fixpoint read (cols : list (string * coltype)) (r : list cell) (k : string) : cell :=
  match cols, r with
  | c :: cols', x :: r' => if ident_eqb (fst c) k then x else read cols' r' k
  | _, _ => None
  end.



Inductive result (A : Type) :=
| Ok (a : A)
| Error (e : Sql.error).

Arguments Ok {A} a.
Arguments Error {A} e.


(** [ALTER TABLE t ADD column k T]: existing rows read NULL in the new
    column. *)
Definition alter_table_add (t : table) (k : string) (ty : coltype) : result table :=
  if has_column t k then Error (Sql.DuplicateColumn k)
  else Ok {| columns := columns t ++ [(k, ty)];
             data := map (fun r => (r ++ [None])%list) (data t) |}.

Section Engine.

(** Whether appending a frame without columns stores a row of NULLs
    ([INSERT ... DEFAULT VALUES]) or nothing; the properties below hold
    either way. *)
Variable default_values_row : bool.










(** A query of the catalogue, run on the synced table. *)
Definition query : Type := option table -> Py.outcome (list cell).

(** [for query in queries.keys(): results[query] = ...] *)
Fixpoint run_queries (db : option table) (queries : list (string * query))
  : Py.outcome (list (string * list cell)) :=
  match queries with
  | [] => Py.Return []
  | (name, q) :: rest =>
      Py.bind (q db) (fun rows =>
      Py.bind (run_queries db rest) (fun results =>
      Py.Return ((name, rows) :: results)))
  end.


End Engine.

(** Equality of stored values, as DISTINCT compares them. *)
Definition cell_eqb (a b : cell) : bool :=
  match a, b with
  | Some x, Some y => Py.eqb x y
  | None, None => true
  | _, _ => false
  end.

(** The column a name resolves to. *)
Definition column_named (t : table) (k : string) : option string :=
  option_map fst (find (fun c => ident_eqb (fst c) k) (columns t)).

(** [ComplianceQueries["lwaccount"]] on the stored table:
    [SELECT DISTINCT lwaccount FROM :db_table]. *)
Definition lwaccount : query :=
  fun db =>
    match db with
    | None => Py.Raise (Py.OperationalError Sql.NoSuchTable)
    | Some t =>
        if has_column t "lwaccount"
        then Py.Return (Sql.distinct cell_eqb
                          (map (fun r => read (columns t) r "lwaccount") (data t)))
        else Py.Raise (Py.OperationalError (Sql.NoSuchColumn "lwaccount"))
    end.

















End Store.

(* ================================================================== *)
(** ** [ReportHelper.get_vulnerability_report] *)

Module VulnerabilityFetch.

Local Open Scope list_scope.
Import Store.

(** What the local [result] is bound to when the function returns: the list
    it starts as, or the key view that the probe of the sqlite branch
    rebinds it to. *)
Inductive returned :=
| Rows (rows : list Py.dict)
| Keys (columns : list string).

(** The tuple unpacking of [cloud_account_details] in the branch of its
    provider: two names for aws, three for gcp and az. *)
Definition unpacks (cloud_account_details : list string) : bool :=
  let csp := hd "" cloud_account_details in
  if String.eqb csp "aws" then Nat.eqb (List.length cloud_account_details) 2
  else if String.eqb csp "gcp" then Nat.eqb (List.length cloud_account_details) 3
  else if String.eqb csp "az" then Nat.eqb (List.length cloud_account_details) 3
  else true.

(** [if "accountId" not in columns or "lwAccount" not in columns:
       for column in ["accountId", "lwAccount"]: ALTER TABLE ... ADD column ... TEXT] *)
Definition add_context_columns (t : table) (columns : list string) : result table :=
  if negb (Py.contains columns "accountId") || negb (Py.contains columns "lwAccount") then
    match alter_table_add t "accountId" TEXT with
    | Ok t' => alter_table_add t' "lwAccount" TEXT
    | Error e => Error e
    end
  else Ok t.

Fixpoint set_where_null (cols : list (string * coltype)) (r : list cell)
         (k : string) (v : Py.value) : list cell :=
  match cols, r with
  | c :: cols', x :: r' =>
      (if ident_eqb (fst c) k
       then match x with None => Some v | Some _ => x end
       else x) :: set_where_null cols' r' k v
  | _, _ => r
  end.

(** [UPDATE t SET k = 'v' WHERE k IS NULL] *)
Definition update_where_null (t : table) (k : string) (v : string) : result table :=
  if has_column t k
  then Ok {| columns := columns t;
             data := map (fun r => set_where_null (columns t) r k (Py.Str v)) (data t) |}
  else Error (Sql.NoSuchColumn k).

(** [for column in ["accountId", "lwAccount"]: UPDATE ...] *)
Definition fill_context (t : table) (cloud_account lwAccount : string) : result table :=
  match update_where_null t "accountId" cloud_account with
  | Ok t' => update_where_null t' "lwAccount" lwAccount
  | Error e => Error e
  end.

(** [get_vulnerability_report].  [exported] is what
    [ExportHandler(...).export()] gives (the report rows, or an ApiError of
    the query behind it), [db] the table [db_table] as that export left it;
    the filters only shape the remote query.  The result is the returned
    value and the table afterwards. *)
Definition get_vulnerability_report (exported : ComplianceFetch.api_result)
           (db : option table) (lwAccount cloud_account : string)
           (ignore_errors use_sqlite : bool)
  : Py.outcome (returned * option table) :=
  if negb (unpacks (Py.split ":" cloud_account)) then Py.Raise Py.ValueError
  else
    match exported with
    | ComplianceFetch.ApiFail =>
        if ignore_errors then Py.Return (Rows [], db) else Py.Raise Py.ApiError
    | ComplianceFetch.ApiOk report =>
        if use_sqlite then
          match db with
          | Some t =>
              match data t with
              | [] => Py.Raise Py.IndexError
              | _ :: _ =>
                  let columns := map fst (columns t) in
                  match add_context_columns t columns with
                  | Error e => Py.Raise (Py.OperationalError e)
                  | Ok t' =>
                      match fill_context t' cloud_account lwAccount with
                      | Error e => Py.Raise (Py.OperationalError e)
                      | Ok t'' => Py.Return (Keys columns, Some t'')
                      end
                  end
              end
          | None => Py.Return (Rows [], None)
          end
        else
          Py.Return
            (Rows (map (fun r => Py.set_item (Py.set_item r "accountId" (Py.Str cloud_account))
                                             "lwAccount" (Py.Str lwAccount))
                       report),
             db)
    end.




End VulnerabilityFetch.

(* ================================================================== *)
(** ** [AgentQueries] *)

Module AgentQueries.

(** A row of the table [:db_table] of discovered machines, as
    [get_discovered_machines] stores it. *)
Record discovered := {
  LWACCOUNT : option string;
  ACCOUNTID : option string;
  INSTANCEID : option string;
  NAME : option string;
  STATE : option string;
  TAGS : option string }.

(** A row of the agent table [machines], as [get_active_machines] stores
    it, with the columns the agent queries read. *)
Record agent := {
  TAG_INSTANCEID : option string;
  LWTOKENSHORT : option string }.

(** [LOWER(x)]: ASCII letters are folded, NULL stays NULL. *)
Definition lower (x : option string) : option string := option_map Py.lower x.

(** [WHERE m.TAG_INSTANCEID = dm.INSTANCEID] *)
Definition agent_of (dm : discovered) (m : agent) : bool :=
  Sql.holds (Sql.eq_text (TAG_INSTANCEID m) (INSTANCEID dm)).

(** The rows of the subquery [t], the select list of ['report']. *)
Record t_row := {
  lwAccount : option string;
  accountId : option string;
  InstanceId : option string;
  name : option string;
  state : option string;
  tags : option string;
  has_agent : Z;
  lwTokenShort : option string }.

(** A scalar subquery gives the first row of its result, NULL when there
    is none; [COUNT( * )] counts the rows. *)
Definition t_select (machines : list agent) (dm : discovered) : t_row :=
  {| lwAccount := LWACCOUNT dm;
     accountId := ACCOUNTID dm;
     InstanceId := INSTANCEID dm;
     name := NAME dm;
     state := lower (STATE dm);
     tags := TAGS dm;
     has_agent := Z.of_nat (List.length (filter (agent_of dm) machines));
     lwTokenShort := match filter (agent_of dm) machines with
                     | m :: _ => LWTOKENSHORT m
                     | [] => None
                     end |}.

Definition t (machines : list agent) (db_table : list discovered) : list t_row :=
  map (t_select machines) db_table.

(** [ORDER BY LWACCOUNT, ACCOUNTID] *)
Definition report_order (a b : t_row) : comparison :=
  Sql.then_by (Sql.cmp_text (lwAccount a) (lwAccount b))
              (Sql.cmp_text (accountId a) (accountId b)).

(** [AgentQueries["report"]] *)
Definition report (machines : list agent) (db_table : list discovered) : list t_row :=
  Sql.order_by report_order (t machines db_table).

(** [WHERE STATE = 'running']: outside the subquery [STATE] names its
    column [state], the folded one. *)
Definition running (r : t_row) : bool :=
  Sql.holds (Sql.eq_text (state r) (Some "running")).

(** The aggregates the roll-ups share: [SUM(HAS_AGENT)], [COUNT( * )],
    [COUNT( * )-SUM(HAS_AGENT)], [SUM(HAS_AGENT)*100/COUNT( * )]. *)
Record coverage := {
  total_installed : option Z;
  total_not_installed : option Z;
  total : Z;
  total_coverage : option Z }.

Definition aggregate (grp : list t_row) : coverage :=
  let installed := Sql.sum (map (fun r => Some (has_agent r)) grp) in
  let count := Z.of_nat (List.length grp) in
  {| total_installed := installed;
     total_not_installed := Sql.sub (Some count) installed;
     total := count;
     total_coverage := Sql.div (Sql.mul installed (Some 100)) (Some count) |}.

(** [GROUP BY LWACCOUNT, ACCOUNTID] *)
Definition same_account (a b : option string * option string) : bool :=
  Sql.same (fst a) (fst b) && Sql.same (snd a) (snd b).

Definition t_account (r : t_row) : option string * option string :=
  (lwAccount r, accountId r).

(** The rows of [account_coverage]: lwAccount, accountId, the aggregates
    ([total_not_installed] is not selected there). *)
Definition account_row : Type := (option string * option string) * coverage.

Definition account_order (a b : account_row) : comparison :=
  Sql.then_by (Sql.cmp_text (fst (fst a)) (fst (fst b)))
              (Sql.cmp_text (snd (fst a)) (snd (fst b))).

(** [AgentQueries["account_coverage"]] *)
Definition account_coverage (machines : list agent) (db_table : list discovered)
  : list account_row :=
  let rows := filter running (t machines db_table) in
  Sql.order_by account_order
    (map (fun g => (g, aggregate (filter (fun r => same_account g (t_account r)) rows)))
         (Sql.distinct same_account (map t_account rows))).

(** The rows of the summaries: lwAccount, total_accounts, the aggregates. *)
Definition summary_row : Type := (option string * Z) * coverage.

(** [AgentQueries["total_summary"]]: an aggregate without GROUP BY gives
    one row, whatever the table holds. *)
Definition total_summary (machines : list agent) (db_table : list discovered)
  : list summary_row :=
  let rows := filter running (t machines db_table) in
  [((Some "Any", Sql.count_distinct (map accountId rows)), aggregate rows)].

(** [AgentQueries["lwaccount_summary"]]: grouped by tenant. *)
Definition lwaccount_summary (machines : list agent) (db_table : list discovered)
  : list summary_row :=
  let rows := filter running (t machines db_table) in
  map (fun lw =>
         let grp := filter (fun r => Sql.same lw (lwAccount r)) rows in
         ((lw, Sql.count_distinct (map accountId grp)), aggregate grp))
      (Sql.distinct Sql.same (map lwAccount rows)).

(** [AgentQueries["lwaccount"]] *)
Definition lwaccount (machines : list agent) (db_table : list discovered)
  : list (option string) :=
  Sql.distinct Sql.same (map lwAccount (t machines db_table)).

(** No two agent rows carry the same instance id. *)
Definition unique_agents (machines : list agent) : Prop :=
  NoDup (Sql.non_null (map TAG_INSTANCEID machines)).

(** Two tables that differ in the letter case of [STATE] only. *)
Definition same_but_case (d d' : discovered) : Prop :=
  LWACCOUNT d = LWACCOUNT d' /\ ACCOUNTID d = ACCOUNTID d' /\
  INSTANCEID d = INSTANCEID d' /\ NAME d = NAME d' /\ TAGS d = TAGS d' /\
  lower (STATE d) = lower (STATE d').

(** Sample rows. *)
Definition machine_of (lw acct i st : string) : discovered :=
  {| LWACCOUNT := Some lw; ACCOUNTID := Some acct; INSTANCEID := Some i;
     NAME := None; STATE := Some st; TAGS := None |}.

Definition agent_on (i : string) : agent :=
  {| TAG_INSTANCEID := Some i; LWTOKENSHORT := Some "token" |}.

End AgentQueries.

(* ================================================================== *)
(** ** Composite account keys *)

Module AccountKeys.

(** The cloud account a composite key stands for, with the raw
    identifiers the key is built from. *)
Inductive target :=
| Aws (account : string)
| Gcp (organizationId projectId : string)
| Az (tenantId subscriptionId : string).

(** The key as [get_cloud_accounts] writes it: [f"aws:{account}"],
    [f"gcp:{orgId}:{projectId}"], [f"az:{tenantId}:{subscriptionId}"]. *)
Definition key_of (x : target) : string :=
  match x with
  | Aws a => "aws:" ++ a
  | Gcp o p => "gcp:" ++ o ++ ":" ++ p
  | Az t s => "az:" ++ t ++ ":" ++ s
  end.

(** No raw identifier of the target holds a colon. *)
Definition colon_free (x : target) : Prop :=
  match x with
  | Aws a => Discovery.has_colon a = false
  | Gcp o p => Discovery.has_colon o = false /\ Discovery.has_colon p = false
  | Az t s => Discovery.has_colon t = false /\ Discovery.has_colon s = false
  end.

(** The getter of [client.compliance] that serves the target, applied as
    [get_compliance_report] applies it, and the event of that call. *)
Definition response (c : ComplianceFetch.client) (x : target)
           (aws_compliance gcp_compliance azure_compliance : string)
  : ComplianceFetch.api_result :=
  match x with
  | Aws a => ComplianceFetch.get_latest_aws_report c a aws_compliance
  | Gcp o p => ComplianceFetch.get_latest_gcp_report c o p gcp_compliance
  | Az t s => ComplianceFetch.get_latest_azure_report c t s azure_compliance
  end.

Definition fetch_of (x : target)
           (aws_compliance gcp_compliance azure_compliance : string)
  : ComplianceFetch.event :=
  match x with
  | Aws a => ComplianceFetch.Fetch_aws a aws_compliance
  | Gcp o p => ComplianceFetch.Fetch_gcp o p gcp_compliance
  | Az t s => ComplianceFetch.Fetch_azure t s azure_compliance
  end.

(** The id fields the branch of the target pops from the report. *)
Definition dropped (x : target) : list string :=
  match x with
  | Aws _ => []
  | Gcp _ _ => ["organizationId"; "projectId"]
  | Az _ _ => ["tenantId"; "subscriptionId"]
  end.

(** The raw identifiers of an integration and of a telemetry row hold no
    colon. *)
Definition plain_integration (organization : option string) (row : Discovery.integration)
  : Prop :=
  match row with
  | Discovery.GcpCfg _ projectIds id idType =>
      Discovery.has_colon (Py.format (Discovery.gcp_orgId id idType organization)) = false /\
      Forall (fun p => Discovery.has_colon p = false) projectIds
  | Discovery.AzureCfg _ subscriptionIds tenantId =>
      Discovery.has_colon tenantId = false /\
      Forall (fun s => Discovery.has_colon s = false) subscriptionIds
  | _ => True
  end.

Definition plain_machine (m : Discovery.machine_account) : Prop :=
  (forall a, Discovery.ACCOUNTID m = Some a -> Discovery.has_colon a = false) /\
  (forall p, Discovery.PROJECTID m = Some p -> Discovery.has_colon p = false).

(** The role ARN of an AwsCfg row has the fifth segment the code reads. *)
Definition has_account_segment (row : Discovery.integration) : bool :=
  match row with
  | Discovery.AwsCfg _ roleArn => Nat.leb 5 (List.length (Py.split ":" roleArn))
  | _ => true
  end.

(** What the telemetry pass keeps of the Azure dedup list: an id in it is
    upper-case text or has its LQL-discovered entry in the result. *)
Definition listed (lwAccount : string) (st : Discovery.locals) : Prop :=
  forall s, In s (Discovery.azure_accounts st) ->
            Py.upper s = s \/
            In (Discovery.lql_discovered lwAccount ("az::" ++ s) "AzureLql")
               (Discovery.accounts st).

(** The dedup lists hold colon-free identifiers only. *)
Definition plain_locals (st : Discovery.locals) : Prop :=
  Forall (fun x => Discovery.has_colon x = false) (Discovery.aws_accounts st) /\
  Forall (fun x => Discovery.has_colon x = false) (Discovery.gcp_accounts st) /\
  Forall (fun x => Discovery.has_colon x = false) (Discovery.azure_accounts st).

(** A telemetry row of Azure for the subscription [p]. *)
Definition azure_machine (p : string) : Discovery.machine_account :=
  {| Discovery.ACCOUNTID := None; Discovery.PROJECTID := Some p;
     Discovery.VMPROVIDER := Some "Azure" |}.

End AccountKeys.

(* ================================================================== *)
(** ** [sqlite_queries] and [sqlite_drop_table] *)

Module StoreCalls.

(** [sqlite_queries]: the queries of the catalogue, in the order of its
    keys, against the table the connection holds. *)
Definition sqlite_queries (queries : list (string * Store.query)) (db : option Store.table)
  : Py.outcome (list (string * list Store.cell)) :=
  Store.run_queries db queries.

(** [sqlite_drop_table]: the table is dropped when it exists; the call
    returns [True] either way.  The result is the returned value and the
    table afterwards. *)
Definition sqlite_drop_table (db : option Store.table) : bool * option Store.table :=
  match db with
  | Some _ => (true, None)
  | None => (true, None)
  end.

End StoreCalls.

(* ================================================================== *)
(** ** The context columns of the vulnerability table *)

Module VulnerabilityContext.



End VulnerabilityContext.

(* ================================================================== *)
(** ** The state of a [ReportHelper] *)

Module Helper.

(** [self.reports] and [self.subaccounts]. *)
Record state := {
  reports : list Py.dict;
  subaccounts : list Py.value }.

(** [__init__] *)
Definition init : state := {| reports := []; subaccounts := [] |}.

(** [report_callback]: [result] is [future.result()], a list of rows or
    [None]. *)
Definition report_callback (self : state) (result : option (list Py.dict)) : state :=
  match result with
  | Some report =>
      {| reports := (reports self ++ report)%list; subaccounts := subaccounts self |}
  | None => self
  end.

Definition get_reports (self : state) : list Py.dict := reports self.

(** An element of [client.user_profile.get()["data"]]. *)
Record profile := {
  orgAdmin : bool;
  accounts : list Py.value }.

(** What [get_subaccounts] asks of the client and logs. *)
Inductive event :=
| Organization_info_get
| User_profile_get
| Log_info
| Log_warning.

(** [for p in profile["data"]: ...] *)
Fixpoint enumerate (profiles : list profile) (subaccounts : list Py.value)
  : list Py.value * list event :=
  match profiles with
  | [] => (subaccounts, [])
  | p :: rest =>
      if orgAdmin p
      then let (r, log) := enumerate rest (subaccounts ++ accounts p)%list in
           (r, Log_info :: log)
      else let (r, log) := enumerate rest subaccounts in
           (r, Log_warning :: log)
  end.

(** [get_subaccounts]: [org_info] holds the [orgAccount] of the elements
    of [client.organization_info.get()["data"]], [profiles] is what
    [client.user_profile.get()] would answer.  The result is the returned
    list, the state afterwards and the events. *)
Definition get_subaccounts (self : state) (org_info : list bool) (profiles : list profile)
  : list Py.value * state * list event :=
  let is_org := fold_left (fun _ i => i) org_info false in
  if is_org then
    let (subaccounts, log) := enumerate profiles [] in
    (subaccounts, {| reports := reports self; subaccounts := subaccounts |},
     Organization_info_get :: Log_info :: User_profile_get :: log)
  else
    ([], {| reports := reports self; subaccounts := [] |},
     [Organization_info_get; Log_warning]).

End Helper.

(* ================================================================== *)
(** ** The inventory fetchers *)

Module MachineFetch.

Local Open Scope string_scope.

(** An LQL query, by its template and the text the f-string puts into
    it: the tenant, what stands in the [filter] block, and the select
    expression of [accountId]. *)
Inductive query :=
| Machines (lwAccount filter accountId : string)
| Machine_accounts (lwAccount filter accountId : string)
| Ec2_instances (lwAccount filter : string)
| Gce_instances (lwAccount filter : string)
| Ec2_accounts (lwAccount : string)
| Gce_accounts (lwAccount : string).

(** What escapes the fetchers. *)
Inductive failure :=
| ValueError
| UnboundLocalError
| ApiError.

Inductive outcome (A : Type) :=
| Return (a : A)
| Raise (e : failure).

Arguments Return {A} a.
Arguments Raise {A} e.

(** [ExportHandler(format=..., results=QueryHandler(...).execute(), ...).export()]
    for a query: the rows as a list, or the ApiError of the execution. *)
Definition exporter : Type := query -> ComplianceFetch.api_result.

(** [try: result = ExportHandler(...).export(); results = results + result
     except ApiError: log; if not ignore_errors: raise] *)
Definition try_append (export : exporter) (ignore_errors : bool) (q : query)
           (results : list Py.dict) : outcome (list Py.dict) * list query :=
  match export q with
  | ComplianceFetch.ApiOk rows => (Return (results ++ rows)%list, [q])
  | ComplianceFetch.ApiFail =>
      (if ignore_errors then Return results else Raise ApiError, [q])
  end.

(** The query of one pass of [for csp in ["aws", "gcp", "az"]]; the last
    arm is that of "az", the only other value the loop gives [csp]. *)
Definition active_accounts_query (lwAccount csp : string) : query :=
  if String.eqb csp "aws" then
    Machine_accounts lwAccount "m.TAGS:VmProvider::String IN ('AWS')"
                     "'aws:' || m.TAGS:Account::String AS accountId"
  else if String.eqb csp "gcp" then
    Machine_accounts lwAccount "m.TAGS:VmProvider::String IN ('GCE')"
                     "'gcp:' ||  m.TAGS:ProjectId::String AS accountId"
  else
    Machine_accounts lwAccount "m.TAGS:VmProvider::String IN ('Azure')"
                     "'az:' ||  m.TAGS:ProjectId::String AS accountId".

(** [for csp in ...: try: ... except ...], from the results so far. *)
Fixpoint each_provider (export : exporter) (lwAccount : string) (ignore_errors : bool)
         (csps : list string) (results : list Py.dict)
  : outcome (list Py.dict) * list query :=
  match csps with
  | [] => (Return results, [])
  | csp :: rest =>
      match try_append export ignore_errors (active_accounts_query lwAccount csp) results with
      | (Return results', sent) =>
          let (r, sent') := each_provider export lwAccount ignore_errors rest results' in
          (r, (sent ++ sent')%list)
      | (Raise e, sent) => (Raise e, sent)
      end
  end.

(** [get_active_cloud_accounts]: the result and the queries sent. *)
Definition get_active_cloud_accounts (export : exporter) (lwAccount : string)
           (ignore_errors : bool) : outcome (list Py.dict) * list query :=
  each_provider export lwAccount ignore_errors ["aws"; "gcp"; "az"] [].

(** [get_discovered_cloud_accounts]: the EC2 query, then the GCE query. *)
Definition get_discovered_cloud_accounts (export : exporter) (lwAccount : string)
           (ignore_errors : bool) : outcome (list Py.dict) * list query :=
  match try_append export ignore_errors (Ec2_accounts lwAccount) [] with
  | (Return results, sent) =>
      let (r, sent') := try_append export ignore_errors (Gce_accounts lwAccount) results in
      (r, (sent ++ sent')%list)
  | (Raise e, sent) => (Raise e, sent)
  end.

(** [try: result = ExportHandler(...).export()
     except ApiError: log; if not ignore_errors: raise], from [result = []]. *)
Definition try_assign (export : exporter) (ignore_errors : bool) (q : query)
  : outcome (list Py.dict) * list query :=
  match export q with
  | ComplianceFetch.ApiOk rows => (Return rows, [q])
  | ComplianceFetch.ApiFail => (if ignore_errors then Return [] else Raise ApiError, [q])
  end.

(** [get_active_machines] *)
Definition get_active_machines (export : exporter) (lwAccount cloud_account : string)
           (ignore_errors : bool) : outcome (list Py.dict) * list query :=
  let cloud_account_details := Py.split ":" cloud_account in
  let csp := hd "" cloud_account_details in
  if String.eqb csp "aws" then
    match cloud_account_details with
    | [_; accountId] =>
        let filter :=
          if negb (String.eqb accountId "*")
          then Some ("m.TAGS:Account::String = '" ++ accountId
                     ++ "' AND m.TAGS:VmProvider::String IN ('AWS')")
          else None in
        try_assign export ignore_errors
                   (Machines lwAccount (Py.format filter)
                             "'aws:' || m.TAGS:Account::String AS accountId,")
    | _ => (Raise ValueError, [])
    end
  else if String.eqb csp "gcp" then
    match cloud_account_details with
    | [_; organizationId; projectId] =>
        let filter :=
          if negb (String.eqb projectId "*")
          then Some ("m.TAGS:ProjectId::String = '" ++ projectId
                     ++ "' AND m.TAGS:VmProvider::String IN ('GCE')")
          else None in
        try_assign export ignore_errors
                   (Machines lwAccount (Py.format filter)
                             ("'gcp:' || '" ++ organizationId
                              ++ "' || ':' ||  m.TAGS:ProjectId::String AS accountId,"))
    | _ => (Raise ValueError, [])
    end
  else if String.eqb csp "az" then
    match cloud_account_details with
    | [_; tenantId; subscriptionId] =>
        let filter :=
          if negb (String.eqb subscriptionId "*")
          then Some ("m.TAGS:ProjectId::String = '" ++ subscriptionId
                     ++ "' AND m.TAGS:VmProvider::String IN ('Azure')")
          else None in
        try_assign export ignore_errors
                   (Machines lwAccount (Py.format filter)
                             ("'az:' || '" ++ tenantId
                              ++ "' || ':' ||  m.TAGS:ProjectId::String AS accountId,"))
    | _ => (Raise ValueError, [])
    end
  else
    (* no branch has bound [filter] and [accountId] *)
    (Raise UnboundLocalError, []).

(** The [filter] of the GCE query: the organization condition and the
    project condition that apply ([None] when both are wildcards); the
    line breaks and the indentation of the text are left out. *)
Definition gce_filter (organizationId projectId : string) : option string :=
  if String.eqb organizationId "*" && String.eqb projectId "*" then None
  else if negb (String.eqb organizationId "*") && negb (String.eqb projectId "*") then
    Some ("AND ORGANIZATION = " ++ organizationId
          ++ " AND CONTAINS(m.URN, '://compute.googleapis.com/projects/" ++ projectId ++ "/')")
  else if negb (String.eqb organizationId "*") && String.eqb projectId "*" then
    Some ("AND ORGANIZATION = " ++ organizationId)
  else
    Some ("AND CONTAINS(m.URN, '://compute.googleapis.com/projects/" ++ projectId ++ "/')").

(** What [get_discovered_machines] does besides returning. *)
Inductive event :=
| Sent (q : query)
| Log_warn.

(** [get_discovered_machines] *)
Definition get_discovered_machines (export : exporter) (lwAccount cloud_account : string)
           (ignore_errors : bool) : outcome (list Py.dict) * list event :=
  let cloud_account_details := Py.split ":" cloud_account in
  let csp := hd "" cloud_account_details in
  if String.eqb csp "aws" then
    match cloud_account_details with
    | [_; accountId] =>
        let filter :=
          if String.eqb accountId "*" then None
          else Some ("ACCOUNT_ID = '" ++ accountId ++ "'") in
        let (r, sent) :=
          try_assign export ignore_errors (Ec2_instances lwAccount (Py.format filter)) in
        (r, map Sent sent)
    | _ => (Raise ValueError, [])
    end
  else if String.eqb csp "gcp" then
    match cloud_account_details with
    | [_; organizationId; projectId] =>
        let (r, sent) :=
          try_assign export ignore_errors
                     (Gce_instances lwAccount
                                    (Py.format (gce_filter organizationId projectId))) in
        (r, map Sent sent)
    | _ => (Raise ValueError, [])
    end
  else (Return [], [Log_warn]).

(** The rows a query adds to the results when its error is ignored. *)
Definition rows_of (export : exporter) (q : query) : list Py.dict :=
  match export q with
  | ComplianceFetch.ApiOk rows => rows
  | ComplianceFetch.ApiFail => []
  end.

Definition answers (export : exporter) (q : query) : bool :=
  match export q with
  | ComplianceFetch.ApiOk _ => true
  | ComplianceFetch.ApiFail => false
  end.

(** The queries up to the first one that fails, that one included. *)
Fixpoint until_failure (export : exporter) (qs : list query) : list query :=
  match qs with
  | [] => []
  | q :: rest => q :: (if answers export q then until_failure export rest else [])
  end.

End MachineFetch.

(** * Properties of the embedded program *)

Open Scope list_scope.

Module SqlFacts.

Lemma same_refl a : Sql.same a a = true.
Proof. destruct a as [s|]; simpl; [apply String.eqb_refl | reflexivity]. Qed.

Lemma same_eq a b : Sql.same a b = true <-> a = b.
Proof.
  destruct a as [x|], b as [y|]; simpl; split; intro H;
    try discriminate; try reflexivity.
  - apply String.eqb_eq in H. now subst.
  - inversion H. apply String.eqb_refl.
Qed.

Lemma same_sym a b : Sql.same a b = Sql.same b a.
Proof.
  destruct (Sql.same a b) eqn:E.
  - apply same_eq in E. subst. symmetry. apply same_refl.
  - destruct (Sql.same b a) eqn:E'; [|reflexivity].
    apply same_eq in E'. subst. rewrite same_refl in E. discriminate.
Qed.

Lemma non_null_some (A B : Type) (f : A -> B) (l : list A) :
  Sql.non_null (map (fun x => Some (f x)) l) = map f l.
Proof. induction l as [|x l IH]; simpl; [reflexivity | now rewrite IH]. Qed.

Lemma sum_some (A : Type) (f : A -> Z) (l : list A) :
  l <> [] -> Sql.sum (map (fun x => Some (f x)) l) = Some (Sql.total (map f l)).
Proof.
  intro H. unfold Sql.sum. rewrite non_null_some.
  destruct l as [|x l]; [contradiction | reflexivity].
Qed.

Lemma total_cons x l : Sql.total (x :: l) = x + Sql.total l.
Proof. reflexivity. Qed.

Lemma total_app l l' : Sql.total (l ++ l') = Sql.total l + Sql.total l'.
Proof. induction l as [|x l IH]; simpl; [reflexivity|]. unfold Sql.total in *. simpl. lia. Qed.

Lemma existsb_eq (A : Type) (f g : A -> bool) (l : list A) :
  (forall x, f x = g x) -> existsb f l = existsb g l.
Proof.
  intro H. induction l as [|x l IH]; simpl; [reflexivity | now rewrite H, IH].
Qed.

Lemma filter_filter (A : Type) (f g : A -> bool) (l : list A) :
  filter f (filter g l) = filter (fun x => g x && f x) l.
Proof.
  induction l as [|x l IH]; simpl; [reflexivity|].
  destruct (g x); simpl; [destruct (f x)|]; now rewrite IH.
Qed.

Lemma non_null_nil (A : Type) (l : list (option A)) :
  Sql.non_null l = [] <-> (forall x, In x l -> x = None).
Proof.
  induction l as [|[a|] l IH]; simpl; split; intro H.
  - intros x [].
  - reflexivity.
  - discriminate.
  - specialize (H (Some a) (or_introl eq_refl)). discriminate.
  - intros x [<-|Hx]; [reflexivity | now apply IH].
  - apply IH. intros x Hx. apply H. now right.
Qed.

Lemma in_non_null (A : Type) (l : list (option A)) (x : A) :
  In x (Sql.non_null l) <-> In (Some x) l.
Proof.
  induction l as [|[a|] l IH]; simpl.
  - tauto.
  - rewrite IH. split; intros [H|H]; auto; left; congruence.
  - rewrite IH. split; [auto | intros [H|H]; [discriminate | assumption]].
Qed.

Lemma in_distinct_sub (A : Type) (eqb : A -> A -> bool) (l : list A) (x : A) :
  In x (Sql.distinct eqb l) -> In x l.
Proof.
  induction l as [|a l IH]; simpl; [tauto|].
  intros [H|H]; [now left|]. apply filter_In in H. right. apply IH, H.
Qed.

Lemma in_distinct (A : Type) (eqb : A -> A -> bool) (l : list A) (x : A) :
  (forall a b, eqb a b = true <-> a = b) ->
  In x l -> In x (Sql.distinct eqb l).
Proof.
  intro Heq. induction l as [|a l IH]; simpl; [tauto|].
  intros [H|H]; [now left|].
  destruct (eqb a x) eqn:E.
  - left. now apply Heq.
  - right. apply filter_In. split; [now apply IH | now rewrite E].
Qed.

Lemma NoDup_distinct (A : Type) (eqb : A -> A -> bool) (l : list A) :
  (forall a b, eqb a b = true <-> a = b) ->
  NoDup (Sql.distinct eqb l).
Proof.
  intro Heq. induction l as [|a l IH]; simpl; constructor.
  - intro H. apply filter_In in H. destruct H as [_ H].
    assert (eqb a a = true) as E by now apply Heq. rewrite E in H. discriminate.
  - now apply NoDup_filter.
Qed.

Lemma filter_map (A B : Type) (f : B -> bool) (h : A -> B) (l : list A) :
  filter f (map h l) = map h (filter (fun x => f (h x)) l).
Proof.
  induction l as [|x l IH]; simpl; [reflexivity|].
  destruct (f (h x)); simpl; now rewrite IH.
Qed.

Lemma find_map (A B : Type) (p : B -> bool) (h : A -> B) (l : list A) :
  find p (map h l) = option_map h (find (fun x => p (h x)) l).
Proof.
  induction l as [|x l IH]; simpl; [reflexivity|].
  destruct (p (h x)); [reflexivity | exact IH].
Qed.

Lemma filter_all (A : Type) (f : A -> bool) (l : list A) :
  (forall x, f x = true) -> filter f l = l.
Proof.
  intro H. induction l as [|x l IH]; simpl; [reflexivity|]. now rewrite H, IH.
Qed.

End SqlFacts.

Module VulnerabilityFacts.
Import VulnerabilityQueries SqlFacts.

Lemma same_instance_vuln_sym a b : same_instance_vuln a b = same_instance_vuln b a.
Proof. unfold same_instance_vuln. now rewrite (same_sym (json_InstanceId a)), (same_sym (vulnId a)). Qed.

(** The contribution of a severity bucket of instance [i] over a scan. *)
Lemma bucket_scan (name : string) (flag : t2_row -> Z) (i : option string) :
  (forall seen t, flag (t2_select seen t) = severity_flag name t) ->
  forall rows seen,
    Sql.total (map (fun x => flag x * _vulncount x)
                   (filter (fun r' => Sql.same i (t2_instanceId r')) (t2_scan seen rows)))
    = Z.of_nat
        (List.length
           (filter (fun t => Sql.same i (json_InstanceId t)
                             && Sql.holds (Sql.eq_text (severity t) (Some name)))
                   (filter (fun y => negb (existsb (same_instance_vuln y) seen))
                           (Sql.distinct same_instance_vuln rows)))).
Proof.
  intros Hflag. induction rows as [|t rows IH]; intro seen; [reflexivity|].
  cbn [t2_scan Sql.distinct filter].
  rewrite filter_filter.
  assert (E : filter (fun x => negb (same_instance_vuln t x)
                               && negb (existsb (same_instance_vuln x) seen))
                     (Sql.distinct same_instance_vuln rows)
              = filter (fun y => negb (existsb (same_instance_vuln y) (t :: seen)))
                       (Sql.distinct same_instance_vuln rows)).
  { apply filter_ext. intro y. cbn [existsb].
    rewrite (same_instance_vuln_sym t y). now rewrite negb_orb. }
  rewrite E. specialize (IH (t :: seen)).
  change (t2_instanceId (t2_select seen t)) with (json_InstanceId t).
  destruct (Sql.same i (json_InstanceId t)) eqn:Ei.
  - cbn [map]. rewrite total_cons, IH, Hflag.
    cbn [_vulncount t2_select]. unfold Sql.first_row.
    destruct (existsb (same_instance_vuln t) seen) eqn:Es; cbn [negb filter].
    + lia.
    + rewrite Ei. cbn [andb]. unfold severity_flag.
      destruct (Sql.holds (Sql.eq_text (severity t) (Some name))); cbn [List.length]; lia.
  - rewrite IH.
    destruct (negb (existsb (same_instance_vuln t) seen)); cbn [filter]; [|reflexivity].
    rewrite Ei. reflexivity.
Qed.

Lemma window_bucket (name : string) (flag : t2_row -> Z) rows r :
  (forall seen t, flag (t2_select seen t) = severity_flag name t) ->
  In r (t2_scan [] rows) ->
  sum_over_instance (t2_scan [] rows) (fun x => flag x * _vulncount x) r
  = Some (bucket_count name (t2_instanceId r) rows).
Proof.
  intros Hflag Hin. unfold sum_over_instance.
  rewrite sum_some.
  - f_equal. rewrite (@bucket_scan name flag (t2_instanceId r) Hflag rows []).
    unfold bucket_count. rewrite (@filter_all _ (fun y => negb (existsb (same_instance_vuln y) []))); [reflexivity | intro; reflexivity].
  - intro E.
    assert (In r (filter (fun r' => Sql.same (t2_instanceId r) (t2_instanceId r'))
                         (t2_scan [] rows))) as Hr
        by (apply filter_In; split; [assumption | apply same_refl]).
    rewrite E in Hr. exact Hr.
Qed.

Lemma report_inv machines db_table r :
  In r (report machines db_table) ->
  exists r2, In r2 (t2 machines db_table) /\
             r = report_select (t3_select (t2 machines db_table) r2).
Proof.
  unfold report, t3. rewrite map_map. intro H. apply in_map_iff in H.
  destruct H as [r2 [E H]]. exists r2. split; [assumption | now symmetry].
Qed.

(** C4.  In the ['report'] query every row carries, as [total_coverage],
    the step function of the deduplicated severity-bucket counts of its
    instance; the arms are tried in priority order - a critical count
    decides alone, then a high one, then medium, then low -; all counts
    zero score 100 and six criticals score 5 whatever the other counts. *)
Theorem report_total_coverage_is_step_function
        (machines : list machine) (db_table : list finding) (r : report_row)
        (Hr : In r (report machines db_table)) :
  (total_critical r = Some (bucket_count "Critical" (instanceId r) (scored machines db_table)) /\
   total_high r = Some (bucket_count "High" (instanceId r) (scored machines db_table)) /\
   total_medium r = Some (bucket_count "Medium" (instanceId r) (scored machines db_table)) /\
   total_low r = Some (bucket_count "Low" (instanceId r) (scored machines db_table)) /\
   total_info r = Some (bucket_count "Info" (instanceId r) (scored machines db_table))) /\
  total_coverage r
  = step_function (total_critical r) (total_high r) (total_medium r)
                  (total_low r) (total_info r) /\
  (forall c h m l i, c > 0 ->
     step_function (Some c) h m l i = step_function (Some c) None None None None) /\
  (forall h m l i, h > 0 ->
     step_function (Some 0) (Some h) m l i = step_function (Some 0) (Some h) None None None) /\
  (forall m l i, m > 0 ->
     step_function (Some 0) (Some 0) (Some m) l i
     = step_function (Some 0) (Some 0) (Some m) None None) /\
  (forall l i, l > 0 ->
     step_function (Some 0) (Some 0) (Some 0) (Some l) i
     = step_function (Some 0) (Some 0) (Some 0) (Some l) None) /\
  step_function (Some 0) (Some 0) (Some 0) (Some 0) (Some 0) = Some 100 /\
  (forall h m l i, step_function (Some 6) h m l i = Some 5).
Proof.
  destruct (@report_inv machines db_table r Hr) as [r2 [H2 ->]].
  unfold t2 in *. fold (scored machines db_table) in *.
  repeat split.
  - apply (@window_bucket "Critical" critical); [reflexivity | assumption].
  - apply (@window_bucket "High" high); [reflexivity | assumption].
  - apply (@window_bucket "Medium" medium); [reflexivity | assumption].
  - apply (@window_bucket "Low" low); [reflexivity | assumption].
  - apply (@window_bucket "Info" info); [reflexivity | assumption].
  - intros c h m l i Hc. unfold step_function. cbn [Sql.gt Sql.holds].
    destruct (c >? 10) eqn:E1; [reflexivity|].
    destruct (c >? 5) eqn:E2; [reflexivity|].
    destruct (c >? 0) eqn:E3; [reflexivity|]. lia.
  - intros h m l i Hh. unfold step_function. cbn [Sql.gt Sql.holds Z.gtb Z.compare].
    destruct (h >? 10) eqn:E1; [reflexivity|].
    destruct (h >? 5) eqn:E2; [reflexivity|].
    destruct (h >? 0) eqn:E3; [reflexivity|]. lia.
  - intros m l i Hm. unfold step_function. cbn [Sql.gt Sql.holds Z.gtb Z.compare].
    destruct (m >? 10) eqn:E1; [reflexivity|].
    destruct (m >? 5) eqn:E2; [reflexivity|].
    destruct (m >? 0) eqn:E3; [reflexivity|]. lia.
  - intros l i Hl. unfold step_function. cbn [Sql.gt Sql.holds Z.gtb Z.compare].
    destruct (l >? 10) eqn:E1; [reflexivity|].
    destruct (l >? 5) eqn:E2; [reflexivity|].
    destruct (l >? 0) eqn:E3; [reflexivity|]. lia.
Qed.

Lemma report_total_coverage_witness :
  exists r, In r (report [machine_of "T" "aws:1" "i-1"]
                         [finding_of "T" "aws:1" "i-1" "CVE-1" "Critical";
                          finding_of "T" "aws:1" "i-1" "CVE-1" "High"]) /\
            total_critical r = Some 1 /\ total_coverage r = Some 9.
Proof.
  eexists. split; [left; reflexivity|].
  pose proof (@report_total_coverage_is_step_function
                [machine_of "T" "aws:1" "i-1"]
                [finding_of "T" "aws:1" "i-1" "CVE-1" "Critical";
                 finding_of "T" "aws:1" "i-1" "CVE-1" "High"]
                _ (or_introl eq_refl)) as [[Hc _] [Hs _]].
  split; [exact Hc | exact Hs].
Defined.

(** *** The weighted roll-up of an account *)

Lemma tot_cons x l :
  tot (x :: l) = match x with Some c => c | None => 0 end + tot l.
Proof. destruct x; reflexivity. Qed.

Lemma sum_eq l l' :
  tot l = tot l' -> (Sql.non_null l = [] <-> Sql.non_null l' = []) ->
  Sql.sum l = Sql.sum l'.
Proof.
  unfold tot, Sql.sum. intros Ht Hn.
  destruct (Sql.non_null l) as [|x xs]; destruct (Sql.non_null l') as [|y ys].
  - reflexivity.
  - destruct Hn as [Hn _]. specialize (Hn eq_refl). discriminate.
  - destruct Hn as [_ Hn]. specialize (Hn eq_refl). discriminate.
  - now rewrite Ht.
Qed.

Lemma in_t2_scan rows : forall seen r,
  In r (t2_scan seen rows) -> exists seen' t, In t rows /\ r = t2_select seen' t.
Proof.
  induction rows as [|t rows IH]; intros seen r; simpl; [tauto|].
  intros [<-|H].
  - exists seen, t. auto.
  - destruct (IH _ _ H) as [seen' [t' [Hin E]]]. exists seen', t'. auto.
Qed.

Lemma t2_scan_in rows : forall seen t,
  In t rows -> exists seen', In (t2_select seen' t) (t2_scan seen rows).
Proof.
  induction rows as [|t0 rows IH]; intros seen t; simpl; [tauto|].
  intros [->|H].
  - exists seen. now left.
  - destruct (IH (t0 :: seen) _ H) as [seen' Hin]. exists seen'. now right.
Qed.

Section Account.

Variable g : option string * option string.
Variable v : string -> option Z.

Local Abbreviation P := (in_account g).
Local Abbreviation P2 := (in_account_row g).
Local Abbreviation v' := (score_of v).

(** The flagged scores of a group add up to the scores of its unseen
    instances, when an instance never straddles the group's border. *)
Lemma flagged_scores rows : forall seen,
  (forall t1 t2, In t1 (seen ++ rows) -> In t2 (seen ++ rows) ->
                 json_InstanceId t1 = json_InstanceId t2 -> P t1 = P t2) ->
  tot (map (fun r => Sql.mul (Some (_instcount r)) (v' (t2_instanceId r)))
           (filter P2 (t2_scan seen rows)))
  = tot (map v (filter (unseen seen)
                       (Sql.distinct String.eqb
                          (Sql.non_null (map json_InstanceId (filter P rows)))))).
Proof.
  induction rows as [|t rows IH]; intros seen HP; [reflexivity|].
  assert (HP' : forall t1 t2, In t1 ((t :: seen) ++ rows) -> In t2 ((t :: seen) ++ rows) ->
                              json_InstanceId t1 = json_InstanceId t2 -> P t1 = P t2).
  { intros t1 t2 H1 H2. apply HP; apply in_app_iff.
    - destruct H1 as [<-|H1]; [right; now left|].
      apply in_app_iff in H1. destruct H1; [now left | right; now right].
    - destruct H2 as [<-|H2]; [right; now left|].
      apply in_app_iff in H2. destruct H2; [now left | right; now right]. }
  specialize (IH (t :: seen) HP').
  cbn [t2_scan filter].
  change (P2 (t2_select seen t)) with (P t).
  destruct (P t) eqn:EP.
  - cbn [map]. change (t2_instanceId (t2_select seen t)) with (json_InstanceId t).
    rewrite tot_cons, IH. destruct (json_InstanceId t) as [k|] eqn:Ek.
    + cbn [Sql.non_null Sql.distinct filter]. rewrite filter_filter.
      assert (E : filter (fun x => negb (String.eqb k x) && unseen seen x)
                         (Sql.distinct String.eqb
                            (Sql.non_null (map json_InstanceId (filter P rows))))
                  = filter (unseen (t :: seen))
                           (Sql.distinct String.eqb
                              (Sql.non_null (map json_InstanceId (filter P rows))))).
      { apply filter_ext. intro y. unfold unseen. cbn [existsb]. rewrite Ek.
        cbn [Sql.same]. rewrite negb_orb. now rewrite (String.eqb_sym k y). }
      rewrite E.
      assert (Ei : _instcount (t2_select seen t) = if unseen seen k then 1 else 0).
      { cbn [_instcount t2_select]. unfold Sql.first_row, unseen.
        rewrite (@existsb_eq _ (same_instance t)
                             (fun s => Sql.same (Some k) (json_InstanceId s)));
          [reflexivity|]. intro s. unfold same_instance. now rewrite Ek. }
      rewrite Ei. cbn [score_of].
      destruct (unseen seen k); cbn [map]; rewrite ?tot_cons;
        destruct (v k) as [c|]; cbn [Sql.mul]; try reflexivity.
      destruct c; reflexivity.
    + cbn [Sql.non_null score_of Sql.mul]. cbn [Z.add]. f_equal. f_equal.
      apply filter_ext. intro y. unfold unseen. cbn [existsb]. now rewrite Ek.
  - rewrite IH. f_equal. f_equal. apply filter_ext_in. intros i Hi.
    unfold unseen. cbn [existsb].
    destruct (Sql.same (Some i) (json_InstanceId t)) eqn:Ei; [|reflexivity].
    exfalso. apply same_eq in Ei.
    apply in_distinct_sub, in_non_null, in_map_iff in Hi.
    destruct Hi as [t' [Hk Ht']]. apply filter_In in Ht'. destruct Ht' as [Ht' HPt'].
    assert (P t = P t') as E.
    { apply HP; [apply in_app_iff; right; now left
                | apply in_app_iff; right; now right | congruence]. }
    congruence.
Qed.

(** Some flagged score is defined exactly when some instance of the group
    has a score. *)
Lemma flagged_defined rows seen :
  Sql.non_null (map (fun r => Sql.mul (Some (_instcount r)) (v' (t2_instanceId r)))
                    (filter P2 (t2_scan seen rows))) = []
  <-> Sql.non_null (map v (Sql.distinct String.eqb
                             (Sql.non_null (map json_InstanceId (filter P rows))))) = [].
Proof.
  rewrite !non_null_nil. split; intros H x Hx.
  - apply in_map_iff in Hx. destruct Hx as [i [<- Hi]].
    apply in_distinct_sub, in_non_null, in_map_iff in Hi.
    destruct Hi as [t [Hk Ht]]. apply filter_In in Ht. destruct Ht as [Ht HPt].
    destruct (t2_scan_in rows seen t Ht) as [seen' Hin].
    destruct (v i) as [c|] eqn:Ev; [|reflexivity]. exfalso.
    assert (Hm : In (Sql.mul (Some (_instcount (t2_select seen' t)))
                             (v' (t2_instanceId (t2_select seen' t))))
                    (map (fun r => Sql.mul (Some (_instcount r)) (v' (t2_instanceId r)))
                         (filter P2 (t2_scan seen rows)))).
    { apply in_map_iff. exists (t2_select seen' t). split; [reflexivity|].
      apply filter_In. split; [assumption | exact HPt]. }
    apply H in Hm. cbn [t2_instanceId t2_select] in Hm. rewrite Hk in Hm.
    cbn [score_of] in Hm. rewrite Ev in Hm. discriminate.
  - apply in_map_iff in Hx. destruct Hx as [r [<- Hr]].
    apply filter_In in Hr. destruct Hr as [Hr HPr].
    destruct (in_t2_scan _ _ _ Hr) as [seen' [t [Ht ->]]].
    cbn [t2_instanceId t2_select]. destruct (json_InstanceId t) as [i|] eqn:Ek; [|reflexivity].
    cbn [score_of]. rewrite (H (v i)); [reflexivity|].
    apply in_map_iff. exists i. split; [reflexivity|].
    apply in_distinct; [apply String.eqb_eq|]. apply in_non_null, in_map_iff.
    exists t. split; [assumption|]. apply filter_In. split; [assumption | exact HPr].
Qed.

End Account.

Lemma scored_has_instance machines db_table t :
  In t (scored machines db_table) -> exists i, json_InstanceId t = Some i.
Proof.
  intro H. apply filter_In in H. destruct H as [_ H]. unfold has_agent in H.
  destruct (json_InstanceId t) as [i|]; [now exists i|]. exfalso.
  unfold Sql.in_list in H. destruct (map TAG_INSTANCEID machines) as [|y l]; [discriminate|].
  assert (E : existsb (fun y0 => Sql.holds (Sql.eq_text None y0)) (y :: l) = false).
  { clear H. induction (y :: l) as [|z l' IH]; simpl; [reflexivity | exact IH]. }
  rewrite E in H. discriminate.
Qed.

Lemma t2_scan_instances (P : finding -> bool) (P2 : t2_row -> bool) rows :
  (forall seen t, P2 (t2_select seen t) = P t) ->
  forall seen,
    map t2_instanceId (filter P2 (t2_scan seen rows))
    = map json_InstanceId (filter P rows).
Proof.
  intro HP. induction rows as [|t rows IH]; intro seen; [reflexivity|].
  cbn [t2_scan filter]. rewrite HP. destruct (P t); cbn [map]; now rewrite IH.
Qed.

Lemma t2_instances machines db_table r :
  In r (t2 machines db_table) -> exists i, t2_instanceId r = Some i.
Proof.
  intro H. destruct (in_t2_scan _ _ _ H) as [seen [t [Ht ->]]].
  exact (scored_has_instance _ _ _ Ht).
Qed.

(** Every row of an instance carries the score of the instance. *)
Lemma coverage_is_instance_score machines db_table r i :
  In r (t2 machines db_table) -> t2_instanceId r = Some i ->
  t3_total_coverage (t3_select (t2 machines db_table) r)
  = instance_score machines db_table i.
Proof.
  intros Hr Hi. unfold instance_score, report, t3. rewrite map_map, find_map.
  cbn [instanceId report_select t3_instanceId t3_select].
  destruct (find (fun x => Sql.same (Some i) (t2_instanceId x)) (t2 machines db_table))
    as [r'|] eqn:Ef.
  - apply find_some in Ef. destruct Ef as [_ Ef]. apply same_eq in Ef.
    cbn [option_map total_coverage report_select t3_total_coverage t3_select].
    unfold sum_over_instance. now rewrite Hi, <- Ef.
  - exfalso. apply (find_none _ _ Ef) in Hr. rewrite Hi, same_refl in Hr. discriminate.
Qed.

Lemma account_coverage_inv machines db_table a :
  In a (account_coverage machines db_table) ->
  exists g, a = account_select machines (t3 machines db_table) g.
Proof.
  unfold account_coverage. intro H. apply in_map_iff in H.
  destruct H as [g [E _]]. exists g. now symmetry.
Qed.

Lemma instances_with_findings_scored machines db_table g :
  instances_with_findings machines db_table g
  = Sql.distinct String.eqb
      (Sql.non_null
         (map json_InstanceId
              (filter (fun t => same_account g (lwAccount t, accountId t))
                      (scored machines db_table)))).
Proof.
  unfold instances_with_findings, report, t3. rewrite map_map, filter_map, map_map.
  cbn [instanceId report_select t3_instanceId t3_select lwAccount_ accountId_
       t3_lwAccount t3_accountId].
  unfold t2. fold (scored machines db_table).
  now rewrite (@t2_scan_instances
                 (fun t => same_account g (lwAccount t, accountId t))
                 (fun r => same_account g (t2_lwAccount r, t2_accountId r))).
Qed.

(** C5, as amended.  For every account group of [account_coverage] of a
    table in which every scored instance is booked on one account,
    [total_coverage] is
    [((total_assets - distinct instances with findings) * 100
      + SUM of the scores of those instances) / total_assets]
    in SQLite's integer arithmetic, [total_assets] counting the distinct
    agent instance ids of [machines] for that (lwAccount, accountId); ten
    assets, two of them with findings and scores adding up to 100, give 90. *)
Theorem account_coverage_is_weighted
        (machines : list machine) (db_table : list finding) (a : account_row)
        (Ha : In a (account_coverage machines db_table))
        (Hsingle : single_account machines db_table) :
  a_total_coverage a
  = claimed_account_coverage machines db_table (a_lwAccount a, a_accountId a) /\
  a_total_assets a
  = Sql.count_distinct
      (map TAG_INSTANCEID
           (filter (fun m => Sql.holds
                               (Sql.and3 (Sql.eq_text (a_lwAccount a) (LWACCOUNT m))
                                         (Sql.eq_text (a_accountId a) (ACCOUNTID m))))
                   machines)) /\
  weighted_coverage 10 2 (Some (50 + 50)) = Some 90.
Proof.
  destruct (account_coverage_inv _ _ _ Ha) as [g ->]. clear Ha.
  split; [|split; reflexivity].
  cbn [a_total_coverage a_lwAccount a_accountId account_select].
  replace (fst g, snd g) with g by now destruct g.
  unfold claimed_account_coverage. rewrite instances_with_findings_scored.
  set (P := fun t => same_account g (lwAccount t, accountId t)).
  set (P2 := fun r => same_account g (t2_lwAccount r, t2_accountId r)).
  assert (Hgrp : filter (fun r => same_account g (t3_account r)) (t3 machines db_table)
                 = map (t3_select (t2 machines db_table)) (filter P2 (t2 machines db_table))).
  { unfold t3. now rewrite filter_map. }
  rewrite Hgrp. f_equal.
  - unfold Sql.count_distinct. rewrite map_map.
    cbn [t3_instanceId t3_select]. unfold t2. fold (scored machines db_table).
    now rewrite (@t2_scan_instances P P2).
  - unfold sum_instcount. rewrite map_map. cbn [t3_instcount t3_select].
    set (v := instance_score machines db_table).
    transitivity
      (Sql.sum (map (fun r => Sql.mul (Some (_instcount r))
                                      (match t2_instanceId r with
                                       | Some i => v i
                                       | None => None
                                       end))
                    (filter P2 (t2 machines db_table)))).
    + f_equal. apply map_ext_in. intros r Hr. apply filter_In in Hr. destruct Hr as [Hr _].
      destruct (t2_instances _ _ _ Hr) as [i Hi]. rewrite Hi. f_equal.
      now apply coverage_is_instance_score.
    + unfold t2. fold (scored machines db_table). subst P P2 v. apply sum_eq.
      * pose proof (@flagged_scores g (instance_score machines db_table)
                                    (scored machines db_table) []) as X.
        unfold in_account, in_account_row, score_of in X. rewrite X.
        -- rewrite filter_all; [reflexivity | intro; reflexivity].
        -- intros t1 t2 H1 H2 E. cbn [app] in H1, H2.
           destruct (Hsingle t1 t2 H1 H2 E) as [E1 E2]. now rewrite E1, E2.
      * exact (@flagged_defined g (instance_score machines db_table)
                                (scored machines db_table) []).
Qed.

Lemma account_coverage_is_weighted_witness :
  exists a, In a (account_coverage
                    [machine_of "T" "aws:1" "i-1"; machine_of "T" "aws:1" "i-2"]
                    [finding_of "T" "aws:1" "i-1" "CVE-1" "High"]) /\
            a_total_assets a = 2 /\ a_total_coverage a = Some 74.
Proof.
  eexists. split; [left; reflexivity|].
  split; [reflexivity|].
  refine (eq_trans
            (proj1 (@account_coverage_is_weighted
                      [machine_of "T" "aws:1" "i-1"; machine_of "T" "aws:1" "i-2"]
                      [finding_of "T" "aws:1" "i-1" "CVE-1" "High"]
                      _ (or_introl eq_refl) _)) _).
  - intros t1 t2 [<-|[]] [<-|[]] _. split; reflexivity.
  - reflexivity.
Defined.

(** C5, as stated, fails: an instance with findings booked on two accounts
    is flagged in the first one only, and the second account adds 0 for it
    where the formula adds its score 49. *)
Lemma account_coverage_not_weighted :
  map (fun a => (a_accountId a, a_total_assets a, a_total_coverage a))
      (account_coverage shared_machines shared_findings)
  = [(Some "aws:1", 1, Some 49); (Some "aws:2", 1, Some 0)] /\
  claimed_account_coverage shared_machines shared_findings (Some "T", Some "aws:2")
  = Some 49.
Proof. split; vm_compute; reflexivity. Qed.

(** *** The summaries *)

Lemma cast_integer_mean (x : Z) (xs : list Z) :
  Sql.cast_integer (Qmake (Sql.total (x :: xs)) (Pos.of_nat (List.length (x :: xs))))
  = Z.quot (Sql.total (x :: xs)) (Z.of_nat (List.length (x :: xs))).
Proof.
  unfold Sql.cast_integer. cbn [Qnum Qden]. f_equal.
  rewrite <- (Nat2Pos.id (List.length (x :: xs))) at 2 by discriminate.
  now rewrite positive_nat_Z.
Qed.

Lemma average_is_truncated_mean (l : list (option Z)) :
  option_map Sql.cast_integer (Sql.avg l) = truncated_mean (Sql.non_null l).
Proof.
  unfold Sql.avg, truncated_mean. destruct (Sql.non_null l) as [|x xs]; [reflexivity|].
  cbn [option_map]. now rewrite cast_integer_mean.
Qed.

(** C2, as amended.  The [total_coverage] of [total_summary] is the mean,
    truncated to an integer, of the [total_coverage] values of the rows of
    [account_coverage] (the NULL ones left out), and that of a row of
    [lwaccount_summary] is the same mean over the accounts of its tenant. *)
Theorem summary_coverage_is_average (machines : list machine) (db_table : list finding) :
  map s_total_coverage (total_summary machines db_table)
  = [truncated_mean
       (Sql.non_null (map a_total_coverage (account_coverage machines db_table)))] /\
  map s_total_coverage (lwaccount_summary machines db_table)
  = map (fun lw =>
           truncated_mean
             (Sql.non_null
                (map a_total_coverage
                     (filter (fun a => Sql.same lw (a_lwAccount a))
                             (account_coverage machines db_table)))))
        (Sql.distinct Sql.same (map a_lwAccount (account_coverage machines db_table))).
Proof.
  split.
  - cbn [total_summary map s_total_coverage summary_select].
    now rewrite average_is_truncated_mean.
  - unfold lwaccount_summary. rewrite map_map. apply map_ext. intro lw.
    cbn [s_total_coverage summary_select]. apply average_is_truncated_mean.
Qed.

(** C2, as stated, fails: with one asset scored 49 in one account and three
    assets, one of them scored 49, in another, the accounts score 49 and 83,
    the summaries give their mean 66, and the weighted formula over the four
    assets gives 74. *)
Lemma summary_coverage_not_weighted :
  map (fun a => (a_accountId a, a_total_assets a, a_total_coverage a))
      (account_coverage fleet_machines fleet_findings)
  = [(Some "aws:1", 1, Some 49); (Some "aws:2", 3, Some 83)] /\
  map s_total_coverage (total_summary fleet_machines fleet_findings) = [Some 66] /\
  map (fun s => (s_lwAccount s, s_total_coverage s))
      (lwaccount_summary fleet_machines fleet_findings) = [(Some "T", Some 66)] /\
  claimed_fleet_coverage fleet_machines fleet_findings = Some 74 /\
  claimed_tenant_coverage fleet_machines fleet_findings (Some "T") = Some 74.
Proof. repeat split; vm_compute; reflexivity. Qed.

End VulnerabilityFacts.

Module ComplianceFacts.
Import ComplianceQueries SqlFacts.

Lemma in_insert_row (A : Type) (cmp : A -> A -> comparison) (r x : A) (l : list A) :
  In x (Sql.insert_row cmp r l) <-> x = r \/ In x l.
Proof.
  induction l as [|y l IH]; simpl.
  - intuition.
  - destruct (cmp r y); simpl; rewrite ?IH; intuition.
Qed.

(** ORDER BY neither drops nor invents a row. *)
Lemma in_order_by (A : Type) (cmp : A -> A -> comparison) (x : A) (l : list A) :
  In x (Sql.order_by cmp l) <-> In x l.
Proof.
  unfold Sql.order_by. induction l as [|y l IH]; simpl; [tauto|].
  rewrite in_insert_row, IH. intuition.
Qed.

Lemma coverage_real_truncates (v a : Z) :
  0 <= v -> v <= a -> a <> 0 ->
  coverage_real (Some v) (Some a) = Some (Z.quot (100 * a - v * 100) a).
Proof.
  intros Hv Hva Ha. unfold coverage_real.
  destruct (Z.eqb_spec a 0) as [E|_]; [contradiction|].
  destruct a as [|p|p]; try lia. f_equal.
  unfold Sql.cast_integer.
  cbv [Qminus Qplus Qopp Qmult Qdiv Qinv inject_Z Qnum Qden].
  rewrite !Pos.mul_1_l. f_equal. lia.
Qed.

(** C1.  A control of severity code 5, which the [severity] column names
    critical, with two violations: the three roll-ups book the two
    violations in the column [info] and none in the column [critical],
    although the violations of the controls named critical are two and
    those of the controls named info none. *)
Theorem severity_columns_at_critical_control :
  map (fun r => (critical (snd r), info (snd r))) (account_coverage critical_table)
  = [(Some 0, Some 2)] /\
  map (fun r => (critical (snd r), info (snd r))) (total_summary critical_table)
  = [(Some 0, Some 2)] /\
  map (fun r => (critical (snd r), info (snd r))) (lwaccount_summary critical_table)
  = [(Some 0, Some 2)] /\
  violations_of_severity "critical" (t critical_table) = Some 2 /\
  violations_of_severity "info" (t critical_table) = Some 0.
Proof. repeat split; reflexivity. Qed.

Lemma severity_name_code (code : option Z) (n : Z) (name : string) :
  severity_name (Some n) = Some name ->
  Sql.holds (Sql.eq_text (severity_name code) (Some name))
  = Sql.holds (Sql.eq_int code (Some n)).
Proof.
  intro Hn. unfold severity_name in Hn. cbn [Sql.eq_int Sql.holds] in Hn.
  destruct code as [c|]; [|reflexivity].
  unfold severity_name. cbn [Sql.eq_int Sql.holds].
  destruct (Z.eqb_spec n 1) as [->|N1].
  { injection Hn as <-. destruct (Z.eqb_spec c 1) as [->|]; [reflexivity|].
    repeat (match goal with |- context [if ?b then _ else _] => destruct b end);
      reflexivity. }
  destruct (Z.eqb_spec n 2) as [->|N2].
  { injection Hn as <-. destruct (Z.eqb_spec c 1) as [->|]; [reflexivity|].
    destruct (Z.eqb_spec c 2) as [->|]; [reflexivity|].
    repeat (match goal with |- context [if ?b then _ else _] => destruct b end);
      reflexivity. }
  destruct (Z.eqb_spec n 3) as [->|N3].
  { injection Hn as <-. destruct (Z.eqb_spec c 1) as [->|]; [reflexivity|].
    destruct (Z.eqb_spec c 2) as [->|]; [reflexivity|].
    destruct (Z.eqb_spec c 3) as [->|]; [reflexivity|].
    repeat (match goal with |- context [if ?b then _ else _] => destruct b end);
      reflexivity. }
  destruct (Z.eqb_spec n 4) as [->|N4].
  { injection Hn as <-. destruct (Z.eqb_spec c 1) as [->|]; [reflexivity|].
    destruct (Z.eqb_spec c 2) as [->|]; [reflexivity|].
    destruct (Z.eqb_spec c 3) as [->|]; [reflexivity|].
    destruct (Z.eqb_spec c 4) as [->|]; [reflexivity|].
    repeat (match goal with |- context [if ?b then _ else _] => destruct b end);
      reflexivity. }
  destruct (Z.eqb_spec n 5) as [->|N5]; [|discriminate].
  injection Hn as <-. destruct (Z.eqb_spec c 1) as [->|]; [reflexivity|].
  destruct (Z.eqb_spec c 2) as [->|]; [reflexivity|].
  destruct (Z.eqb_spec c 3) as [->|]; [reflexivity|].
  destruct (Z.eqb_spec c 4) as [->|]; [reflexivity|].
  destruct (Z.eqb_spec c 5) as [->|]; reflexivity.
Qed.

Lemma sum_severity_number_name (n : Z) (name : string) (db_table : list compliance)
      (keep : t_row -> bool) :
  severity_name (Some n) = Some name ->
  sum_severity_number n (filter keep (t db_table))
  = violations_of_severity name (filter keep (t db_table)).
Proof.
  intro Hn. unfold sum_severity_number, violations_of_severity. f_equal.
  apply map_ext_in. intros r Hr. apply filter_In in Hr. destruct Hr as [Hr _].
  unfold t in Hr. apply in_map_iff in Hr. destruct Hr as [[x c] [<- _]].
  cbn [t_severity t_severity_number t_select].
  now rewrite (severity_name_code (SEVERITY c) n Hn).
Qed.

(** What the roll-ups book where, for every table and every group of its
    controls: the column [critical] holds the violations of the controls
    named info, [high] those named low, [low] those named high and [info]
    those named critical; only [medium] holds its own. *)
Lemma severity_columns_inverted (db_table : list compliance) (keep : t_row -> bool) :
  let grp := filter keep (t db_table) in
  critical (aggregate grp) = violations_of_severity "info" grp /\
  high (aggregate grp) = violations_of_severity "low" grp /\
  medium (aggregate grp) = violations_of_severity "medium" grp /\
  low (aggregate grp) = violations_of_severity "high" grp /\
  info (aggregate grp) = violations_of_severity "critical" grp.
Proof.
  cbn [critical high medium low info aggregate].
  repeat split; apply sum_severity_number_name; reflexivity.
Qed.

Lemma report_where_spec (r : report_row) :
  report_where r = true <->
  exists p s, percent r = Some p /\ p < 100 /\ status r = Some s /\ s <> "Compliant".
Proof.
  unfold report_where. destruct (percent r) as [p|], (status r) as [s|];
    cbn [Sql.lt Sql.eq_text Sql.not3 Sql.and3 Sql.holds].
  - destruct (Z.ltb_spec p 100) as [Hp|Hp], (String.eqb_spec s "Compliant") as [Hs|Hs];
      cbn [negb]; split; intro H; try discriminate.
    + destruct H as [p' [s' [Ep [_ [Es Hn]]]]]. congruence.
    + exists p, s. auto.
    + reflexivity.
    + destruct H as [p' [s' [Ep [Hlt _]]]]. injection Ep as <-. lia.
    + destruct H as [p' [s' [Ep [Hlt _]]]]. injection Ep as <-. lia.
  - split; [|intros [p' [s' [_ [_ [Es _]]]]]; discriminate].
    destruct (p <? 100)%Z; cbn; discriminate.
  - destruct (String.eqb s "Compliant"); cbn;
      (split; [discriminate | intros [p' [s' [Ep _]]]; discriminate]).
  - split; [discriminate | intros [p' [s' [Ep _]]]; discriminate].
Qed.

(** C6.  In the ['report'] query the [percent] of an exploded control row
    is 100 when its violation count exceeds its assessed-resource count and
    otherwise [100 - violations*100/assessed] truncated to an integer; the
    query returns exactly the exploded rows with [percent < 100] and
    [status != 'Compliant'].  5 violations of 10 assessed give 50, 12 of 10
    are clamped to 100 and such a row is not returned. *)
Theorem report_percent (db_table : list compliance) :
  (forall t c v a,
      In (t, c) (json_each db_table) ->
      json_array_length (VIOLATIONS c) = Some v ->
      ASSESSED_RESOURCE_COUNT c = Some a ->
      (v > a -> percent (report_select (t, c)) = Some 100) /\
      (v <= a -> a <> 0 ->
       percent (report_select (t, c)) = Some (Z.quot (100 * a - v * 100) a))) /\
  (forall r, In r (report db_table) <->
             In r (map report_select (json_each db_table)) /\
             exists p s, percent r = Some p /\ p < 100 /\
                         status r = Some s /\ s <> "Compliant") /\
  percent_of (Some 5) (Some 10) = Some 50 /\
  percent_of (Some 12) (Some 10) = Some 100 /\
  (forall r, percent r = Some 100 -> ~ In r (report db_table)).
Proof.
  assert (Hiff : forall r, In r (report db_table) <->
             In r (map report_select (json_each db_table)) /\
             exists p s, percent r = Some p /\ p < 100 /\
                         status r = Some s /\ s <> "Compliant").
  { intro r. unfold report. rewrite in_order_by, filter_In, report_where_spec. tauto. }
  split; [|split; [exact Hiff | repeat split]].
  - intros t0 c v a _ Hv Ha. cbn [percent report_select]. rewrite Hv, Ha.
    unfold percent_of. cbn [Sql.gt Sql.holds]. split.
    + intro H. destruct (Z.gtb_spec v a) as [_|H']; [reflexivity | lia].
    + intros H Hnz. destruct (Z.gtb_spec v a) as [H'|_]; [lia|].
      apply coverage_real_truncates; [|assumption|assumption].
      unfold json_array_length in Hv. destruct (VIOLATIONS c) as [l|]; [|discriminate].
      injection Hv as <-. lia.
  - intros r Hr Hin. apply Hiff in Hin.
    destruct Hin as [_ [p [s [Ep [Hlt _]]]]]. rewrite Hr in Ep. injection Ep as <-. lia.
Qed.

Lemma report_percent_witness :
  percent (report_select (report_of "T" "aws:1" [control 4 (bucket 5) 10 "NonCompliant";
                                                 control 4 (bucket 12) 10 "NonCompliant"],
                          control 4 (bucket 5) 10 "NonCompliant"))
  = Some (Z.quot (100 * 10 - 5 * 100) 10) /\
  percent (report_select (report_of "T" "aws:1" [control 4 (bucket 5) 10 "NonCompliant";
                                                 control 4 (bucket 12) 10 "NonCompliant"],
                          control 4 (bucket 12) 10 "NonCompliant"))
  = Some 100.
Proof.
  split.
  - apply (proj1 (report_percent percent_table) _ _ 5 10).
    + left. reflexivity.
    + reflexivity.
    + reflexivity.
    + lia.
    + discriminate.
  - apply (proj1 (report_percent percent_table) _ _ 12 10).
    + right. left. reflexivity.
    + reflexivity.
    + reflexivity.
    + lia.
Defined.

End ComplianceFacts.

Module PyFacts.

Local Open Scope string_scope.

Lemma contains_In (l : list string) (x : string) : Py.contains l x = true <-> In x l.
Proof.
  unfold Py.contains. rewrite existsb_exists. split.
  - intros [y [Hy E]]. apply String.eqb_eq in E. now subst.
  - intro H. exists x. split; [assumption | apply String.eqb_refl].
Qed.

Lemma contains_false (l : list string) (x : string) : Py.contains l x = false <-> ~ In x l.
Proof.
  rewrite <- contains_In. destruct (Py.contains l x); split; intro H.
  - discriminate.
  - now contradiction H.
  - intro; discriminate.
  - reflexivity.
Qed.

Lemma split_no_colon (s : string) :
  Discovery.has_colon s = false -> Py.split ":" s = [s].
Proof.
  induction s as [|c s IH]; simpl; [reflexivity|].
  intro H. apply orb_false_iff in H. destruct H as [Hc Hs].
  rewrite Hc, (IH Hs). reflexivity.
Qed.

Lemma split_cons (a b : string) :
  Discovery.has_colon a = false ->
  Py.split ":" (a ++ String ":" b) = a :: Py.split ":" b.
Proof.
  induction a as [|c a IH]; cbn [append Py.split Discovery.has_colon]; [reflexivity|].
  intro H. apply orb_false_iff in H. destruct H as [Hc Hs].
  rewrite Hc, (IH Hs). reflexivity.
Qed.

Lemma split_scope (a b : string) :
  Discovery.has_colon a = false ->
  Py.split ":" (a ++ ":" ++ b) = a :: Py.split ":" b.
Proof. exact (split_cons a b). Qed.

Lemma get_set_item (d : Py.dict) (k : string) (v : Py.value) :
  Py.get (Py.set_item d k v) k = Some v.
Proof.
  induction d as [|[k' v'] d IH]; simpl.
  - now rewrite String.eqb_refl.
  - destruct (String.eqb_spec k k') as [->|N]; simpl.
    + now rewrite String.eqb_refl.
    + destruct (String.eqb_spec k k'); [contradiction | exact IH].
Qed.

Lemma get_set_item_other (d : Py.dict) (k k' : string) (v : Py.value) :
  k <> k' -> Py.get (Py.set_item d k v) k' = Py.get d k'.
Proof.
  intro N. induction d as [|[k0 v0] d IH]; simpl.
  - destruct (String.eqb_spec k' k); [congruence | reflexivity].
  - destruct (String.eqb_spec k k0) as [->|N0]; simpl.
    + destruct (String.eqb_spec k' k0); [congruence | reflexivity].
    + destruct (String.eqb_spec k' k0); [reflexivity | exact IH].
Qed.

End PyFacts.

Module ComplianceFetchFacts.
Import ComplianceFetch PyFacts.

Local Open Scope string_scope.

(** A composite GCP key always reaches the fetch: the organization segment
    of a split key is a str, so the test for a missing organization id
    never holds. *)
Lemma gcp_key_is_fetched (c : client) (lwAccount o p aws gcp az : string)
      (ignore_errors : bool) (organization : option string) :
  Discovery.has_colon o = false -> Discovery.has_colon p = false ->
  get_compliance_report c lwAccount ("gcp:" ++ o ++ ":" ++ p) aws gcp az
                        ignore_errors organization
  = try_fetch (get_latest_gcp_report c o p gcp) (Fetch_gcp o p gcp)
              ("gcp:" ++ o ++ ":" ++ p) lwAccount ["organizationId"; "projectId"]
              ignore_errors.
Proof.
  intros Ho Hp. unfold get_compliance_report.
  assert (E : Py.split ":" ("gcp:" ++ o ++ ":" ++ p) = ["gcp"; o; p]).
  { change ("gcp:" ++ o ++ ":" ++ p) with ("gcp" ++ ":" ++ (o ++ ":" ++ p)).
    rewrite (@split_scope "gcp" (o ++ ":" ++ p) eq_refl), (@split_scope o p Ho).
    now rewrite (@split_no_colon p Hp). }
  rewrite E. cbn [hd String.eqb Ascii.eqb Bool.eqb]. cbn [is_none andb Py.format].
  destruct organization; reflexivity.
Qed.

(** C8.  For the key ["gcp::my-project"], whose organization segment is
    empty, and no organization override, the call fetches the report with
    the empty organization id, logs no warning and returns the report,
    whether errors are ignored or not: it neither skips nor raises. *)
Theorem gcp_key_without_organization :
  get_compliance_report gcp_reporting_client "T" "gcp::my-project"
                        "AWS_CIS_S3" "GCP_CIS12" "AZURE_CIS_131" true None
  = (Py.Return [[("reportType", Py.Str "GCP_CIS12");
                 ("recommendations", Py.List_ []);
                 ("accountId", Py.Str "gcp::my-project");
                 ("lwAccount", Py.Str "T")]],
     [Fetch_gcp "" "my-project" "GCP_CIS12"]) /\
  get_compliance_report gcp_reporting_client "T" "gcp::my-project"
                        "AWS_CIS_S3" "GCP_CIS12" "AZURE_CIS_131" false None
  = get_compliance_report gcp_reporting_client "T" "gcp::my-project"
                          "AWS_CIS_S3" "GCP_CIS12" "AZURE_CIS_131" true None /\
  ~ skipped_or_raised true
      (get_compliance_report gcp_reporting_client "T" "gcp::my-project"
                             "AWS_CIS_S3" "GCP_CIS12" "AZURE_CIS_131" true None) /\
  ~ skipped_or_raised false
      (get_compliance_report gcp_reporting_client "T" "gcp::my-project"
                             "AWS_CIS_S3" "GCP_CIS12" "AZURE_CIS_131" false None).
Proof.
  repeat split.
  - cbn. intro H. discriminate.
  - cbn. intros [e H]. discriminate.
Qed.

End ComplianceFetchFacts.

Module VulnerabilityFetchFacts.
Import Store VulnerabilityFetch PyFacts.

Local Open Scope string_scope.



Lemma update_keeps_columns (t t' : table) (k v : string) :
  update_where_null t k v = Ok t' -> columns t' = columns t.
Proof.
  unfold update_where_null. destruct (has_column t k); [|discriminate].
  intro H. now injection H as <-.
Qed.






End VulnerabilityFetchFacts.

Module DiscoveryFacts.
Import Discovery PyFacts.

Local Open Scope string_scope.

Lemma scope_inj (o o' p p' : string) :
  has_colon o = false -> has_colon o' = false ->
  o ++ ":" ++ p = o' ++ ":" ++ p' -> o = o' /\ p = p'.
Proof.
  revert o'. induction o as [|c o IH]; intros [|c' o'] Ho Ho' E; cbn in *.
  - injection E as ->. auto.
  - injection E as <- _. cbn in Ho'. discriminate.
  - injection E as -> _. cbn in Ho. discriminate.
  - injection E as -> E. apply orb_false_iff in Ho, Ho'.
    destruct (IH o' (proj2 Ho) (proj2 Ho') E) as [-> ->]. auto.
Qed.

Lemma NoDup_snoc (A : Type) (l : list A) (x : A) :
  NoDup l -> ~ In x l -> NoDup (l ++ [x])%list.
Proof.
  intros Hl Hx. induction Hl as [|y l Hy Hl IH]; cbn.
  - constructor; [intros [] | constructor].
  - constructor.
    + intro H. apply in_app_iff in H. destruct H as [H|[->|[]]]; [contradiction|].
      apply Hx. now left.
    + apply IH. intro H. apply Hx. now right.
Qed.

Lemma grows_refl st : grows st st.
Proof. repeat split; apply incl_refl. Qed.

Lemma grows_trans st st' st'' : grows st st' -> grows st' st'' -> grows st st''.
Proof.
  intros [A [B C]] [A' [B' C']].
  repeat split; eapply incl_tran; eassumption.
Qed.

Lemma keyed_grows st st' e : grows st st' -> keyed st e -> keyed st' e.
Proof.
  intros [A [B C]] [[x [E H]]|[[o [p [E [Ho H]]]]|[t [s [E [Ht H]]]]]].
  - left. exists x. auto.
  - right. left. exists o, p. auto.
  - right. right. exists t, s. auto.
Qed.

(** A key over a raw identifier that is new to the dedup list of its
    provider is new to the result list. *)
Lemma fresh_aws st x : Forall (keyed st) (accounts st) -> ~ In x (aws_accounts st) ->
  ~ In ("aws:" ++ x) (map accountId (accounts st)).
Proof.
  intros Hk Hx Hin. apply in_map_iff in Hin. destruct Hin as [e [E He]].
  rewrite Forall_forall in Hk.
  destruct (Hk e He) as [[y [E' H]]|[[o [p [E' _]]]|[t [s [E' _]]]]];
    rewrite E' in E; cbn in E; try discriminate.
  injection E as ->. contradiction.
Qed.

Lemma fresh_gcp st o p : Forall (keyed st) (accounts st) -> has_colon o = false ->
  ~ In p (gcp_accounts st) ->
  ~ In ("gcp:" ++ o ++ ":" ++ p) (map accountId (accounts st)).
Proof.
  intros Hk Ho Hp Hin. apply in_map_iff in Hin. destruct Hin as [e [E He]].
  rewrite Forall_forall in Hk.
  destruct (Hk e He) as [[y [E' H]]|[[o' [p' [E' [Ho' H]]]]|[t [s [E' _]]]]];
    rewrite E' in E; try (cbn in E; discriminate).
  change ("gcp:" ++ o' ++ ":" ++ p') with ("gcp:" ++ (o' ++ ":" ++ p')) in E.
  change ("gcp:" ++ o ++ ":" ++ p) with ("gcp:" ++ (o ++ ":" ++ p)) in E.
  cbn [append] in E. injection E as E.
  destruct (@scope_inj _ _ _ _ Ho' Ho E) as [_ ->]. contradiction.
Qed.

Lemma fresh_azure st t s : Forall (keyed st) (accounts st) -> has_colon t = false ->
  ~ In s (azure_accounts st) ->
  ~ In ("az:" ++ t ++ ":" ++ s) (map accountId (accounts st)).
Proof.
  intros Hk Ht Hs Hin. apply in_map_iff in Hin. destruct Hin as [e [E He]].
  rewrite Forall_forall in Hk.
  destruct (Hk e He) as [[y [E' H]]|[[o' [p' [E' _]]]|[t' [s' [E' [Ht' H]]]]]];
    rewrite E' in E; try (cbn in E; discriminate).
  change ("az:" ++ t' ++ ":" ++ s') with ("az:" ++ (t' ++ ":" ++ s')) in E.
  change ("az:" ++ t ++ ":" ++ s) with ("az:" ++ (t ++ ":" ++ s)) in E.
  cbn [append] in E. injection E as E.
  destruct (@scope_inj _ _ _ _ Ht' Ht E) as [_ ->]. contradiction.
Qed.

(** Appending an entry and its raw identifier keeps the locals well keyed. *)
Lemma well_keyed_add st st' e :
  well_keyed st -> grows st st' ->
  accounts st' = (accounts st ++ [e])%list ->
  keyed st' e -> ~ In (accountId e) (map accountId (accounts st)) ->
  well_keyed st'.
Proof.
  intros [Hn Hk] Hg Ha He Hf. split; rewrite Ha.
  - rewrite map_app. cbn [map]. now apply NoDup_snoc.
  - apply Forall_app. split.
    + eapply Forall_impl; [|exact Hk]. intros a. now apply keyed_grows.
    + constructor; [assumption | constructor].
Qed.

Lemma gcp_project_spec lw c org st p :
  well_keyed st -> has_colon (Py.format org) = false ->
  let st' := gcp_project lw c org st p in
  well_keyed st' /\ grows st st' /\ In p (gcp_accounts st') /\
  exists added, accounts st' = (accounts st ++ added)%list /\
                Forall (fun e => a_isOrg e <> None) added.
Proof.
  intros Hw Ho. unfold gcp_project.
  destruct (Py.contains (gcp_accounts st) p) eqn:E; cbn [negb].
  - split; [exact Hw | split; [apply grows_refl | split; [now apply contains_In|]]].
    exists []. split; [now rewrite app_nil_r | constructor].
  - apply contains_false in E.
    assert (Hg : grows st {| accounts := (accounts st ++ [integrated lw ("gcp:" ++ Py.format org ++ ":" ++ p) "GcpCfg" c])%list;
                             aws_accounts := aws_accounts st;
                             gcp_accounts := (gcp_accounts st ++ [p])%list;
                             azure_accounts := azure_accounts st |}).
    { repeat split; cbn; try apply incl_refl. apply incl_appl, incl_refl. }
    split; [|split; [exact Hg | split]].
    + eapply well_keyed_add; [exact Hw | exact Hg | reflexivity | |].
      * right. left. exists (Py.format org), p. cbn. repeat split; [assumption|].
        apply in_app_iff. right. now left.
      * cbn [accountId integrated]. apply fresh_gcp; [apply Hw | assumption | assumption].
    + cbn. apply in_app_iff. right. now left.
    + eexists. split; [reflexivity|]. constructor; [discriminate | constructor].
Qed.

Lemma azure_subscription_spec lw c tenantId st s :
  well_keyed st -> has_colon tenantId = false ->
  let st' := azure_subscription lw c tenantId st s in
  well_keyed st' /\ grows st st' /\
  exists added, accounts st' = (accounts st ++ added)%list /\
                Forall (fun e => a_isOrg e <> None) added.
Proof.
  intros Hw Ho. unfold azure_subscription.
  destruct (Py.contains (azure_accounts st) (Py.upper s)) eqn:E; cbn [negb].
  - split; [exact Hw | split; [apply grows_refl|]].
    exists []. split; [now rewrite app_nil_r | constructor].
  - apply contains_false in E.
    assert (Hg : grows st {| accounts := (accounts st ++ [integrated lw ("az:" ++ tenantId ++ ":" ++ Py.upper s) "AzureCfg" c])%list;
                             aws_accounts := aws_accounts st;
                             gcp_accounts := gcp_accounts st;
                             azure_accounts := (azure_accounts st ++ [Py.upper s])%list |}).
    { repeat split; cbn; try apply incl_refl. apply incl_appl, incl_refl. }
    split; [|split; [exact Hg|]].
    + eapply well_keyed_add; [exact Hw | exact Hg | reflexivity | |].
      * right. right. exists tenantId, (Py.upper s). cbn. repeat split; [assumption|].
        apply in_app_iff. right. now left.
      * cbn [accountId integrated]. apply fresh_azure; [apply Hw | assumption | assumption].
    + eexists. split; [reflexivity|]. constructor; [discriminate | constructor].
Qed.

Lemma extended_refl st : well_keyed st -> extended st st.
Proof.
  intro H. split; [assumption|]. split; [apply grows_refl|].
  exists []. split; [now rewrite app_nil_r | constructor].
Qed.

Lemma extended_trans st st' st'' : extended st st' -> extended st' st'' -> extended st st''.
Proof.
  intros [_ [G [a [Ea Fa]]]] [W [G' [a' [Ea' Fa']]]].
  split; [assumption|]. split; [eapply grows_trans; eassumption|].
  exists (a ++ a')%list. split; [now rewrite Ea', Ea, app_assoc | now apply Forall_app].
Qed.

Lemma gcp_projects_spec lw c org ps : forall st,
  well_keyed st -> has_colon (Py.format org) = false ->
  let st' := fold_left (gcp_project lw c org) ps st in
  extended st st' /\ forall p, In p ps -> In p (gcp_accounts st').
Proof.
  induction ps as [|p ps IH]; intros st Hw Ho; cbn [fold_left].
  - split; [now apply extended_refl | intros p []].
  - destruct (@gcp_project_spec lw c org st p Hw Ho) as [Hw' [Hg [Hp Ha]]].
    destruct (IH _ Hw' Ho) as [He Hin]. split.
    + eapply extended_trans; [|exact He]. exact (conj Hw' (conj Hg Ha)).
    + intros q [<-|Hq]; [|now apply Hin].
      destruct He as [_ [[_ [G _]] _]]. now apply G.
Qed.

Lemma azure_subscriptions_spec lw c tenantId ss : forall st,
  well_keyed st -> has_colon tenantId = false ->
  extended st (fold_left (azure_subscription lw c tenantId) ss st).
Proof.
  induction ss as [|s ss IH]; intros st Hw Ho; cbn [fold_left].
  - now apply extended_refl.
  - destruct (@azure_subscription_spec lw c tenantId st s Hw Ho) as [Hw' [Hg Ha]].
    eapply extended_trans; [|apply IH; assumption]. exact (conj Hw' (conj Hg Ha)).
Qed.

Lemma integration_row_spec lw organization st row st' :
  well_keyed st -> has_colon (scope_segment organization row) = false ->
  integration_row lw organization st row = Py.Return st' ->
  extended st st' /\
  forall c ps id ty p, row = GcpCfg c ps id ty -> In p ps -> In p (gcp_accounts st').
Proof.
  intros Hw Ho. destruct row as [c ps id ty|c arn|c ss tenantId|ty c]; cbn [integration_row].
  - intro E. injection E as <-. cbn [scope_segment] in Ho.
    destruct (@gcp_projects_spec lw c (gcp_orgId id ty organization) ps st Hw Ho) as [He Hin].
    split; [exact He|]. intros c' ps' id' ty' p E. injection E as <- <- <- <-. apply Hin.
  - destruct (nth_error (Py.split ":" arn) 4) as [a|]; [|discriminate].
    destruct (Py.contains (aws_accounts st) a) eqn:E; cbn [negb]; intro R; injection R as <-.
    + split; [now apply extended_refl | discriminate].
    + apply contains_false in E. split; [|discriminate].
      assert (Hg : grows st {| accounts := (accounts st ++ [integrated lw ("aws:" ++ a) "AwsCfg" c])%list;
                               aws_accounts := (aws_accounts st ++ [a])%list;
                               gcp_accounts := gcp_accounts st;
                               azure_accounts := azure_accounts st |}).
      { repeat split; cbn; try apply incl_refl. apply incl_appl, incl_refl. }
      split; [|split; [exact Hg|]].
      * eapply well_keyed_add; [exact Hw | exact Hg | reflexivity | |].
        -- left. exists a. cbn. split; [reflexivity|]. apply in_app_iff. right. now left.
        -- cbn [accountId integrated]. apply fresh_aws; [apply Hw | assumption].
      * eexists. split; [reflexivity|]. constructor; [discriminate | constructor].
  - intro E. injection E as <-. cbn [scope_segment] in Ho.
    split; [now apply azure_subscriptions_spec | discriminate].
  - intro E. injection E as <-. split; [now apply extended_refl | discriminate].
Qed.

Lemma integration_pass_spec lw organization rows : forall st st',
  well_keyed st ->
  Forall (fun row => has_colon (scope_segment organization row) = false) rows ->
  integration_pass lw organization st rows = Py.Return st' ->
  extended st st' /\
  forall c ps id ty p, In (GcpCfg c ps id ty) rows -> In p ps -> In p (gcp_accounts st').
Proof.
  induction rows as [|row rows IH]; intros st st' Hw Hs; cbn [integration_pass].
  - intro E. injection E as <-. split; [now apply extended_refl | intros ? ? ? ? ? []].
  - inversion Hs as [|? ? Hrow Hrows]; subst.
    destruct (integration_row lw organization st row) as [st1|e] eqn:E1; cbn [Py.bind];
      [|discriminate].
    intro E. destruct (@integration_row_spec lw organization st row st1 Hw Hrow E1) as [He1 Hg1].
    destruct (IH _ _ (proj1 He1) Hrows E) as [He Hg]. split.
    + eapply extended_trans; eassumption.
    + intros c ps id ty p [->|Hin] Hp; [|eapply Hg; eassumption].
      destruct He as [_ [[_ [G _]] _]]. apply G. eapply Hg1; [reflexivity | assumption].
Qed.

Lemma equals_Some (o : option string) (s : string) : equals o s = true -> o = Some s.
Proof.
  destruct o as [x|]; cbn; [|discriminate]. intro H. apply String.eqb_eq in H. now subst.
Qed.

Lemma telemetry_row_spec lw st0 ms st m :
  well_keyed st -> grows st0 st -> In m ms ->
  let st' := telemetry_row lw st m in
  well_keyed st' /\ grows st st' /\
  exists added, accounts st' = (accounts st ++ added)%list /\
                Forall (telemetry_derived lw st0 ms) added.
Proof.
  intros Hw [Ga [Gg Gz]] Hm.
  assert (Hsame : well_keyed st /\ grows st st /\
                  exists added, accounts st = (accounts st ++ added)%list /\
                                Forall (telemetry_derived lw st0 ms) added).
  { split; [exact Hw | split; [apply grows_refl|]].
    exists []. split; [now rewrite app_nil_r | constructor]. }
  unfold telemetry_row.
  destruct (aws_candidate st m) as [a|] eqn:Ea.
  { unfold aws_candidate in Ea. destruct (ACCOUNTID m) as [a'|] eqn:Eid; [|discriminate].
    destruct (equals (VMPROVIDER m) "AWS" && negb (Py.contains (aws_accounts st) a')) eqn:Ec;
      [|discriminate].
    injection Ea as ->. apply andb_true_iff in Ec. destruct Ec as [Ep En].
    apply negb_true_iff, contains_false in En. apply equals_Some in Ep.
    destruct (negb (Py.contains (aws_accounts st) (last_segment ("aws:" ++ a))));
      [|exact Hsame].
    assert (Hg : grows st {| accounts := (accounts st ++ [lql_discovered lw ("aws:" ++ a) "AwsLql"])%list;
                             aws_accounts := (aws_accounts st ++ [a])%list;
                             gcp_accounts := gcp_accounts st;
                             azure_accounts := azure_accounts st |}).
    { repeat split; cbn; try apply incl_refl. apply incl_appl, incl_refl. }
    split; [|split; [exact Hg|]].
    - eapply well_keyed_add; [exact Hw | exact Hg | reflexivity | |].
      + left. exists a. cbn. split; [reflexivity|]. apply in_app_iff. right. now left.
      + cbn [accountId lql_discovered]. apply fresh_aws; [apply Hw | assumption].
    - eexists. split; [reflexivity|]. constructor; [|constructor].
      left. exists a. split; [reflexivity|]. split; [|now exists m].
      intro H. apply En, Ga, H. }
  destruct (gcp_candidate st m) as [p|] eqn:Eg.
  { unfold gcp_candidate in Eg. destruct (PROJECTID m) as [p'|] eqn:Eid; [|discriminate].
    destruct (equals (VMPROVIDER m) "GCE" && negb (Py.contains (gcp_accounts st) p')) eqn:Ec;
      [|discriminate].
    injection Eg as ->. apply andb_true_iff in Ec. destruct Ec as [Ep En].
    apply negb_true_iff, contains_false in En. apply equals_Some in Ep.
    destruct (negb (Py.contains (gcp_accounts st) (last_segment ("gcp::" ++ p))));
      [|exact Hsame].
    assert (Hg : grows st {| accounts := (accounts st ++ [lql_discovered lw ("gcp::" ++ p) "GcpLql"])%list;
                             aws_accounts := aws_accounts st;
                             gcp_accounts := (gcp_accounts st ++ [p])%list;
                             azure_accounts := azure_accounts st |}).
    { repeat split; cbn; try apply incl_refl. apply incl_appl, incl_refl. }
    split; [|split; [exact Hg|]].
    - eapply well_keyed_add; [exact Hw | exact Hg | reflexivity | |].
      + right. left. exists "", p. cbn. repeat split. apply in_app_iff. right. now left.
      + cbn [accountId lql_discovered].
        apply (@fresh_gcp st "" p); [apply Hw | reflexivity | assumption].
    - eexists. split; [reflexivity|]. constructor; [|constructor].
      right. left. exists p. split; [reflexivity|]. split; [|now exists m].
      intro H. apply En, Gg, H. }
  destruct (azure_candidate st m) as [p|] eqn:Ez; [|exact Hsame].
  unfold azure_candidate in Ez. destruct (PROJECTID m) as [p'|] eqn:Eid; [|discriminate].
  destruct (equals (VMPROVIDER m) "Azure" && negb (Py.contains (azure_accounts st) p')) eqn:Ec;
    [|discriminate].
  injection Ez as ->. apply andb_true_iff in Ec. destruct Ec as [Ep En].
  apply negb_true_iff, contains_false in En. apply equals_Some in Ep.
  destruct (negb (Py.contains (azure_accounts st) (last_segment ("az::" ++ p))));
    [|exact Hsame].
  assert (Hg : grows st {| accounts := (accounts st ++ [lql_discovered lw ("az::" ++ p) "AzureLql"])%list;
                           aws_accounts := aws_accounts st;
                           gcp_accounts := gcp_accounts st;
                           azure_accounts := (azure_accounts st ++ [p])%list |}).
  { repeat split; cbn; try apply incl_refl. apply incl_appl, incl_refl. }
  split; [|split; [exact Hg|]].
  - eapply well_keyed_add; [exact Hw | exact Hg | reflexivity | |].
    + right. right. exists "", p. cbn. repeat split. apply in_app_iff. right. now left.
    + cbn [accountId lql_discovered].
      apply (@fresh_azure st "" p); [apply Hw | reflexivity | assumption].
  - eexists. split; [reflexivity|]. constructor; [|constructor].
    right. right. exists p. split; [reflexivity|]. split; [|now exists m].
    intro H. apply En, Gz, H.
Qed.

Lemma telemetry_pass_spec lw st0 ms rows : forall st,
  well_keyed st -> grows st0 st -> incl rows ms ->
  let st' := fold_left (telemetry_row lw) rows st in
  well_keyed st' /\
  exists added, accounts st' = (accounts st ++ added)%list /\
                Forall (telemetry_derived lw st0 ms) added.
Proof.
  induction rows as [|m rows IH]; intros st Hw Hg Hi; cbn [fold_left].
  - split; [assumption|]. exists []. split; [now rewrite app_nil_r | constructor].
  - destruct (@telemetry_row_spec lw st0 ms st m Hw Hg (Hi m (or_introl eq_refl)))
      as [Hw' [Hg' [a [Ea Fa]]]].
    destruct (IH (telemetry_row lw st m) Hw' (grows_trans Hg Hg')
                 (fun x Hx => Hi x (or_intror Hx))) as [Hw'' [a' [Ea' Fa']]].
    split; [assumption|]. exists (a ++ a')%list.
    split; [now rewrite Ea', Ea, app_assoc | now apply Forall_app].
Qed.

Lemma well_keyed_start : well_keyed start.
Proof. split; cbn; constructor. Qed.




End DiscoveryFacts.

Module StoreFacts.
Import Store PyFacts.

Local Open Scope list_scope.





(** *** Inserting *)




(** *** Adding the missing columns *)




(** *** One row *)



(** *** Reading back *)














(** *** The invariant of the loop *)






(** *** The loop *)
















(** *** The round trip through [lwaccount] *)











End StoreFacts.

(* ================================================================== *)
(** ** Laws of ORDER BY, GROUP BY and SUM *)

Module QueryLaws.
Import SqlFacts.

Lemma insert_row_perm (A : Type) (cmp : A -> A -> comparison) (r : A) (l : list A) :
  Permutation (Sql.insert_row cmp r l) (r :: l).
Proof.
  induction l as [|x l IH]; cbn; [reflexivity|].
  destruct (cmp r x); try reflexivity.
  rewrite IH. apply perm_swap.
Qed.

(** ORDER BY rearranges the rows. *)
Lemma order_by_perm (A : Type) (cmp : A -> A -> comparison) (l : list A) :
  Permutation (Sql.order_by cmp l) l.
Proof.
  unfold Sql.order_by. induction l as [|x l IH]; cbn; [constructor|].
  rewrite insert_row_perm. now constructor.
Qed.

Lemma insert_row_sorted (A : Type) (cmp : A -> A -> comparison) (r : A) (l : list A) :
  (forall a b, cmp a b = Gt -> cmp b a <> Gt) ->
  Sorted (fun a b => cmp a b <> Gt) l ->
  Sorted (fun a b => cmp a b <> Gt) (Sql.insert_row cmp r l).
Proof.
  intros Hanti Hl. induction Hl as [|x l Hl IH Hx]; cbn.
  - repeat constructor.
  - destruct (cmp r x) eqn:E.
    + constructor; [now constructor|]. constructor. rewrite E. discriminate.
    + constructor; [now constructor|]. constructor. rewrite E. discriminate.
    + constructor; [exact IH|].
      destruct Hx as [|y l Hy]; cbn.
      * constructor. now apply Hanti.
      * destruct (cmp r y); constructor; try assumption; now apply Hanti.
Qed.

(** ... into an order in which no row is followed by a smaller one. *)
Lemma order_by_sorted (A : Type) (cmp : A -> A -> comparison) (l : list A) :
  (forall a b, cmp a b = Gt -> cmp b a <> Gt) ->
  Sorted (fun a b => cmp a b <> Gt) (Sql.order_by cmp l).
Proof.
  intro Hanti. unfold Sql.order_by. induction l as [|x l IH]; cbn.
  - constructor.
  - now apply insert_row_sorted.
Qed.

Lemma cmp_text_opp (a b : option string) :
  Sql.cmp_text a b = CompOpp (Sql.cmp_text b a).
Proof.
  destruct a as [x|], b as [y|]; cbn; try reflexivity. apply String.compare_antisym.
Qed.

Lemma cmp_int_opp (a b : option Z) :
  Sql.cmp_int a b = CompOpp (Sql.cmp_int b a).
Proof.
  destruct a as [x|], b as [y|]; cbn; try reflexivity. apply Z.compare_antisym.
Qed.

Lemma then_by_opp (c1 c2 : comparison) :
  CompOpp (Sql.then_by c1 c2) = Sql.then_by (CompOpp c1) (CompOpp c2).
Proof. destruct c1; reflexivity. Qed.

Lemma total_perm (l l' : list Z) : Permutation l l' -> Sql.total l = Sql.total l'.
Proof.
  intro H. induction H as [|x l l' H IH|x y l|l l' l'' H IH H' IH'];
    rewrite ?total_cons in *; lia.
Qed.

Lemma non_null_perm (A : Type) (l l' : list (option A)) :
  Permutation l l' -> Permutation (Sql.non_null l) (Sql.non_null l').
Proof.
  intro H. induction H as [|[x|] l l' H IH|[x|] [y|] l|l l' l'' H IH H' IH']; cbn;
    try reflexivity; try assumption.
  - now constructor.
  - apply perm_swap.
  - etransitivity; eassumption.
Qed.

(** SUM does not depend on the order of the rows. *)
Lemma sum_perm (l l' : list (option Z)) : Permutation l l' -> Sql.sum l = Sql.sum l'.
Proof.
  intro H. apply non_null_perm in H. unfold Sql.sum.
  destruct (Sql.non_null l) as [|x xs] eqn:E, (Sql.non_null l') as [|y ys] eqn:E'.
  - reflexivity.
  - apply Permutation_nil in H. discriminate.
  - apply Permutation_sym, Permutation_nil in H. discriminate.
  - f_equal. now apply total_perm.
Qed.

Lemma total_length (A : Type) (l : list A) :
  Sql.total (map (fun _ => 1) l) = Z.of_nat (List.length l).
Proof.
  induction l as [|x l IH]; [reflexivity|].
  cbn [map List.length]. rewrite total_cons, IH. lia.
Qed.

Section Groups.

Variables (A K : Type) (eqb : K -> K -> bool) (key : A -> K) (f : A -> Z).
Hypothesis eqb_eq : forall a b, eqb a b = true <-> a = b.

Lemma eqb_same (k : K) : eqb k k = true.
Proof. now apply eqb_eq. Qed.

Lemma eqb_swap (a b : K) : eqb a b = eqb b a.
Proof.
  destruct (eqb a b) eqn:E, (eqb b a) eqn:E'; try reflexivity.
  - apply eqb_eq in E. subst. rewrite eqb_same in E'. discriminate.
  - apply eqb_eq in E'. subst. rewrite eqb_same in E. discriminate.
Qed.

Lemma group_absent (k : K) (l : list A) :
  ~ In k (map key l) -> filter (fun r => eqb k (key r)) l = [].
Proof.
  induction l as [|x l IH]; cbn; [reflexivity|]. intro H.
  destruct (eqb k (key x)) eqn:E.
  - exfalso. apply H. left. symmetry. now apply eqb_eq.
  - apply IH. tauto.
Qed.

Lemma keys_total (g : K -> Z) (k : K) (D : list K) :
  NoDup D ->
  Sql.total (map g D)
  = (if existsb (eqb k) D then g k else 0)
    + Sql.total (map g (filter (fun y => negb (eqb k y)) D)).
Proof.
  induction 1 as [|x D Hx HD IH]; cbn [map filter existsb]; [reflexivity|].
  rewrite total_cons, IH. destruct (eqb k x) eqn:E; cbn [orb negb].
  - apply eqb_eq in E. subst x.
    assert (Hn : existsb (eqb k) D = false).
    { destruct (existsb (eqb k) D) eqn:Ex; [|reflexivity].
      apply existsb_exists in Ex. destruct Ex as [y [Hy Ey]].
      apply eqb_eq in Ey. subst. contradiction. }
    rewrite Hn. lia.
  - cbn [map]. rewrite total_cons. lia.
Qed.

(** The groups of GROUP BY split the rows: what is added up group by
    group is what is added up over all rows. *)
Lemma group_total (l : list A) :
  Sql.total (map (fun k => Sql.total (map f (filter (fun r => eqb k (key r)) l)))
                 (Sql.distinct eqb (map key l)))
  = Sql.total (map f l).
Proof.
  induction l as [|x l IH]; [reflexivity|].
  cbn [map Sql.distinct filter]. rewrite !total_cons, eqb_same.
  cbn [map]. rewrite total_cons, <- IH.
  rewrite (@keys_total
             (fun k => Sql.total (map f (filter (fun r => eqb k (key r)) l)))
             (key x) (Sql.distinct eqb (map key l))
             (@NoDup_distinct K eqb (map key l) eqb_eq)).
  assert (E1 : (if existsb (eqb (key x)) (Sql.distinct eqb (map key l))
                then Sql.total (map f (filter (fun r => eqb (key x) (key r)) l))
                else 0)
               = Sql.total (map f (filter (fun r => eqb (key x) (key r)) l))).
  { destruct (existsb (eqb (key x)) (Sql.distinct eqb (map key l))) eqn:Ex; [reflexivity|].
    rewrite group_absent; [reflexivity|]. intro Hin.
    apply (@in_distinct K eqb (map key l) (key x) eqb_eq) in Hin.
    assert (existsb (eqb (key x)) (Sql.distinct eqb (map key l)) = true); [|congruence].
    apply existsb_exists. exists (key x). split; [assumption | apply eqb_same]. }
  rewrite E1.
  assert (E2 : map (fun k => Sql.total
                               (map f (if eqb k (key x)
                                       then x :: filter (fun r => eqb k (key r)) l
                                       else filter (fun r => eqb k (key r)) l)))
                   (filter (fun y => negb (eqb (key x) y)) (Sql.distinct eqb (map key l)))
               = map (fun k => Sql.total (map f (filter (fun r => eqb k (key r)) l)))
                     (filter (fun y => negb (eqb (key x) y))
                             (Sql.distinct eqb (map key l)))).
  { apply map_ext_in. intros k Hk. apply filter_In in Hk. destruct Hk as [_ Hk].
    rewrite (eqb_swap k (key x)). destruct (eqb (key x) k); [discriminate | reflexivity]. }
  rewrite E2. lia.
Qed.

(** ... and, for a key that occurs, its group is not empty. *)
Lemma group_inhabited (k : K) (l : list A) :
  In k (Sql.distinct eqb (map key l)) -> filter (fun r => eqb k (key r)) l <> [].
Proof.
  intros Hk E. apply in_distinct_sub, in_map_iff in Hk. destruct Hk as [r [<- Hr]].
  assert (Hin : In r (filter (fun r' => eqb (key r) (key r')) l)).
  { apply filter_In. split; [assumption | apply eqb_same]. }
  rewrite E in Hin. contradiction.
Qed.

End Groups.

Lemma group_count (A K : Type) (eqb : K -> K -> bool) (key : A -> K) (l : list A) :
  (forall a b, eqb a b = true <-> a = b) ->
  Sql.total (map (fun k => Z.of_nat (List.length (filter (fun r => eqb k (key r)) l)))
                 (Sql.distinct eqb (map key l)))
  = Z.of_nat (List.length l).
Proof.
  intro H. rewrite <- (total_length l), <- (@group_total A K eqb key (fun _ => 1) H l).
  f_equal. apply map_ext. intro k. now rewrite total_length.
Qed.

End QueryLaws.

(* ================================================================== *)
(** ** The agent queries *)

Module AgentFacts.
Import AgentQueries SqlFacts QueryLaws.

Lemma same_account_eq (a b : option string * option string) :
  same_account a b = true <-> a = b.
Proof.
  destruct a as [a1 a2], b as [b1 b2]. unfold same_account. cbn [fst snd].
  rewrite andb_true_iff, !same_eq. split; [intros [-> ->] | intro H; injection H]; auto.
Qed.

(** With one agent row per instance at most, [has_agent] is 0 or 1. *)
Lemma has_agent_unique (machines : list agent) (dm : discovered) :
  unique_agents machines -> (List.length (filter (agent_of dm) machines) <= 1)%nat.
Proof.
  unfold unique_agents. induction machines as [|m ms IH]; cbn [filter]; [auto|].
  intro Hn. destruct (agent_of dm m) eqn:E.
  - unfold agent_of in E.
    destruct (TAG_INSTANCEID m) as [i|] eqn:Em, (INSTANCEID dm) as [j|] eqn:Ed;
      cbn in E; try discriminate.
    destruct (String.eqb_spec i j) as [<-|N]; [|discriminate].
    cbn [map] in Hn. rewrite Em in Hn. cbn [Sql.non_null] in Hn.
    inversion Hn as [|? ? Hi Hn']; subst.
    assert (Hnil : filter (agent_of dm) ms = []).
    { clear - Hi Ed. induction ms as [|m' ms IH]; cbn [filter]; [reflexivity|].
      cbn [map] in Hi. unfold agent_of at 1. rewrite Ed.
      destruct (TAG_INSTANCEID m') as [i'|]; cbn [Sql.non_null] in Hi; cbn.
      - destruct (String.eqb_spec i' i) as [->|N].
        + exfalso. apply Hi. now left.
        + apply IH. intro H. apply Hi. now right.
      - now apply IH. }
    rewrite Hnil. cbn. lia.
  - apply IH. cbn [map] in Hn.
    destruct (TAG_INSTANCEID m); cbn [Sql.non_null] in Hn; [now inversion Hn | assumption].
Qed.

Lemma installed_bounds (machines : list agent) (grp : list t_row) :
  (forall r, In r grp -> 0 <= has_agent r <= 1) ->
  0 <= Sql.total (map has_agent grp) <= Z.of_nat (List.length grp).
Proof.
  induction grp as [|r grp IH]; intro H; [cbn; lia|].
  cbn [map List.length]. rewrite total_cons.
  specialize (H r (or_introl eq_refl)) as Hr.
  assert (0 <= Sql.total (map has_agent grp) <= Z.of_nat (List.length grp)).
  { apply IH. intros r' Hr'. apply H. now right. }
  lia.
Qed.

(** X1.  With at most one agent row per instance id, every row of
    [account_coverage] counts at least one running machine, its
    [total_installed] lies between 0 and [total], and its [total_coverage]
    is [total_installed * 100 / total], between 0 and 100. *)
Theorem agent_account_coverage_bounds
        (machines : list agent) (db_table : list discovered) (a : account_row)
        (Hunique : unique_agents machines)
        (Ha : In a (account_coverage machines db_table)) :
  exists n,
    total_installed (snd a) = Some n /\
    1 <= total (snd a) /\
    0 <= n <= total (snd a) /\
    total_coverage (snd a) = Some (Z.quot (n * 100) (total (snd a))) /\
    0 <= Z.quot (n * 100) (total (snd a)) <= 100.
Proof.
  unfold account_coverage in Ha. apply ComplianceFacts.in_order_by in Ha.
  apply in_map_iff in Ha. destruct Ha as [g [<- Hg]]. cbn [snd].
  pose proof (@group_inhabited t_row _ same_account t_account same_account_eq g _ Hg) as Hne.
  set (grp := filter (fun r => same_account g (t_account r))
                     (filter running (t machines db_table))) in *.
  assert (Hlen : 1 <= Z.of_nat (List.length grp)).
  { destruct grp; [contradiction | cbn [List.length]; lia]. }
  assert (Hb : 0 <= Sql.total (map has_agent grp) <= Z.of_nat (List.length grp)).
  { apply (installed_bounds machines). intros r Hr.
    apply filter_In in Hr. destruct Hr as [Hr _]. apply filter_In in Hr.
    destruct Hr as [Hr _]. apply in_map_iff in Hr. destruct Hr as [dm [<- _]].
    cbn [has_agent t_select]. pose proof (@has_agent_unique machines dm Hunique). lia. }
  exists (Sql.total (map has_agent grp)).
  unfold aggregate. cbn [total_installed total total_coverage].
  rewrite (@sum_some t_row has_agent grp Hne). cbn [Sql.mul Sql.div].
  destruct (Z.eqb_spec (Z.of_nat (List.length grp)) 0) as [E|_]; [lia|].
  repeat split; try lia.
  - apply Z.quot_pos; lia.
  - apply Z.quot_le_upper_bound; lia.
Qed.

Lemma agent_account_coverage_bounds_witness :
  exists n,
    total_installed
      (snd ((Some "T", Some "aws:1"),
            aggregate (filter running
                         (t [agent_on "i-1"]
                            [machine_of "T" "aws:1" "i-1" "running";
                             machine_of "T" "aws:1" "i-2" "RUNNING"])))) = Some n /\
    n = 1.
Proof.
  assert (Hu : unique_agents [agent_on "i-1"]).
  { unfold unique_agents. cbn. repeat constructor. intros []. }
  destruct (@agent_account_coverage_bounds
              [agent_on "i-1"]
              [machine_of "T" "aws:1" "i-1" "running"; machine_of "T" "aws:1" "i-2" "RUNNING"]
              _ Hu (or_introl eq_refl)) as [n [E _]].
  exists n. split; [exact E|]. vm_compute in E. now injection E.
Defined.

Lemma nothing_running (machines : list agent) (db_table : list discovered) :
  (forall d, In d db_table -> lower (STATE d) <> Some "running") ->
  filter running (t machines db_table) = [].
Proof.
  intro H. induction db_table as [|d db IH]; [reflexivity|].
  unfold t in *. cbn [map filter].
  assert (E : running (t_select machines d) = false).
  { unfold running. cbn [state t_select].
    specialize (H d (or_introl eq_refl)).
    destruct (lower (STATE d)) as [s|]; [|reflexivity]. cbn.
    destruct (String.eqb_spec s "running") as [->|N]; [now contradiction H | reflexivity]. }
  rewrite E. apply IH. intros d' Hd'. apply H. now right.
Qed.

(** X2.  When no discovered machine is in state running (the empty table
    included), [total_summary] still returns its one row, with [total] 0
    and NULL for [total_installed], [total_not_installed] and
    [total_coverage]; [account_coverage] and [lwaccount_summary] return no
    row. *)
Theorem agent_summary_nothing_running
        (machines : list agent) (db_table : list discovered)
        (Hnone : forall d, In d db_table -> lower (STATE d) <> Some "running") :
  total_summary machines db_table
  = [((Some "Any", 0),
      {| total_installed := None; total_not_installed := None;
         total := 0; total_coverage := None |})] /\
  account_coverage machines db_table = [] /\
  lwaccount_summary machines db_table = [].
Proof.
  unfold total_summary, account_coverage, lwaccount_summary.
  rewrite (nothing_running machines db_table Hnone). repeat split.
Qed.

Lemma agent_summary_nothing_running_witness :
  total_summary [agent_on "i-1"] [machine_of "T" "aws:1" "i-1" "stopped"]
  = [((Some "Any", 0),
      {| total_installed := None; total_not_installed := None;
         total := 0; total_coverage := None |})].
Proof.
  apply (@agent_summary_nothing_running
           [agent_on "i-1"] [machine_of "T" "aws:1" "i-1" "stopped"]).
  intros d [<-|[]]. cbn. discriminate.
Defined.

Lemma sum_groups (A K : Type) (eqb : K -> K -> bool) (key : A -> K) (f : A -> Z)
      (l : list A) :
  (forall a b, eqb a b = true <-> a = b) ->
  Sql.sum (map (fun k => Sql.sum (map (fun r => Some (f r))
                                      (filter (fun r => eqb k (key r)) l)))
               (Sql.distinct eqb (map key l)))
  = Sql.sum (map (fun r => Some (f r)) l).
Proof.
  intro H.
  assert (E : map (fun k => Sql.sum (map (fun r => Some (f r))
                                         (filter (fun r => eqb k (key r)) l)))
                  (Sql.distinct eqb (map key l))
              = map (fun k => Some (Sql.total (map f (filter (fun r => eqb k (key r)) l))))
                    (Sql.distinct eqb (map key l))).
  { apply map_ext_in. intros k Hk. apply sum_some.
    now apply (@group_inhabited A K eqb key H). }
  rewrite E. destruct l as [|x l]; [reflexivity|].
  rewrite !sum_some; try discriminate.
  f_equal. now apply group_total.
Qed.

(** X3.  The accounts add up to the summary: over the rows of
    [account_coverage], the [total]s add up to the [total] of
    [total_summary] and the [total_installed] to its [total_installed]
    (both NULL when no machine runs); the same holds over the rows of
    [lwaccount_summary]. *)
Theorem agent_accounts_add_up (machines : list agent) (db_table : list discovered) :
  map (fun s => total (snd s)) (total_summary machines db_table)
  = [Sql.total (map (fun a => total (snd a)) (account_coverage machines db_table))] /\
  map (fun s => total_installed (snd s)) (total_summary machines db_table)
  = [Sql.sum (map (fun a => total_installed (snd a)) (account_coverage machines db_table))] /\
  map (fun s => total (snd s)) (total_summary machines db_table)
  = [Sql.total (map (fun a => total (snd a)) (lwaccount_summary machines db_table))] /\
  map (fun s => total_installed (snd s)) (total_summary machines db_table)
  = [Sql.sum (map (fun a => total_installed (snd a)) (lwaccount_summary machines db_table))].
Proof.
  unfold total_summary, account_coverage, lwaccount_summary.
  set (rows := filter running (t machines db_table)).
  cbn [map snd]. unfold aggregate at 1 2 3 4. cbn [total total_installed].
  repeat split; f_equal.
  - rewrite (total_perm (Permutation_map _ (order_by_perm account_order _))).
    rewrite map_map. cbn [snd aggregate total].
    symmetry. now apply group_count, same_account_eq.
  - rewrite (sum_perm (Permutation_map _ (order_by_perm account_order _))).
    rewrite map_map. cbn [snd aggregate total_installed].
    symmetry. now apply sum_groups, same_account_eq.
  - rewrite map_map. cbn [snd aggregate total].
    symmetry. apply (@group_count t_row _ Sql.same lwAccount rows), same_eq.
  - rewrite map_map. cbn [snd aggregate total_installed].
    symmetry. apply (@sum_groups t_row _ Sql.same lwAccount has_agent rows), same_eq.
Qed.

(** X4.  The letter case of [STATE] does not matter: two tables that
    differ in it only give the same rows in all five agent queries, so a
    machine in state RUNNING counts as running. *)
Theorem agent_state_case_insensitive
        (machines : list agent) (db_table db_table' : list discovered)
        (Hcase : Forall2 same_but_case db_table db_table') :
  report machines db_table = report machines db_table' /\
  account_coverage machines db_table = account_coverage machines db_table' /\
  total_summary machines db_table = total_summary machines db_table' /\
  lwaccount_summary machines db_table = lwaccount_summary machines db_table' /\
  lwaccount machines db_table = lwaccount machines db_table'.
Proof.
  assert (E : t machines db_table = t machines db_table').
  { unfold t. induction Hcase as [|d d' db db' Hd _ IH]; [reflexivity|].
    cbn [map]. f_equal; [|exact IH].
    destruct Hd as [H1 [H2 [H3 [H4 [H5 H6]]]]].
    unfold t_select, agent_of. now rewrite H1, H2, H3, H4, H5, H6. }
  unfold report, account_coverage, total_summary, lwaccount_summary, lwaccount.
  now rewrite E.
Qed.

Lemma agent_state_case_insensitive_witness :
  account_coverage [agent_on "i-1"] [machine_of "T" "aws:1" "i-1" "RUNNING"]
  = account_coverage [agent_on "i-1"] [machine_of "T" "aws:1" "i-1" "running"] /\
  map (fun a => total (snd a))
      (account_coverage [agent_on "i-1"] [machine_of "T" "aws:1" "i-1" "RUNNING"]) = [1].
Proof.
  split; [|reflexivity].
  apply (@agent_state_case_insensitive
           [agent_on "i-1"] [machine_of "T" "aws:1" "i-1" "RUNNING"]
           [machine_of "T" "aws:1" "i-1" "running"]).
  repeat constructor.
Defined.

Lemma report_order_anti (a b : t_row) : report_order a b = Gt -> report_order b a <> Gt.
Proof.
  unfold report_order. intro H.
  rewrite (cmp_text_opp (lwAccount b)), (cmp_text_opp (accountId b)), <- then_by_opp, H.
  discriminate.
Qed.

(** X5.  The ['report'] query returns one row per discovered machine,
    whatever its state, ordered by lwAccount and accountId; [has_agent] is
    the number of agent rows that carry the machine's instance id, and a
    machine without one, or without instance id, has [has_agent] 0 and a
    NULL [lwTokenShort]. *)
Theorem agent_report_rows (machines : list agent) (db_table : list discovered) :
  Permutation (report machines db_table) (map (t_select machines) db_table) /\
  Sorted (fun a b => report_order a b <> Gt) (report machines db_table) /\
  (forall r, In r (report machines db_table) ->
     has_agent r
     = Z.of_nat (List.length
                   (filter (fun m => Sql.holds (Sql.eq_text (TAG_INSTANCEID m) (InstanceId r)))
                           machines)) /\
     (has_agent r = 0 -> lwTokenShort r = None) /\
     (InstanceId r = None -> has_agent r = 0)).
Proof.
  split; [apply order_by_perm|]. split; [apply order_by_sorted, report_order_anti|].
  intros r Hr. apply ComplianceFacts.in_order_by, in_map_iff in Hr.
  destruct Hr as [dm [<- _]]. cbn [has_agent lwTokenShort InstanceId t_select].
  split; [reflexivity|]. split.
  - intro H. destruct (filter (agent_of dm) machines); [reflexivity | cbn in H; lia].
  - intro H. assert (E : filter (agent_of dm) machines = []).
    { clear - H. induction machines as [|m ms IH]; [reflexivity|].
      cbn [filter]. unfold agent_of at 1. rewrite H.
      destruct (TAG_INSTANCEID m); cbn; exact IH. }
    now rewrite E.
Qed.

End AgentFacts.

(* ================================================================== *)
(** ** The compliance roll-ups *)

Module ComplianceRollupFacts.
Import ComplianceQueries SqlFacts QueryLaws.

Lemma account_eq (a b : option string * option string) :
  same_account a b = true <-> a = b.
Proof.
  destruct a as [a1 a2], b as [b1 b2]. unfold same_account. cbn [fst snd].
  rewrite andb_true_iff, !same_eq. split; [intros [-> ->] | intro H; injection H]; auto.
Qed.

(** Every row of the three roll-ups aggregates a group of controls. *)
Lemma rollup_inv (db_table : list compliance) (b : buckets) :
  In b (map snd (account_coverage db_table) ++ map snd (total_summary db_table)
          ++ map snd (lwaccount_summary db_table)) ->
  exists keep, b = aggregate (filter keep (t db_table)).
Proof.
  intro H. apply in_app_iff in H. destruct H as [H|H]; [|apply in_app_iff in H; destruct H as [H|H]].
  - apply in_map_iff in H. destruct H as [a [<- Ha]].
    unfold account_coverage in Ha. apply ComplianceFacts.in_order_by, in_map_iff in Ha.
    destruct Ha as [g [<- _]]. now exists (fun r => same_account g (t_account r)).
  - destruct H as [<-|[]]. exists (fun _ => true). cbn [snd].
    now rewrite filter_all.
  - apply in_map_iff in H. destruct H as [a [<- Ha]].
    unfold lwaccount_summary in Ha. apply in_map_iff in Ha.
    destruct Ha as [lw [<- _]]. now exists (fun r => Sql.same lw (t_lwAccount r)).
Qed.

Lemma null_to_zero_sum (l : list (option Z)) :
  null_to_zero (Sql.sum l) = Sql.total (map null_to_zero l).
Proof.
  unfold Sql.sum.
  assert (E : Sql.total (map null_to_zero l) = Sql.total (Sql.non_null l)).
  { induction l as [|[x|] l IH]; cbn [map Sql.non_null null_to_zero];
      rewrite ?total_cons; [reflexivity | now rewrite IH | rewrite IH; lia]. }
  rewrite E. destruct (Sql.non_null l); reflexivity.
Qed.

(** The violations a control adds to the column of code [n]. *)
Lemma severity_sum (n : Z) (grp : list t_row) :
  Forall (fun r => exists v, total_violation_count r = Some v) grp ->
  null_to_zero (sum_severity_number n grp)
  = Sql.total (map (fun r => if Sql.holds (Sql.eq_int (t_severity_number r) (Some n))
                             then null_to_zero (total_violation_count r) else 0) grp).
Proof.
  intro H. unfold sum_severity_number. rewrite null_to_zero_sum, map_map.
  f_equal. apply map_ext_in. intros r Hr.
  destruct (Sql.holds (Sql.eq_int (t_severity_number r) (Some n))); reflexivity.
Qed.

(** X6.  When every control of the table has a severity code from 1 to 5
    and a VIOLATIONS array, the five severity columns of every row of
    [account_coverage], [total_summary] and [lwaccount_summary] add up to
    the row's [total_violation_count]: no violation is counted twice or
    left out. *)
Theorem severity_columns_add_up
        (db_table : list compliance) (b : buckets)
        (Hcontrols : forall r c, In (r, c) (json_each db_table) ->
                                 (exists n, SEVERITY c = Some n /\ 1 <= n <= 5) /\
                                 VIOLATIONS c <> None)
        (Hb : In b (map snd (account_coverage db_table) ++ map snd (total_summary db_table)
                      ++ map snd (lwaccount_summary db_table))) :
  null_to_zero (critical b) + null_to_zero (high b) + null_to_zero (medium b)
  + null_to_zero (low b) + null_to_zero (info b)
  = b_total_violation_count b.
Proof.
  destruct (rollup_inv db_table b Hb) as [keep ->].
  set (grp := filter keep (t db_table)).
  assert (Hgrp : Forall (fun r => (exists n, t_severity_number r = Some n /\ 1 <= n <= 5) /\
                                  exists v, total_violation_count r = Some v) grp).
  { apply Forall_forall. intros r Hr. apply filter_In in Hr. destruct Hr as [Hr _].
    unfold t in Hr. apply in_map_iff in Hr. destruct Hr as [[r0 c] [<- Hc]].
    destruct (Hcontrols r0 c Hc) as [Hs Hv]. cbn [t_select t_severity_number total_violation_count].
    split; [exact Hs|]. destruct (VIOLATIONS c) as [viol|]; [|contradiction].
    cbn. eauto. }
  assert (Hv : Forall (fun r => exists v, total_violation_count r = Some v) grp).
  { eapply Forall_impl; [|exact Hgrp]. intros r [_ H]. exact H. }
  unfold aggregate. cbn [critical high medium low info b_total_violation_count].
  rewrite !(severity_sum _ Hv), null_to_zero_sum.
  clear Hv. induction Hgrp as [|r grp' [[n [Hn Hr]] [v Hvr]] _ IH]; [reflexivity|].
  cbn [map]. rewrite !total_cons, <- IH, Hn, Hvr. cbn [Sql.eq_int Sql.holds null_to_zero].
  assert (n = 1 \/ n = 2 \/ n = 3 \/ n = 4 \/ n = 5) as [->|[->|[->|[->| ->]]]] by lia;
    cbn; lia.
Qed.

Lemma severity_columns_add_up_witness :
  null_to_zero (critical (aggregate (t critical_table)))
  + null_to_zero (high (aggregate (t critical_table)))
  + null_to_zero (medium (aggregate (t critical_table)))
  + null_to_zero (low (aggregate (t critical_table)))
  + null_to_zero (info (aggregate (t critical_table)))
  = 2.
Proof.
  refine (eq_trans (@severity_columns_add_up critical_table
                      (aggregate (t critical_table)) _ _) eq_refl).
  - intros r c [E|[]]. injection E as <- <-. split; [exists 5; split; [reflexivity | lia] | discriminate].
  - apply in_app_iff. right. left. reflexivity.
Defined.

(** X7.  Over the rows of [account_coverage], and over those of
    [lwaccount_summary], the [total_violation_count]s and the
    [total_assessed_resource_count]s add up to those of [total_summary]. *)
Theorem compliance_accounts_add_up (db_table : list compliance) :
  map (fun s => b_total_violation_count (snd s)) (total_summary db_table)
  = [Sql.total (map (fun a => b_total_violation_count (snd a)) (account_coverage db_table))] /\
  map (fun s => b_total_assessed_resource_count (snd s)) (total_summary db_table)
  = [Sql.total (map (fun a => b_total_assessed_resource_count (snd a))
                    (account_coverage db_table))] /\
  map (fun s => b_total_violation_count (snd s)) (total_summary db_table)
  = [Sql.total (map (fun a => b_total_violation_count (snd a)) (lwaccount_summary db_table))] /\
  map (fun s => b_total_assessed_resource_count (snd s)) (total_summary db_table)
  = [Sql.total (map (fun a => b_total_assessed_resource_count (snd a))
                    (lwaccount_summary db_table))].
Proof.
  unfold total_summary, account_coverage, lwaccount_summary.
  set (rows := t db_table). cbn [map snd].
  repeat split; f_equal;
    rewrite ?(total_perm (Permutation_map _ (order_by_perm account_order _)));
    rewrite map_map;
    cbn [snd aggregate b_total_violation_count b_total_assessed_resource_count];
    rewrite null_to_zero_sum, map_map; symmetry.
  - etransitivity;
      [|exact (@group_total t_row _ same_account t_account
                            (fun r => null_to_zero (total_violation_count r))
                            account_eq rows)].
    f_equal. apply map_ext. intro g. now rewrite null_to_zero_sum, map_map.
  - etransitivity;
      [|exact (@group_total t_row _ same_account t_account
                            (fun r => null_to_zero (total_assessed_resource_count r))
                            account_eq rows)].
    f_equal. apply map_ext. intro g. now rewrite null_to_zero_sum, map_map.
  - etransitivity;
      [|exact (@group_total t_row _ Sql.same t_lwAccount
                            (fun r => null_to_zero (total_violation_count r))
                            same_eq rows)].
    f_equal. apply map_ext. intro g. now rewrite null_to_zero_sum, map_map.
  - etransitivity;
      [|exact (@group_total t_row _ Sql.same t_lwAccount
                            (fun r => null_to_zero (total_assessed_resource_count r))
                            same_eq rows)].
    f_equal. apply map_ext. intro g. now rewrite null_to_zero_sum, map_map.
Qed.

Lemma sum_lengths_nonneg (A : Type) (f : A -> option Z) (l : list A) (v : Z) :
  (forall x z, In x l -> f x = Some z -> 0 <= z) ->
  Sql.sum (map f l) = Some v -> 0 <= v.
Proof.
  intros H E. pose proof (null_to_zero_sum (map f l)) as N.
  rewrite E, map_map in N. cbn [null_to_zero] in N. rewrite N. clear E N.
  induction l as [|x l IH]; [cbn; lia|].
  cbn [map]. rewrite total_cons.
  assert (0 <= Sql.total (map (fun x => null_to_zero (f x)) l)).
  { apply IH. intros y z Hy. apply H. now right. }
  assert (0 <= null_to_zero (f x)); [|lia].
  destruct (f x) as [z|] eqn:E; [|cbn; lia]. cbn. apply (H x z); [now left | exact E].
Qed.

(** X8.  When no control reports a negative ASSESSED_RESOURCE_COUNT, the
    [total_coverage] of every row of [account_coverage], [total_summary]
    and [lwaccount_summary] is NULL or lies between 0 and 100. *)
Theorem rollup_coverage_range
        (db_table : list compliance) (b : buckets)
        (Hassessed : forall r c a, In (r, c) (json_each db_table) ->
                                   ASSESSED_RESOURCE_COUNT c = Some a -> 0 <= a)
        (Hb : In b (map snd (account_coverage db_table) ++ map snd (total_summary db_table)
                      ++ map snd (lwaccount_summary db_table))) :
  total_coverage b = None \/ exists p, total_coverage b = Some p /\ 0 <= p <= 100.
Proof.
  destruct (rollup_inv db_table b Hb) as [keep ->].
  set (grp := filter keep (t db_table)).
  unfold aggregate. cbn [total_coverage].
  destruct (Sql.sum (map total_violation_count grp)) as [v|] eqn:Ev;
    [|left; reflexivity].
  destruct (Sql.sum (map total_assessed_resource_count grp)) as [a|] eqn:Ea;
    [|left; reflexivity].
  assert (Hv : 0 <= v).
  { apply (@sum_lengths_nonneg t_row total_violation_count grp v); [|exact Ev].
    intros x z Hx Hz. apply filter_In in Hx. destruct Hx as [Hx _].
    unfold t in Hx. apply in_map_iff in Hx. destruct Hx as [[r0 c] [<- _]].
    cbn [t_select total_violation_count] in Hz. unfold json_array_length in Hz.
    destruct (VIOLATIONS c); [|discriminate]. cbn in Hz. injection Hz as <-. lia. }
  assert (Ha : 0 <= a).
  { apply (@sum_lengths_nonneg t_row total_assessed_resource_count grp a); [|exact Ea].
    intros x z Hx Hz. apply filter_In in Hx. destruct Hx as [Hx _].
    unfold t in Hx. apply in_map_iff in Hx. destruct Hx as [[r0 c] [<- Hc]].
    cbn [t_select total_assessed_resource_count] in Hz. exact (Hassessed r0 c z Hc Hz). }
  unfold total_coverage_of. cbn [Sql.gt Sql.holds].
  destruct (Z.gtb_spec v a) as [G|G].
  - right. exists 100. split; [reflexivity | lia].
  - cbn [Sql.mul Sql.div]. destruct (Z.eqb_spec a 0) as [E|N]; [left; reflexivity|].
    right. eexists. split; [reflexivity|].
    assert (0 <= Z.quot (v * 100) a) by (apply Z.quot_pos; lia).
    assert (Z.quot (v * 100) a <= 100) by (apply Z.quot_le_upper_bound; lia).
    lia.
Qed.

Lemma rollup_coverage_range_witness :
  exists p, total_coverage (aggregate (t critical_table)) = Some p /\ 0 <= p <= 100.
Proof.
  destruct (@rollup_coverage_range critical_table (aggregate (t critical_table)))
    as [E|H].
  - intros r c a [E|[]] Ha. injection E as <- <-. cbn in Ha. injection Ha as <-. lia.
  - apply in_app_iff. right. left. reflexivity.
  - vm_compute in E. discriminate.
  - exact H.
Defined.

(** X9.  For an account with one control, of [v] violations among [a]
    assessed resources with [v <= a], the report's [percent] rounds the
    coverage [100 - v*100/a] down where the [total_coverage] of
    [account_coverage] rounds it up: the two agree when [a] divides
    [v*100] and differ by one otherwise. *)
Theorem rollup_rounds_up
        (r : compliance) (c : recommendation) (viol : list violation) (a : Z)
        (Hrecs : recommendations r = Some [c])
        (Hviol : VIOLATIONS c = Some viol)
        (Hassessed : ASSESSED_RESOURCE_COUNT c = Some a)
        (Hle : Z.of_nat (List.length viol) <= a)
        (Hpos : 0 < a) :
  exists p q,
    percent (report_select (r, c)) = Some p /\
    map (fun x => total_coverage (snd x)) (account_coverage [r]) = [Some q] /\
    p <= q <= p + 1 /\
    (q = p <-> Z.rem (Z.of_nat (List.length viol) * 100) a = 0).
Proof.
  set (v := Z.of_nat (List.length viol)) in *.
  assert (Hv : 0 <= v) by (subst v; lia).
  exists (Z.quot (100 * a - v * 100) a), (100 - Z.quot (v * 100) a).
  split; [|split].
  - unfold report_select. cbn [percent]. rewrite Hviol, Hassessed.
    cbn [json_array_length option_map]. fold v. unfold percent_of.
    cbn [Sql.gt Sql.holds]. destruct (Z.gtb_spec v a) as [G|_]; [lia|].
    apply ComplianceFacts.coverage_real_truncates; lia.
  - unfold account_coverage, t, json_each. cbn [flat_map]. rewrite Hrecs.
    cbn [map app Sql.distinct filter].
    assert (E : same_account (t_account (t_select (r, c))) (t_account (t_select (r, c)))
                = true) by now apply account_eq.
    rewrite E. cbn [Sql.order_by fold_right Sql.insert_row map snd].
    unfold aggregate. cbn [total_coverage map t_select total_violation_count
                           total_assessed_resource_count].
    rewrite Hviol, Hassessed. cbn [json_array_length option_map]. fold v.
    unfold Sql.sum. cbn [Sql.non_null Sql.total fold_right]. rewrite !Z.add_0_r.
    unfold total_coverage_of. cbn [Sql.gt Sql.holds].
    destruct (Z.gtb_spec v a) as [G|_]; [lia|].
    cbn [Sql.mul Sql.div Sql.sub]. destruct (Z.eqb_spec a 0) as [E0|_]; [lia|]. reflexivity.
  - rewrite !Z.quot_div_nonneg by lia. rewrite Z.rem_mod_nonneg by lia.
    replace (100 * a - v * 100) with (- (v * 100) + 100 * a) by lia.
    rewrite Z.div_add by lia.
    pose proof (Z.div_mod (v * 100) a ltac:(lia)) as D.
    pose proof (Z.mod_pos_bound (v * 100) a Hpos) as B.
    destruct (Z.eq_dec ((v * 100) mod a) 0) as [Z0|NZ].
    + rewrite (Z.div_opp_l_z (v * 100) a ltac:(lia) Z0). split; [lia|]. split; [intro; exact Z0 | lia].
    + rewrite (Z.div_opp_l_nz (v * 100) a ltac:(lia) NZ). split; [lia|]. split; [lia | contradiction].
Qed.

Lemma rollup_rounds_up_witness :
  exists p q,
    percent (report_select (report_of "T" "aws:1" [control 4 (bucket 1) 3 "NonCompliant"],
                            control 4 (bucket 1) 3 "NonCompliant")) = Some p /\
    map (fun x => total_coverage (snd x))
        (account_coverage [report_of "T" "aws:1" [control 4 (bucket 1) 3 "NonCompliant"]])
    = [Some q] /\ p = 66 /\ q = 67.
Proof.
  destruct (@rollup_rounds_up
              (report_of "T" "aws:1" [control 4 (bucket 1) 3 "NonCompliant"])
              (control 4 (bucket 1) 3 "NonCompliant") (bucket 1) 3
              eq_refl eq_refl eq_refl ltac:(cbn; lia) ltac:(lia))
    as [p [q [Hp [Hq _]]]].
  exists p, q. split; [exact Hp|]. split; [exact Hq|].
  vm_compute in Hp, Hq. injection Hp as <-. injection Hq as <-. split; reflexivity.
Defined.

End ComplianceRollupFacts.

(* ================================================================== *)
(** ** The scoring curve and the rows of the vulnerability report *)

Module VulnerabilityScoreFacts.
Import VulnerabilityQueries SqlFacts.

Ltac arms :=
  unfold step_function; cbn [Sql.gt Sql.eq_int Sql.holds];
  repeat match goal with
         | |- context [Z.gtb ?x ?y] => destruct (Z.gtb_spec x y)
         | |- context [Z.eqb ?x ?y] => destruct (Z.eqb_spec x y)
         | H : context [Z.gtb ?x ?y] |- _ => destruct (Z.gtb_spec x y)
         | H : context [Z.eqb ?x ?y] |- _ => destruct (Z.eqb_spec x y)
         end.

(** The curve has a gap: with no critical, high, medium or low finding
    and one to five info findings no arm matches. *)
Lemma step_function_gap (c h m l i : Z) :
  0 <= c -> 0 <= h -> 0 <= m -> 0 <= l -> 0 <= i ->
  (step_function (Some c) (Some h) (Some m) (Some l) (Some i) = None
   <-> c = 0 /\ h = 0 /\ m = 0 /\ l = 0 /\ 1 <= i <= 5).
Proof.
  intros. arms; split; intro X; try discriminate; try reflexivity; lia.
Qed.

Lemma step_function_range (c h m l i : option Z) (p : Z) :
  step_function c h m l i = Some p -> 0 <= p <= 100.
Proof.
  unfold step_function.
  repeat match goal with
         | |- context [if ?b then _ else _] => destruct b
         end; intro E; try discriminate; injection E as <-; lia.
Qed.

Lemma bucket_count_nonneg (name : string) (i : option string) (rows : list finding) :
  0 <= bucket_count name i rows.
Proof. unfold bucket_count. lia. Qed.

(** X10.  A row of the vulnerability ['report'] has a NULL
    [total_coverage] exactly when its instance has no Critical, High,
    Medium or Low finding and between one and five Info findings (counted
    once per vulnerability); any other row scores between 0 and 100. *)
Theorem report_coverage_gap
        (machines : list machine) (db_table : list finding) (r : report_row)
        (Hr : In r (report machines db_table)) :
  (total_coverage r = None <->
   bucket_count "Critical" (instanceId r) (scored machines db_table) = 0 /\
   bucket_count "High" (instanceId r) (scored machines db_table) = 0 /\
   bucket_count "Medium" (instanceId r) (scored machines db_table) = 0 /\
   bucket_count "Low" (instanceId r) (scored machines db_table) = 0 /\
   1 <= bucket_count "Info" (instanceId r) (scored machines db_table) <= 5) /\
  (forall p, total_coverage r = Some p -> 0 <= p <= 100).
Proof.
  destruct (@VulnerabilityFacts.report_inv machines db_table r Hr) as [r2 [H2 ->]].
  unfold t2 in *. fold (scored machines db_table) in *.
  cbn [total_coverage report_select t3_total_coverage t3_select instanceId t3_instanceId].
  rewrite (@VulnerabilityFacts.window_bucket "Critical" critical _ r2 (fun _ _ => eq_refl) H2).
  rewrite (@VulnerabilityFacts.window_bucket "High" high _ r2 (fun _ _ => eq_refl) H2).
  rewrite (@VulnerabilityFacts.window_bucket "Medium" medium _ r2 (fun _ _ => eq_refl) H2).
  rewrite (@VulnerabilityFacts.window_bucket "Low" low _ r2 (fun _ _ => eq_refl) H2).
  rewrite (@VulnerabilityFacts.window_bucket "Info" info _ r2 (fun _ _ => eq_refl) H2).
  split.
  - apply step_function_gap; apply bucket_count_nonneg.
  - intros p. apply step_function_range.
Qed.

Lemma report_coverage_gap_witness :
  exists r, In r (report [machine_of "T" "aws:1" "i-1"]
                         [finding_of "T" "aws:1" "i-1" "CVE-1" "Info"]) /\
            total_coverage r = None.
Proof.
  eexists. split; [left; reflexivity|].
  apply (proj1 (@report_coverage_gap
                  [machine_of "T" "aws:1" "i-1"]
                  [finding_of "T" "aws:1" "i-1" "CVE-1" "Info"] _ (or_introl eq_refl))).
  vm_compute. repeat split; discriminate.
Defined.

(** X11.  The curve never rewards a finding of the four upper
    severities: raising the critical, high, medium or low count of an
    instance that has a score leaves it a score, and not a higher one.  It
    does reward info findings: six to ten of them alone score 90, more
    than ten score 95. *)
Theorem step_function_monotone (c h m l i s : Z)
        (Hs : step_function (Some c) (Some h) (Some m) (Some l) (Some i) = Some s) :
  (forall c', c <= c' ->
     exists s', step_function (Some c') (Some h) (Some m) (Some l) (Some i) = Some s' /\
                s' <= s) /\
  (forall h', h <= h' ->
     exists s', step_function (Some c) (Some h') (Some m) (Some l) (Some i) = Some s' /\
                s' <= s) /\
  (forall m', m <= m' ->
     exists s', step_function (Some c) (Some h) (Some m') (Some l) (Some i) = Some s' /\
                s' <= s) /\
  (forall l', l <= l' ->
     exists s', step_function (Some c) (Some h) (Some m) (Some l') (Some i) = Some s' /\
                s' <= s) /\
  (forall i1 i2, 5 < i1 <= 10 -> 10 < i2 ->
     step_function (Some 0) (Some 0) (Some 0) (Some 0) (Some i1) = Some 90 /\
     step_function (Some 0) (Some 0) (Some 0) (Some 0) (Some i2) = Some 95).
Proof.
  repeat split.
  - intros c' Hc. revert Hs. arms; intro E; try discriminate; try lia;
      injection E as <-; eexists; (split; [reflexivity | lia]).
  - intros h' Hh. revert Hs. arms; intro E; try discriminate; try lia;
      injection E as <-; eexists; (split; [reflexivity | lia]).
  - intros m' Hm. revert Hs. arms; intro E; try discriminate; try lia;
      injection E as <-; eexists; (split; [reflexivity | lia]).
  - intros l' Hl. revert Hs. arms; intro E; try discriminate; try lia;
      injection E as <-; eexists; (split; [reflexivity | lia]).
  - arms; try reflexivity; lia.
  - arms; try reflexivity; lia.
Qed.

Lemma step_function_monotone_witness :
  exists s', step_function (Some 6) (Some 0) (Some 0) (Some 0) (Some 0) = Some s' /\ s' <= 9.
Proof.
  exact (proj1 (@step_function_monotone 1 0 0 0 0 9 eq_refl) 6 ltac:(lia)).
Defined.




End VulnerabilityScoreFacts.

(* ================================================================== *)
(** ** Composite keys, from discovery to the compliance fetch *)

Module AccountKeyFacts.
Import Discovery ComplianceFetch AccountKeys PyFacts.

Local Open Scope string_scope.

Lemma split_key2 (tag a : string) :
  has_colon tag = false -> has_colon a = false ->
  Py.split ":" (tag ++ ":" ++ a) = [tag; a].
Proof.
  intros Ht Ha. rewrite (split_scope tag a Ht). now rewrite (split_no_colon a Ha).
Qed.

Lemma split_key3 (tag o p : string) :
  has_colon tag = false -> has_colon o = false -> has_colon p = false ->
  Py.split ":" (tag ++ ":" ++ o ++ ":" ++ p) = [tag; o; p].
Proof.
  intros Ht Ho Hp. rewrite (split_scope tag (o ++ ":" ++ p) Ht).
  now rewrite (split_key2 o p Ho Hp).
Qed.

Lemma split_key (x : target) :
  colon_free x ->
  Py.split ":" (key_of x)
  = match x with
    | Aws a => ["aws"; a]
    | Gcp o p => ["gcp"; o; p]
    | Az t s => ["az"; t; s]
    end.
Proof.
  destruct x as [a|o p|t s]; cbn [colon_free key_of].
  - intro H. exact (@split_key2 "aws" a eq_refl H).
  - intros [Ho Hp]. exact (@split_key3 "gcp" o p eq_refl Ho Hp).
  - intros [Ht Hs]. exact (@split_key3 "az" t s eq_refl Ht Hs).
Qed.

(** The key of a target leads to the getter of its provider, called with
    the raw identifiers of the target. *)
Lemma get_compliance_report_at (c : client) (lwAccount : string) (x : target)
      (aws gcp az : string) (ignore_errors : bool) (organization : option string) :
  colon_free x ->
  get_compliance_report c lwAccount (key_of x) aws gcp az ignore_errors organization
  = try_fetch (response c x aws gcp az) (fetch_of x aws gcp az)
              (key_of x) lwAccount (dropped x) ignore_errors.
Proof.
  intro H. unfold get_compliance_report. rewrite (split_key x H).
  destruct x as [a|o p|t s]; cbn [hd nth_error response fetch_of dropped];
    cbn [String.eqb Ascii.eqb Bool.eqb]; try reflexivity.
  cbn [is_none]. rewrite andb_false_r. reflexivity.
Qed.

(** X13.  For a key built from colon-free identifiers, an ApiError of
    the provider's getter is logged and, with [ignore_errors], turned into
    the empty list; without it the error is raised again.  A response
    whose data list is empty raises an IndexError in both modes: it is not
    an ApiError, and [ignore_errors] does not cover it. *)
Theorem compliance_report_failures
        (c : client) (lwAccount : string) (x : target) (aws gcp az : string)
        (ignore_errors : bool) (organization : option string)
        (Hplain : colon_free x) :
  (response c x aws gcp az = ApiFail ->
   get_compliance_report c lwAccount (key_of x) aws gcp az ignore_errors organization
   = (if ignore_errors then Py.Return [] else Py.Raise Py.ApiError,
      [fetch_of x aws gcp az; Log_error])) /\
  (response c x aws gcp az = ApiOk [] ->
   get_compliance_report c lwAccount (key_of x) aws gcp az ignore_errors organization
   = (Py.Raise Py.IndexError, [fetch_of x aws gcp az])).
Proof.
  rewrite (get_compliance_report_at c lwAccount x aws gcp az ignore_errors organization Hplain).
  unfold try_fetch. split; intros ->; reflexivity.
Qed.

Lemma compliance_report_failures_witness :
  get_compliance_report gcp_reporting_client "T" (key_of (Aws "123456789012"))
                        "AWS_CIS_S3" "GCP_CIS12" "AZURE_CIS_131" true None
  = (Py.Return [], [Fetch_aws "123456789012" "AWS_CIS_S3"; Log_error]).
Proof.
  exact (proj1 (@compliance_report_failures
                  gcp_reporting_client "T" (Aws "123456789012")
                  "AWS_CIS_S3" "GCP_CIS12" "AZURE_CIS_131" true None eq_refl) eq_refl).
Defined.

Lemma keys_set_item (d : Py.dict) (k : string) (v : Py.value) :
  Py.keys (Py.set_item d k v)
  = if Py.contains (Py.keys d) k then Py.keys d else (Py.keys d ++ [k])%list.
Proof.
  unfold Py.keys, Py.contains. induction d as [|[k' v'] d IH]; cbn; [reflexivity|].
  destruct (String.eqb_spec k k') as [->|N]; cbn; [reflexivity|].
  rewrite IH. now destruct (existsb (String.eqb k) (map fst d)).
Qed.

Lemma set_item_keeps (d : Py.dict) (k : string) (v : Py.value) :
  NoDup (Py.keys d) ->
  NoDup (Py.keys (Py.set_item d k v)) /\
  forall k', In k' (Py.keys d) -> In k' (Py.keys (Py.set_item d k v)).
Proof.
  intro Hn. rewrite keys_set_item.
  destruct (Py.contains (Py.keys d) k) eqn:E; [now split|].
  apply contains_false in E. split.
  - now apply DiscoveryFacts.NoDup_snoc.
  - intros k' Hk. apply in_app_iff. now left.
Qed.

Lemma pop_present (d : Py.dict) (k : string) :
  NoDup (Py.keys d) -> In k (Py.keys d) ->
  exists d', Py.pop d k = Some d' /\
             NoDup (Py.keys d') /\
             Py.get d' k = None /\
             (forall k', k' <> k -> Py.get d' k' = Py.get d k') /\
             (forall k', k' <> k -> In k' (Py.keys d) -> In k' (Py.keys d')).
Proof.
  unfold Py.keys. induction d as [|[k0 v0] d IH]; cbn; [intros _ []|].
  intros Hn Hin. inversion Hn as [|? ? Hk0 Hn']; subst.
  destruct (String.eqb_spec k k0) as [->|N].
  - exists d. split; [reflexivity|]. split; [assumption|]. split.
    + clear - Hk0. induction d as [|[k1 v1] d IH]; cbn in *; [reflexivity|].
      destruct (String.eqb_spec k0 k1) as [->|N]; [tauto | apply IH; tauto].
    + split.
      * intros k' Hk'. destruct (String.eqb_spec k' k0); [contradiction | reflexivity].
      * intros k' Hk' [E|H]; [congruence | assumption].
  - destruct Hin as [E|Hin]; [congruence|].
    destruct (IH Hn' Hin) as [d' [Ep [Hd' [Hg [Ho Hi]]]]].
    exists ((k0, v0) :: d'). rewrite Ep. cbn [option_map map fst Py.get].
    split; [reflexivity|]. split.
    + constructor; [|assumption]. intro H.
      assert (Hsub : forall y, In y (map fst d') -> In y (map fst d)).
      { clear - Ep. revert d' Ep. induction d as [|[k1 v1] d IH]; cbn; [discriminate|].
        intros d' Ep y. destruct (String.eqb_spec k k1) as [->|N].
        - injection Ep as <-. tauto.
        - destruct (Py.pop d k) as [d1|] eqn:E1; [|discriminate].
          cbn in Ep. injection Ep as <-. cbn. intros [->|Hy]; [now left|].
          right. exact (IH d1 eq_refl y Hy). }
      apply Hk0, Hsub, H.
    + split.
      * destruct (String.eqb_spec k k0); [contradiction | exact Hg].
      * split.
        -- intros k' Hk'. destruct (String.eqb_spec k' k0); [reflexivity | now apply Ho].
        -- intros k' Hk' [E|H]; [now left | right; now apply Hi].
Qed.

Lemma pop_all_present (drop : list string) : forall (d : Py.dict),
  NoDup (Py.keys d) -> NoDup drop -> Forall (fun k => In k (Py.keys d)) drop ->
  exists d', pop_all d drop = Py.Return d' /\
             (forall k, In k drop -> Py.get d' k = None) /\
             (forall k, ~ In k drop -> Py.get d' k = Py.get d k).
Proof.
  induction drop as [|k drop IH]; intros d Hn Hd Hin.
  - exists d. split; [reflexivity|]. split; [intros k [] | reflexivity].
  - inversion Hd as [|? ? Hk Hd']; inversion Hin as [|? ? Hkin Hin']; subst.
    destruct (@pop_present d k Hn Hkin) as [d1 [Ep [Hn1 [Hg [Ho Hi]]]]].
    cbn [pop_all]. rewrite Ep.
    destruct (IH d1 Hn1 Hd') as [d' [E [Hnone Hsame]]].
    { apply Forall_forall. intros k' Hk'. apply Hi.
      - intros ->. contradiction.
      - rewrite Forall_forall in Hin'. now apply Hin'. }
    exists d'. split; [exact E|]. split.
    + intros k' [<-|Hk'].
      * rewrite Hsame; assumption.
      * now apply Hnone.
    + intros k' Hk'. rewrite Hsame by (intro; apply Hk'; now right).
      apply Ho. intros ->. apply Hk'. now left.
Qed.

(** X14.  For a key built from colon-free identifiers and a response
    with data, the call returns one row: the last element of the data, with
    [accountId] set to the key and [lwAccount] to the tenant, without the
    provider's own id fields, and otherwise unchanged; the elements before
    the last are dropped. *)
Theorem compliance_report_success
        (c : client) (lwAccount : string) (x : target) (aws gcp az : string)
        (ignore_errors : bool) (organization : option string)
        (data : list Py.dict) (r : Py.dict)
        (Hplain : colon_free x)
        (Hdata : response c x aws gcp az = ApiOk (data ++ [r])%list)
        (Hkeys : NoDup (Py.keys r))
        (Hids : Forall (fun k => In k (Py.keys r)) (dropped x)) :
  exists r',
    get_compliance_report c lwAccount (key_of x) aws gcp az ignore_errors organization
    = (Py.Return [r'], [fetch_of x aws gcp az]) /\
    Py.get r' "accountId" = Some (Py.Str (key_of x)) /\
    Py.get r' "lwAccount" = Some (Py.Str lwAccount) /\
    (forall k, In k (dropped x) -> Py.get r' k = None) /\
    (forall k, k <> "accountId" -> k <> "lwAccount" -> ~ In k (dropped x) ->
               Py.get r' k = Py.get r k).
Proof.
  rewrite (get_compliance_report_at c lwAccount x aws gcp az ignore_errors organization Hplain).
  unfold try_fetch. rewrite Hdata. unfold try_body. rewrite rev_app_distr. cbn [rev app].
  set (r1 := Py.set_item (Py.set_item r "accountId" (Py.Str (key_of x)))
                         "lwAccount" (Py.Str lwAccount)).
  destruct (@set_item_keeps r "accountId" (Py.Str (key_of x)) Hkeys) as [Hn0 Hi0].
  destruct (@set_item_keeps _ "lwAccount" (Py.Str lwAccount) Hn0) as [Hn1 Hi1].
  fold r1 in Hn1, Hi1.
  assert (Hd : NoDup (dropped x)).
  { destruct x; cbn [dropped]; repeat constructor; cbn [In]; intro H;
      repeat (destruct H as [H|H]; [discriminate|]); exact H. }
  assert (Hnot : ~ In "accountId" (dropped x) /\ ~ In "lwAccount" (dropped x)).
  { destruct x; cbn [dropped In]; split; intro H;
      repeat (destruct H as [H|H]; [discriminate|]); exact H. }
  destruct (@pop_all_present (dropped x) r1 Hn1 Hd) as [r' [E [Hnone Hsame]]].
  { eapply Forall_impl; [|exact Hids]. intros k Hk. apply Hi1, Hi0, Hk. }
  exists r'. rewrite E. cbn [Py.bind]. split; [reflexivity|].
  split; [|split; [|split]].
  - rewrite Hsame by apply Hnot. unfold r1.
    rewrite get_set_item_other by discriminate. apply get_set_item.
  - rewrite Hsame by apply Hnot. apply get_set_item.
  - exact Hnone.
  - intros k Ha Hl Hk. rewrite (Hsame k Hk). unfold r1.
    rewrite !get_set_item_other; [reflexivity | congruence | congruence].
Qed.

Lemma compliance_report_success_witness :
  exists r',
    get_compliance_report gcp_reporting_client "T" (key_of (Gcp "123" "my-project"))
                          "AWS_CIS_S3" "GCP_CIS12" "AZURE_CIS_131" true None
    = (Py.Return [r'], [Fetch_gcp "123" "my-project" "GCP_CIS12"]) /\
    Py.get r' "projectId" = None.
Proof.
  destruct (@compliance_report_success
              gcp_reporting_client "T" (Gcp "123" "my-project")
              "AWS_CIS_S3" "GCP_CIS12" "AZURE_CIS_131" true None []
              [("reportType", Py.Str "GCP_CIS12"); ("organizationId", Py.Str "");
               ("projectId", Py.Str "my-project"); ("recommendations", Py.List_ [])])
    as [r' [E [_ [_ [Hnone _]]]]].
  - split; reflexivity.
  - reflexivity.
  - repeat constructor; cbn; intuition discriminate.
  - repeat constructor; cbn; tauto.
  - exists r'. split; [exact E|]. apply Hnone. right. now left.
Defined.

(** X15.  The [organization] argument of [get_compliance_report] has no
    effect: the organization segment of a split key is a str, never
    [None], so it is always the one sent, and the override is never
    consulted. *)
Theorem compliance_organization_unused
        (c : client) (lwAccount cloud_account aws gcp az : string)
        (ignore_errors : bool) (organization organization' : option string) :
  get_compliance_report c lwAccount cloud_account aws gcp az ignore_errors organization
  = get_compliance_report c lwAccount cloud_account aws gcp az ignore_errors organization'.
Proof.
  unfold get_compliance_report.
  destruct (String.eqb (hd "" (Py.split ":" cloud_account)) "aws"); [reflexivity|].
  destruct (String.eqb (hd "" (Py.split ":" cloud_account)) "gcp"); [|reflexivity].
  destruct (Py.split ":" cloud_account) as [|a [|b [|d [|e l]]]]; try reflexivity.
  cbn [is_none]. now rewrite !andb_false_r.
Qed.

End AccountKeyFacts.

(* ================================================================== *)
(** ** What [get_cloud_accounts] returns, and when *)

Module DiscoveryKeyFacts.
Import Discovery AccountKeys PyFacts DiscoveryFacts.

Local Open Scope string_scope.

Lemma integration_row_outcome lw organization st row :
  (has_account_segment row = true ->
   exists st', integration_row lw organization st row = Py.Return st') /\
  (has_account_segment row = false ->
   integration_row lw organization st row = Py.Raise Py.IndexError).
Proof.
  destruct row as [c ps id ty|c arn|c ss t|ty c]; cbn [has_account_segment integration_row];
    try (split; [eexists; reflexivity | discriminate]).
  destruct (nth_error (Py.split ":" arn) 4) as [a|] eqn:E.
  - split.
    + intros _. destruct (negb (Py.contains (aws_accounts st) a)); eexists; reflexivity.
    + intro H. apply Nat.leb_gt in H.
      assert (nth_error (Py.split ":" arn) 4 = None) by (apply nth_error_None; lia).
      congruence.
  - split; [|reflexivity]. intro H. apply Nat.leb_le in H.
    apply nth_error_None in E. lia.
Qed.

(** X16.  [get_cloud_accounts] returns exactly when the role ARN of
    every AwsCfg integration has at least five colon-separated segments;
    otherwise the subscript [split(":")[4]] raises an IndexError, whatever
    the other integrations and the telemetry hold. *)
Theorem get_cloud_accounts_outcome
        (cloud_accounts : list integration) (machine_accounts : list machine_account)
        (lwAccount : string) (organization : option string) :
  (forallb has_account_segment cloud_accounts = true ->
   exists result,
     get_cloud_accounts cloud_accounts machine_accounts lwAccount organization
     = Py.Return result) /\
  (forallb has_account_segment cloud_accounts = false ->
   get_cloud_accounts cloud_accounts machine_accounts lwAccount organization
   = Py.Raise Py.IndexError).
Proof.
  unfold get_cloud_accounts. generalize start as st.
  induction cloud_accounts as [|row rows IH]; intro st; cbn [forallb integration_pass].
  - split; [intros _; eexists; reflexivity | discriminate].
  - destruct (integration_row_outcome lwAccount organization st row) as [Hok Hbad].
    destruct (has_account_segment row); cbn [andb].
    + destruct (Hok eq_refl) as [st' ->]. cbn [Py.bind]. apply IH.
    + rewrite (Hbad eq_refl). split; [discriminate | reflexivity].
Qed.

Lemma upper_char_idem (c : ascii) : Py.upper_char (Py.upper_char c) = Py.upper_char c.
Proof. destruct c as [[] [] [] [] [] [] [] []]; reflexivity. Qed.

Lemma upper_idem (s : string) : Py.upper (Py.upper s) = Py.upper s.
Proof.
  unfold Py.upper. induction s as [|c s IH]; cbn; [reflexivity|].
  now rewrite upper_char_idem, IH.
Qed.

Lemma upper_char_colon (c : ascii) : Ascii.eqb (Py.upper_char c) ":" = Ascii.eqb c ":".
Proof. destruct c as [[] [] [] [] [] [] [] []]; reflexivity. Qed.

Lemma has_colon_upper (s : string) : has_colon (Py.upper s) = has_colon s.
Proof.
  unfold Py.upper. induction s as [|c s IH]; cbn; [reflexivity|].
  now rewrite upper_char_colon, IH.
Qed.

Lemma split_segments (s : string) : Forall (fun x => has_colon x = false) (Py.split ":" s).
Proof.
  induction s as [|c s IH]; cbn [Py.split].
  - repeat constructor.
  - destruct (Ascii.eqb c ":") eqn:E.
    + constructor; [reflexivity | exact IH].
    + destruct (Py.split ":" s) as [|seg segs].
      * repeat constructor. cbn. now rewrite E.
      * inversion IH; subst. constructor; [|assumption]. cbn. now rewrite E.
Qed.

(** *** Case of Azure subscription ids *)

Section Azure.

Variable lw : string.

(** After the integration pass the Azure dedup list holds upper-case
    text only. *)
Lemma azure_subscriptions_upper c t ss : forall st,
  Forall (fun s => Py.upper s = s) (azure_accounts st) ->
  Forall (fun s => Py.upper s = s)
         (azure_accounts (fold_left (azure_subscription lw c t) ss st)).
Proof.
  induction ss as [|s ss IH]; intros st H; cbn [fold_left]; [exact H|].
  apply IH. unfold azure_subscription.
  destruct (negb (Py.contains (azure_accounts st) (Py.upper s))); cbn [azure_accounts];
    [|exact H].
  apply Forall_app. split; [exact H|]. constructor; [apply upper_idem | constructor].
Qed.

Lemma gcp_projects_azure c org ps : forall st,
  azure_accounts (fold_left (gcp_project lw c org) ps st) = azure_accounts st.
Proof.
  induction ps as [|p ps IH]; intro st; cbn [fold_left]; [reflexivity|].
  rewrite IH. unfold gcp_project.
  now destruct (negb (Py.contains (gcp_accounts st) p)).
Qed.

Lemma integration_pass_upper organization rows : forall st st',
  Forall (fun s => Py.upper s = s) (azure_accounts st) ->
  integration_pass lw organization st rows = Py.Return st' ->
  Forall (fun s => Py.upper s = s) (azure_accounts st').
Proof.
  induction rows as [|row rows IH]; intros st st' H E; cbn [integration_pass] in E.
  - now injection E as <-.
  - destruct (integration_row lw organization st row) as [st1|e] eqn:E1; [|discriminate].
    cbn [Py.bind] in E. apply (IH st1 st'); [|exact E].
    destruct row as [c ps id ty|c arn|c ss t|ty c]; cbn [integration_row] in E1.
    + injection E1 as <-. now rewrite gcp_projects_azure.
    + destruct (nth_error (Py.split ":" arn) 4) as [a|]; [|discriminate].
      destruct (negb (Py.contains (aws_accounts st) a)); injection E1 as <-; exact H.
    + injection E1 as <-. now apply azure_subscriptions_upper.
    + now injection E1 as <-.
Qed.

Lemma telemetry_row_listed st m :
  listed lw st ->
  listed lw (telemetry_row lw st m) /\
  (forall e, In e (accounts st) -> In e (accounts (telemetry_row lw st m))).
Proof.
  intro H. unfold telemetry_row.
  destruct (aws_candidate st m) as [a|].
  { destruct (negb (Py.contains (aws_accounts st) (last_segment ("aws:" ++ a))));
      [|now split].
    split.
    - intros s Hs. cbn [azure_accounts accounts] in *. destruct (H s Hs) as [U|I];
        [now left | right; apply in_app_iff; now left].
    - intros e He. cbn [accounts]. apply in_app_iff. now left. }
  destruct (gcp_candidate st m) as [p|].
  { destruct (negb (Py.contains (gcp_accounts st) (last_segment ("gcp::" ++ p))));
      [|now split].
    split.
    - intros s Hs. cbn [azure_accounts accounts] in *. destruct (H s Hs) as [U|I];
        [now left | right; apply in_app_iff; now left].
    - intros e He. cbn [accounts]. apply in_app_iff. now left. }
  destruct (azure_candidate st m) as [p|]; [|now split].
  destruct (negb (Py.contains (azure_accounts st) (last_segment ("az::" ++ p))));
    [|now split].
  split.
  - intros s Hs. cbn [azure_accounts accounts] in *. apply in_app_iff in Hs.
    destruct Hs as [Hs|[<-|[]]].
    + destruct (H s Hs) as [U|I]; [now left | right; apply in_app_iff; now left].
    + right. apply in_app_iff. right. now left.
  - intros e He. cbn [accounts]. apply in_app_iff. now left.
Qed.

Lemma last_segment_azure (p : string) :
  has_colon p = false -> last_segment ("az::" ++ p) = p.
Proof.
  intro H. unfold last_segment.
  change ("az::" ++ p) with ("az" ++ ":" ++ "" ++ ":" ++ p).
  now rewrite (@AccountKeyFacts.split_key3 "az" "" p eq_refl eq_refl H).
Qed.

Lemma telemetry_row_azure st m p :
  listed lw st ->
  VMPROVIDER m = Some "Azure" -> PROJECTID m = Some p ->
  has_colon p = false -> Py.upper p <> p ->
  In (lql_discovered lw ("az::" ++ p) "AzureLql") (accounts (telemetry_row lw st m)).
Proof.
  intros H Hv Hp Hc Hu. unfold telemetry_row.
  assert (Ea : aws_candidate st m = None).
  { unfold aws_candidate. rewrite Hv. now destruct (ACCOUNTID m). }
  assert (Eg : gcp_candidate st m = None).
  { unfold gcp_candidate. now rewrite Hp, Hv. }
  rewrite Ea, Eg. unfold azure_candidate. rewrite Hp, Hv. cbn [equals String.eqb Ascii.eqb Bool.eqb andb].
  destruct (Py.contains (azure_accounts st) p) eqn:E; cbn [negb].
  - apply contains_In in E. destruct (H p E) as [U|I]; [contradiction | exact I].
  - rewrite (last_segment_azure p Hc), E. cbn [negb accounts].
    apply in_app_iff. right. now left.
Qed.

Lemma telemetry_pass_azure ms m p : forall st,
  listed lw st -> In m ms ->
  VMPROVIDER m = Some "Azure" -> PROJECTID m = Some p ->
  has_colon p = false -> Py.upper p <> p ->
  In (lql_discovered lw ("az::" ++ p) "AzureLql") (accounts (fold_left (telemetry_row lw) ms st)).
Proof.
  induction ms as [|m' ms IH]; intros st H Hin Hv Hp Hc Hu; [contradiction|].
  cbn [fold_left]. destruct (@telemetry_row_listed st m' H) as [H' Hkeep].
  destruct Hin as [->|Hin].
  - pose proof (@telemetry_row_azure st m p H Hv Hp Hc Hu) as X.
    clear - X H'. revert X H'. generalize (telemetry_row lw st m) as st1.
    induction ms as [|m2 ms IH]; intros st1 X H1; [exact X|].
    cbn [fold_left]. destruct (@telemetry_row_listed st1 m2 H1) as [H2 Hk2].
    apply IH; [now apply Hk2 | exact H2].
  - now apply IH.
Qed.

End Azure.

(** X17.  An Azure telemetry row whose subscription id holds a
    lower-case letter (and no colon) always yields an LQL-discovered entry
    [az::<id>]: the integration pass records subscription ids in upper
    case only, so the id as the telemetry spells it is never found among
    them, also when the same subscription is integrated. *)
Theorem azure_telemetry_case
        (cloud_accounts : list integration) (machine_accounts : list machine_account)
        (lwAccount : string) (organization : option string) (result : list account)
        (m : machine_account) (p : string)
        (Hret : get_cloud_accounts cloud_accounts machine_accounts lwAccount organization
                = Py.Return result)
        (Hm : In m machine_accounts)
        (Hprovider : VMPROVIDER m = Some "Azure")
        (Hid : PROJECTID m = Some p)
        (Hcolon : has_colon p = false)
        (Hcase : Py.upper p <> p) :
  In (lql_discovered lwAccount ("az::" ++ p) "AzureLql") result.
Proof.
  unfold get_cloud_accounts in Hret.
  destruct (integration_pass lwAccount organization start cloud_accounts) as [st|e] eqn:E;
    [|discriminate].
  cbn [Py.bind] in Hret. injection Hret as <-. unfold telemetry_pass.
  apply (@telemetry_pass_azure lwAccount machine_accounts m p st); try assumption.
  intros s Hs. left.
  pose proof (@integration_pass_upper lwAccount organization cloud_accounts start st
                (Forall_nil _) E) as U.
  rewrite Forall_forall in U. now apply U.
Qed.

Lemma azure_telemetry_case_witness :
  get_cloud_accounts [AzureCfg some_common ["abc"] "t"] [azure_machine "abc"] "T" None
  = Py.Return [integrated "T" "az:t:ABC" "AzureCfg" some_common;
               lql_discovered "T" "az::abc" "AzureLql"] /\
  In (lql_discovered "T" "az::abc" "AzureLql")
     [integrated "T" "az:t:ABC" "AzureCfg" some_common;
      lql_discovered "T" "az::abc" "AzureLql"].
Proof.
  split; [reflexivity|].
  apply (@azure_telemetry_case [AzureCfg some_common ["abc"] "t"] [azure_machine "abc"]
                               "T" None _ (azure_machine "abc") "abc" eq_refl).
  - left. reflexivity.
  - reflexivity.
  - reflexivity.
  - reflexivity.
  - vm_compute. discriminate.
Defined.

(** *** The keys of the result *)

Lemma Forall_snoc (A : Type) (P : A -> Prop) (l : list A) (x : A) :
  Forall P l -> P x -> Forall P (l ++ [x])%list.
Proof. intros Hl Hx. apply Forall_app. split; [assumption | now constructor]. Qed.

Lemma gcp_projects_plain lw c org ps : forall st,
  plain_locals st -> Forall (fun p => has_colon p = false) ps ->
  plain_locals (fold_left (gcp_project lw c org) ps st).
Proof.
  induction ps as [|p ps IH]; intros st H Hps; cbn [fold_left]; [exact H|].
  inversion Hps as [|? ? Hp Hps']; subst. apply IH; [|exact Hps'].
  unfold gcp_project. destruct (negb (Py.contains (gcp_accounts st) p)); [|exact H].
  destruct H as [Ha [Hg Hz]]. repeat split; cbn; try assumption. now apply Forall_snoc.
Qed.

Lemma azure_subscriptions_plain lw c t ss : forall st,
  plain_locals st -> Forall (fun s => has_colon s = false) ss ->
  plain_locals (fold_left (azure_subscription lw c t) ss st).
Proof.
  induction ss as [|s ss IH]; intros st H Hss; cbn [fold_left]; [exact H|].
  inversion Hss as [|? ? Hs Hss']; subst. apply IH; [|exact Hss'].
  unfold azure_subscription.
  destruct (negb (Py.contains (azure_accounts st) (Py.upper s))); [|exact H].
  destruct H as [Ha [Hg Hz]]. repeat split; cbn; try assumption.
  apply Forall_snoc; [assumption|]. now rewrite has_colon_upper.
Qed.

Lemma integration_pass_plain lw organization rows : forall st st',
  plain_locals st -> Forall (plain_integration organization) rows ->
  integration_pass lw organization st rows = Py.Return st' ->
  plain_locals st'.
Proof.
  induction rows as [|row rows IH]; intros st st' H Hrows E; cbn [integration_pass] in E.
  - now injection E as <-.
  - inversion Hrows as [|? ? Hrow Hrows']; subst.
    destruct (integration_row lw organization st row) as [st1|e] eqn:E1; [|discriminate].
    cbn [Py.bind] in E. apply (IH st1 st'); [|exact Hrows' | exact E].
    destruct row as [c ps id ty|c arn|c ss t|ty c]; cbn [integration_row] in E1.
    + injection E1 as <-. destruct Hrow as [_ Hps]. now apply gcp_projects_plain.
    + destruct (nth_error (Py.split ":" arn) 4) as [a|] eqn:En; [|discriminate].
      assert (Hc : has_colon a = false).
      { pose proof (split_segments arn) as S. rewrite Forall_forall in S.
        apply S. eapply nth_error_In. exact En. }
      destruct (negb (Py.contains (aws_accounts st) a)); injection E1 as <-; [|exact H].
      destruct H as [Ha [Hg Hz]]. repeat split; cbn; try assumption. now apply Forall_snoc.
    + injection E1 as <-. destruct Hrow as [_ Hss]. now apply azure_subscriptions_plain.
    + now injection E1 as <-.
Qed.

Lemma telemetry_row_plain lw st m :
  plain_locals st -> plain_machine m -> plain_locals (telemetry_row lw st m).
Proof.
  intros H [Hacct Hproj]. unfold telemetry_row.
  destruct (aws_candidate st m) as [a|] eqn:Ea.
  { destruct (negb (Py.contains (aws_accounts st) (last_segment ("aws:" ++ a))));
      [|exact H].
    assert (Hc : has_colon a = false).
    { apply Hacct. unfold aws_candidate in Ea. destruct (ACCOUNTID m) as [a'|]; [|discriminate].
      destruct (equals (VMPROVIDER m) "AWS" && negb (Py.contains (aws_accounts st) a'));
        [now injection Ea as -> | discriminate]. }
    destruct H as [Ha [Hg Hz]]. repeat split; cbn; try assumption. now apply Forall_snoc. }
  destruct (gcp_candidate st m) as [p|] eqn:Eg.
  { destruct (negb (Py.contains (gcp_accounts st) (last_segment ("gcp::" ++ p))));
      [|exact H].
    assert (Hc : has_colon p = false).
    { apply Hproj. unfold gcp_candidate in Eg. destruct (PROJECTID m) as [p'|]; [|discriminate].
      destruct (equals (VMPROVIDER m) "GCE" && negb (Py.contains (gcp_accounts st) p'));
        [now injection Eg as -> | discriminate]. }
    destruct H as [Ha [Hg Hz]]. repeat split; cbn; try assumption. now apply Forall_snoc. }
  destruct (azure_candidate st m) as [p|] eqn:Ez; [|exact H].
  destruct (negb (Py.contains (azure_accounts st) (last_segment ("az::" ++ p))));
    [|exact H].
  assert (Hc : has_colon p = false).
  { apply Hproj. unfold azure_candidate in Ez. destruct (PROJECTID m) as [p'|]; [|discriminate].
    destruct (equals (VMPROVIDER m) "Azure" && negb (Py.contains (azure_accounts st) p'));
      [now injection Ez as -> | discriminate]. }
  destruct H as [Ha [Hg Hz]]. repeat split; cbn; try assumption. now apply Forall_snoc.
Qed.

Lemma telemetry_pass_plain lw ms : forall st,
  plain_locals st -> Forall plain_machine ms ->
  plain_locals (fold_left (telemetry_row lw) ms st).
Proof.
  induction ms as [|m ms IH]; intros st H Hms; cbn [fold_left]; [exact H|].
  inversion Hms as [|? ? Hm Hms']; subst. apply IH; [|exact Hms'].
  now apply telemetry_row_plain.
Qed.

Lemma plain_scope (organization : option string) (row : integration) :
  plain_integration organization row -> has_colon (scope_segment organization row) = false.
Proof.
  destruct row as [c ps id ty|c arn|c ss t|ty c]; cbn [plain_integration scope_segment];
    try reflexivity; now intros [H _].
Qed.

(** X18.  When the raw identifiers of the integrations and of the
    telemetry hold no colon, every [accountId] of the returned list is the
    key of a cloud account with colon-free identifiers, and it splits into
    the number of segments that the branch of its provider unpacks in
    [get_vulnerability_report]. *)
Theorem discovered_keys_parse
        (cloud_accounts : list integration) (machine_accounts : list machine_account)
        (lwAccount : string) (organization : option string) (result : list account)
        (e : account)
        (Hintegrations : Forall (plain_integration organization) cloud_accounts)
        (Hmachines : Forall plain_machine machine_accounts)
        (Hret : get_cloud_accounts cloud_accounts machine_accounts lwAccount organization
                = Py.Return result)
        (He : In e result) :
  exists x, colon_free x /\ accountId e = key_of x /\
            VulnerabilityFetch.unpacks (Py.split ":" (accountId e)) = true.
Proof.
  unfold get_cloud_accounts in Hret.
  destruct (integration_pass lwAccount organization start cloud_accounts) as [st|err] eqn:E;
    [|discriminate].
  cbn [Py.bind] in Hret. injection Hret as <-. unfold telemetry_pass in He.
  assert (Hscope : Forall (fun row => has_colon (scope_segment organization row) = false)
                          cloud_accounts).
  { eapply Forall_impl; [|exact Hintegrations]. intros row. apply plain_scope. }
  destruct (@integration_pass_spec lwAccount organization cloud_accounts start st
              well_keyed_start Hscope E) as [[Hwk _] _].
  destruct (@telemetry_pass_spec lwAccount st machine_accounts machine_accounts st
              Hwk (grows_refl st) (incl_refl _)) as [[_ Hkeyed] _].
  assert (Hplain : plain_locals (fold_left (telemetry_row lwAccount) machine_accounts st)).
  { apply telemetry_pass_plain; [|exact Hmachines].
    apply (@integration_pass_plain lwAccount organization cloud_accounts start st);
      [repeat split; constructor | exact Hintegrations | exact E]. }
  rewrite Forall_forall in Hkeyed. specialize (Hkeyed e He).
  destruct Hplain as [Pa [Pg Pz]]. rewrite Forall_forall in Pa, Pg, Pz.
  assert (Hx : exists x, colon_free x /\ accountId e = key_of x).
  { destruct Hkeyed as [[a [Ea Ha]]|[[o [p [Eg [Ho Hp]]]]|[t [s [Ez [Ht Hs]]]]]].
    - exists (Aws a). split; [exact (Pa a Ha) | exact Ea].
    - exists (Gcp o p). split; [split; [exact Ho | exact (Pg p Hp)] | exact Eg].
    - exists (Az t s). split; [split; [exact Ht | exact (Pz s Hs)] | exact Ez]. }
  destruct Hx as [x [Hc Ex]]. exists x. split; [exact Hc|]. split; [exact Ex|].
  rewrite Ex, (AccountKeyFacts.split_key x Hc). now destruct x.
Qed.

Lemma discovered_keys_parse_witness :
  exists x, colon_free x /\
            accountId (integrated "T" "gcp:123:proj-1" "GcpCfg" some_common) = key_of x.
Proof.
  destruct (@discovered_keys_parse
              gcp_integrations gcp_telemetry "T" None
              [integrated "T" "gcp:123:proj-1" "GcpCfg" some_common;
               lql_discovered "T" "gcp::proj-2" "GcpLql"]
              (integrated "T" "gcp:123:proj-1" "GcpCfg" some_common))
    as [x [Hc [Ex _]]].
  - repeat constructor.
  - repeat constructor; intros ? H; try discriminate H; injection H as <-; reflexivity.
  - reflexivity.
  - left. reflexivity.
  - exists x. split; assumption.
Defined.

(** X19.  A GCP integration that is not organization-level, discovered
    without an organization override, gets the key [gcp:None:<project>]:
    the f-string prints [None].  [get_compliance_report] then splits the
    key and asks for the report of the organization named "None". *)
Theorem gcp_key_without_org_id
        (c : common) (p id idType lwAccount aws gcp az : string)
        (client : ComplianceFetch.client) (ignore_errors : bool)
        (Htype : String.eqb idType "ORGANIZATION" = false)
        (Hproject : has_colon p = false) :
  get_cloud_accounts [GcpCfg c [p] id idType] [] lwAccount None
  = Py.Return [integrated lwAccount ("gcp:None:" ++ p) "GcpCfg" c] /\
  hd_error (snd (ComplianceFetch.get_compliance_report
                   client lwAccount ("gcp:None:" ++ p) aws gcp az ignore_errors None))
  = Some (ComplianceFetch.Fetch_gcp "None" p gcp).
Proof.
  split.
  - unfold get_cloud_accounts. cbn [integration_pass integration_row fold_left Py.bind].
    unfold gcp_orgId. rewrite Htype. reflexivity.
  - change ("gcp:None:" ++ p) with (key_of (Gcp "None" p)).
    rewrite (@AccountKeyFacts.get_compliance_report_at
               client lwAccount (Gcp "None" p) aws gcp az ignore_errors None
               (conj eq_refl Hproject)).
    unfold ComplianceFetch.try_fetch. cbn [fetch_of].
    now destruct (response client (Gcp "None" p) aws gcp az).
Qed.

Lemma gcp_key_without_org_id_witness :
  get_cloud_accounts [GcpCfg some_common ["proj-1"] "proj-1" "PROJECT"] [] "T" None
  = Py.Return [integrated "T" "gcp:None:proj-1" "GcpCfg" some_common].
Proof.
  exact (proj1 (@gcp_key_without_org_id
                  some_common "proj-1" "proj-1" "PROJECT" "T" "AWS_CIS_S3" "GCP_CIS12"
                  "AZURE_CIS_131" ComplianceFetch.gcp_reporting_client true
                  eq_refl eq_refl)).
Defined.

End DiscoveryKeyFacts.

(* ================================================================== *)
(** ** The synced table, read back *)

Module StoreCallFacts.
Import Store StoreCalls StoreFacts.

Local Open Scope list_scope.





Lemma run_queries_app (db : option table) (q1 q2 : list (string * query)) :
  run_queries db (q1 ++ q2)
  = Py.bind (run_queries db q1) (fun r1 =>
    Py.bind (run_queries db q2) (fun r2 => Py.Return (r1 ++ r2))).
Proof.
  induction q1 as [|[name q] q1 IH]; cbn [app run_queries Py.bind].
  - destruct (run_queries db q2); reflexivity.
  - destruct (q db) as [rows|e]; cbn [Py.bind]; [|reflexivity].
    rewrite IH. destruct (run_queries db q1) as [r1|e]; cbn [Py.bind]; [|reflexivity].
    destruct (run_queries db q2); reflexivity.
Qed.

(** X22.  [sqlite_queries] is all or nothing: when every query of the
    catalogue returns, the result holds each query's rows under its name,
    in catalogue order; when one raises, the call raises the error of the
    first that does, and the rows of the queries before it are lost.
    After [sqlite_drop_table] the ['lwaccount'] query raises for want of
    the table. *)
Theorem sqlite_queries_all_or_nothing
        (db : option table) (queries : list (string * query)) :
  (forall results,
     sqlite_queries queries db = Py.Return results <->
     Forall2 (fun q r => fst r = fst q /\ snd q db = Py.Return (snd r)) queries results) /\
  (forall e,
     sqlite_queries queries db = Py.Raise e <->
     exists before q after,
       queries = before ++ q :: after /\
       (exists results, sqlite_queries before db = Py.Return results) /\
       snd q db = Py.Raise e) /\
  sqlite_queries [("lwaccount", lwaccount)] (snd (sqlite_drop_table db))
  = Py.Raise (Py.OperationalError Sql.NoSuchTable).
Proof.
  unfold sqlite_queries. split; [|split].
  - induction queries as [|[name q] queries IH]; intro results; cbn [run_queries].
    + split; [intro H; injection H as <-; constructor | intro H; now inversion H].
    + destruct (q db) as [rows|e] eqn:Eq; cbn [Py.bind].
      * destruct (run_queries db queries) as [rs|e] eqn:Er; cbn [Py.bind].
        -- split.
           ++ intro H. injection H as <-. constructor; [now split | now apply IH].
           ++ intro H. inversion H as [|? [n r] ? rs' [Hn Hq] Hrest]; subst.
              cbn [fst snd] in *. rewrite Eq in Hq. injection Hq as <-. subst n.
              apply IH in Hrest. now injection Hrest as <-.
        -- split; [discriminate|]. intro H.
           inversion H as [|? r ? rs' _ Hrest]; subst. apply IH in Hrest. discriminate.
      * split; [discriminate|]. intro H.
        inversion H as [|? r ? rs' [_ Hq] _]; subst. cbn [snd] in Hq. congruence.
  - induction queries as [|[name q] queries IH]; intro e; cbn [run_queries].
    + split; [discriminate|]. intros [before [q [after [E _]]]].
      destruct before; discriminate.
    + destruct (q db) as [rows|e'] eqn:Eq; cbn [Py.bind].
      * destruct (run_queries db queries) as [rs|e'] eqn:Er; cbn [Py.bind].
        -- split; [discriminate|]. intros [before [q' [after [E [[rs' Hb] Hq]]]]].
           destruct before as [|b before]; cbn [app] in E; injection E as <- ->.
           ++ cbn [snd] in Hq. congruence.
           ++ assert (X : Py.Return rs = Py.Raise e :> Py.outcome _); [|discriminate].
              apply IH. exists before, q', after. split; [reflexivity|]. split; [|exact Hq].
              cbn [run_queries] in Hb. rewrite Eq in Hb. cbn [Py.bind] in Hb.
              destruct (run_queries db before) as [rb|eb]; [now exists rb | discriminate].
        -- split.
           ++ intro H. injection H as ->.
              destruct (proj1 (IH e) eq_refl) as [before [q' [after [-> [[rb Hb] Hq]]]]].
              exists ((name, q) :: before), q', after. split; [reflexivity|].
              split; [|exact Hq]. cbn [run_queries]. rewrite Eq, Hb. cbn [Py.bind]. eauto.
           ++ intros [before [q' [after [E [[rs' Hb] Hq]]]]].
              destruct before as [|b before]; cbn [app] in E; injection E as <- ->.
              ** cbn [snd] in Hq. congruence.
              ** f_equal.
                 assert (X : Py.Raise e' = Py.Raise e :> Py.outcome (list (string * list cell)));
                   [|now injection X].
                 apply IH. exists before, q', after. split; [reflexivity|]. split; [|exact Hq].
                 cbn [run_queries] in Hb. rewrite Eq in Hb. cbn [Py.bind] in Hb.
                 destruct (run_queries db before) as [rb|eb]; [now exists rb | discriminate].
      * split.
        -- intro H. injection H as ->. exists [], (name, q), queries.
           split; [reflexivity|]. split; [now exists [] | exact Eq].
        -- intros [before [q' [after [E [[rs' Hb] Hq]]]]].
           destruct before as [|b before]; cbn [app] in E; injection E as <- ->.
           ++ cbn [snd] in Hq. congruence.
           ++ cbn [run_queries] in Hb. rewrite Eq in Hb. discriminate.
  - now destruct db.
Qed.

End StoreCallFacts.

(* ================================================================== *)
(** ** [get_vulnerability_report]: labels and errors *)

Module VulnerabilityContextFacts.
Import Store VulnerabilityFetch VulnerabilityContext StoreFacts.

Local Open Scope list_scope.












(** X24.  What [get_vulnerability_report] raises.  A key whose segments
    do not fit the unpacking of its provider - as [gcp:<project>], without
    organization segment - raises a ValueError, with [ignore_errors] too
    and before anything is fetched.  An ApiError of the fetch is turned
    into the empty list with [ignore_errors], the table left as it is, and
    raised again without. *)
Theorem vulnerability_report_errors
        (exported : ComplianceFetch.api_result) (db : option table)
        (lwAccount cloud_account : string) (ignore_errors use_sqlite : bool) :
  (unpacks (Py.split ":" cloud_account) = false ->
   get_vulnerability_report exported db lwAccount cloud_account ignore_errors use_sqlite
   = Py.Raise Py.ValueError) /\
  (forall p, Discovery.has_colon p = false ->
     get_vulnerability_report exported db lwAccount ("gcp:" ++ p)%string
                              ignore_errors use_sqlite
     = Py.Raise Py.ValueError) /\
  (unpacks (Py.split ":" cloud_account) = true ->
   get_vulnerability_report ComplianceFetch.ApiFail db lwAccount cloud_account
                            ignore_errors use_sqlite
   = if ignore_errors then Py.Return (Rows [], db) else Py.Raise Py.ApiError).
Proof.
  unfold get_vulnerability_report. split; [|split].
  - intros ->. reflexivity.
  - intros p Hp.
    change ("gcp:" ++ p)%string with ("gcp" ++ ":" ++ p)%string.
    now rewrite (@AccountKeyFacts.split_key2 "gcp" p eq_refl Hp).
  - intros ->. reflexivity.
Qed.

End VulnerabilityContextFacts.

(* ================================================================== *)
(** ** The helper's state and the inventory fetchers *)

Module HelperFacts.
Import Helper.

Lemma last_default (A : Type) (x : A) (l : list A) (d d' : A) :
  last (x :: l) d = last (x :: l) d'.
Proof.
  revert x. induction l as [|y l IH]; intro x; [reflexivity|].
  change (last (y :: l) d = last (y :: l) d'). apply IH.
Qed.

Lemma fold_last (l : list bool) (b : bool) : fold_left (fun _ i => i) l b = last l b.
Proof.
  revert b. induction l as [|x l IH]; intro b; [reflexivity|].
  cbn [fold_left]. rewrite IH. destruct l as [|y l]; [reflexivity|].
  change (last (x :: y :: l) b) with (last (y :: l) b). apply last_default.
Qed.

Lemma enumerate_spec (profiles : list profile) : forall acc,
  fst (enumerate profiles acc)
  = acc ++ flat_map (fun p => if orgAdmin p then accounts p else []) profiles.
Proof.
  induction profiles as [|p rest IH]; intro acc; cbn [enumerate flat_map].
  - now rewrite app_nil_r.
  - destruct (orgAdmin p).
    + specialize (IH (acc ++ accounts p)).
      destruct (enumerate rest (acc ++ accounts p)) as [r log]. cbn [fst] in *.
      now rewrite IH, app_assoc.
    + specialize (IH acc). destruct (enumerate rest acc) as [r log]. cbn [fst] in *.
      now rewrite IH.
Qed.

(** X25.  [get_subaccounts] goes by the last element of the
    organization info alone: when it is an organization account, the call
    returns the accounts of the profiles that are organization admins, in
    order; otherwise - and when the organization info is empty - it
    returns the empty list and does not ask for the user profile.  Either
    way the list replaces [self.subaccounts], and [self.reports] stays. *)
Theorem get_subaccounts_result
        (self : state) (org_info : list bool) (profiles : list profile) :
  fst (fst (get_subaccounts self org_info profiles))
  = (if last org_info false
     then flat_map (fun p => if orgAdmin p then accounts p else []) profiles
     else []) /\
  subaccounts (snd (fst (get_subaccounts self org_info profiles)))
  = fst (fst (get_subaccounts self org_info profiles)) /\
  reports (snd (fst (get_subaccounts self org_info profiles))) = reports self /\
  (In User_profile_get (snd (get_subaccounts self org_info profiles))
   <-> last org_info false = true).
Proof.
  unfold get_subaccounts. rewrite fold_last.
  destruct (last org_info false).
  - pose proof (enumerate_spec profiles []) as E.
    destruct (enumerate profiles []) as [r log]. cbn [fst snd app] in *.
    repeat split; try assumption; try reflexivity.
    intros _. right. right. now left.
  - cbn [fst snd subaccounts reports]. repeat split; try discriminate.
    intros [H|[H|[]]]; discriminate.
Qed.

(** X26.  The reports of the workers accumulate in callback order: after
    any sequence of callbacks [get_reports] gives what it gave before
    followed by the rows of each result, a [None] result adding
    nothing. *)
Theorem report_callbacks_accumulate
        (self : state) (results : list (option (list Py.dict))) :
  get_reports (fold_left report_callback results self)
  = get_reports self ++ List.concat (Sql.non_null results) /\
  subaccounts (fold_left report_callback results self) = subaccounts self.
Proof.
  revert self. induction results as [|[report|] results IH]; intro self;
    cbn [fold_left Sql.non_null List.concat].
  - unfold get_reports. now rewrite app_nil_r.
  - destruct (IH (report_callback self (Some report))) as [E1 E2].
    rewrite E1, E2. unfold get_reports. cbn [report_callback reports subaccounts].
    now rewrite app_assoc.
  - apply IH.
Qed.

End HelperFacts.

Module MachineFetchFacts.
Import MachineFetch PyFacts.

Local Open Scope string_scope.

Lemma each_provider_ignoring (export : exporter) (lw : string) (csps : list string) :
  forall results,
    each_provider export lw true csps results
    = (Return (results ++ flat_map (rows_of export) (map (active_accounts_query lw) csps))%list,
       map (active_accounts_query lw) csps).
Proof.
  induction csps as [|csp rest IH]; intro results; cbn [each_provider map flat_map].
  - now rewrite app_nil_r.
  - unfold try_append, rows_of at 1.
    destruct (export (active_accounts_query lw csp)) as [rows|]; rewrite IH.
    + now rewrite app_assoc.
    + reflexivity.
Qed.

Lemma each_provider_raising (export : exporter) (lw : string) (csps : list string) :
  forall results,
    each_provider export lw false csps results
    = (if forallb (answers export) (map (active_accounts_query lw) csps)
       then Return (results
                    ++ flat_map (rows_of export) (map (active_accounts_query lw) csps))%list
       else Raise ApiError,
       until_failure export (map (active_accounts_query lw) csps)).
Proof.
  induction csps as [|csp rest IH]; intro results;
    cbn [each_provider map flat_map forallb until_failure].
  - now rewrite app_nil_r.
  - unfold try_append, rows_of at 1, answers at 1 3.
    destruct (export (active_accounts_query lw csp)) as [rows|]; cbn [andb].
    + rewrite IH. now rewrite app_assoc.
    + reflexivity.
Qed.

(** X27.  [get_active_cloud_accounts] asks three queries, for AWS, GCE
    and Azure in this order, [get_discovered_cloud_accounts] two, for EC2
    and GCE.  With [ignore_errors] every query is sent and the call
    returns the rows of those that answered, in query order; without it
    the call returns all rows when every query answers, and otherwise
    raises at the first ApiError, the later queries not being sent and the
    rows collected so far lost. *)
Theorem inventory_accumulates (export : exporter) (lwAccount : string) :
  get_active_cloud_accounts export lwAccount true
  = (Return (flat_map (rows_of export)
                      (map (active_accounts_query lwAccount) ["aws"; "gcp"; "az"])),
     map (active_accounts_query lwAccount) ["aws"; "gcp"; "az"]) /\
  get_active_cloud_accounts export lwAccount false
  = (if forallb (answers export) (map (active_accounts_query lwAccount) ["aws"; "gcp"; "az"])
     then Return (flat_map (rows_of export)
                           (map (active_accounts_query lwAccount) ["aws"; "gcp"; "az"]))
     else Raise ApiError,
     until_failure export (map (active_accounts_query lwAccount) ["aws"; "gcp"; "az"])) /\
  get_discovered_cloud_accounts export lwAccount true
  = (Return (flat_map (rows_of export) [Ec2_accounts lwAccount; Gce_accounts lwAccount]),
     [Ec2_accounts lwAccount; Gce_accounts lwAccount]) /\
  get_discovered_cloud_accounts export lwAccount false
  = (if forallb (answers export) [Ec2_accounts lwAccount; Gce_accounts lwAccount]
     then Return (flat_map (rows_of export) [Ec2_accounts lwAccount; Gce_accounts lwAccount])
     else Raise ApiError,
     until_failure export [Ec2_accounts lwAccount; Gce_accounts lwAccount]).
Proof.
  split; [|split; [|split]].
  - unfold get_active_cloud_accounts. now rewrite each_provider_ignoring.
  - unfold get_active_cloud_accounts. now rewrite each_provider_raising.
  - unfold get_discovered_cloud_accounts, try_append, rows_of. cbn [flat_map forallb].
    destruct (export (Ec2_accounts lwAccount)), (export (Gce_accounts lwAccount));
      cbn [app]; rewrite ?app_nil_r; reflexivity.
  - unfold get_discovered_cloud_accounts, try_append.
    cbn [flat_map forallb until_failure]. unfold rows_of, answers.
    destruct (export (Ec2_accounts lwAccount)), (export (Gce_accounts lwAccount));
      cbn [app andb]; rewrite ?app_nil_r; reflexivity.
Qed.

(** X28.  The two machine fetchers treat providers differently.  For a
    key whose provider segment is neither aws nor gcp - every Azure key -
    [get_discovered_machines] logs a warning and returns the empty list
    without sending a query.  [get_active_machines] does query Azure: for
    the key [az:<tenant>:<subscription>] it sends one query, filtered on
    the subscription; for a provider segment other than aws, gcp and az it
    raises an UnboundLocalError, with [ignore_errors] too. *)
Theorem machine_fetchers_by_provider
        (export : exporter) (lwAccount cloud_account : string) (ignore_errors : bool) :
  (String.eqb (hd "" (Py.split ":" cloud_account)) "aws" = false ->
   String.eqb (hd "" (Py.split ":" cloud_account)) "gcp" = false ->
   get_discovered_machines export lwAccount cloud_account ignore_errors
   = (Return [], [Log_warn])) /\
  (String.eqb (hd "" (Py.split ":" cloud_account)) "aws" = false ->
   String.eqb (hd "" (Py.split ":" cloud_account)) "gcp" = false ->
   String.eqb (hd "" (Py.split ":" cloud_account)) "az" = false ->
   get_active_machines export lwAccount cloud_account ignore_errors
   = (Raise UnboundLocalError, [])) /\
  (forall t s,
     Discovery.has_colon t = false -> Discovery.has_colon s = false ->
     String.eqb s "*" = false ->
     get_discovered_machines export lwAccount ("az:" ++ t ++ ":" ++ s) ignore_errors
     = (Return [], [Log_warn]) /\
     snd (get_active_machines export lwAccount ("az:" ++ t ++ ":" ++ s) ignore_errors)
     = [Machines lwAccount
                 ("m.TAGS:ProjectId::String = '" ++ s
                  ++ "' AND m.TAGS:VmProvider::String IN ('Azure')")
                 ("'az:' || '" ++ t
                  ++ "' || ':' ||  m.TAGS:ProjectId::String AS accountId,")]).
Proof.
  split; [|split].
  - intros Ha Hg. unfold get_discovered_machines. now rewrite Ha, Hg.
  - intros Ha Hg Hz. unfold get_active_machines. now rewrite Ha, Hg, Hz.
  - intros t s Ht Hs Hstar.
    assert (E : Py.split ":" ("az:" ++ t ++ ":" ++ s) = ["az"; t; s]).
    { change ("az:" ++ t ++ ":" ++ s) with ("az" ++ ":" ++ t ++ ":" ++ s).
      exact (@AccountKeyFacts.split_key3 "az" t s eq_refl Ht Hs). }
    unfold get_discovered_machines, get_active_machines. rewrite E.
    cbn [hd String.eqb Ascii.eqb Bool.eqb]. rewrite Hstar. cbn [negb Py.format].
    split; [reflexivity|]. unfold try_assign.
    now destruct (export _); [|destruct ignore_errors].
Qed.

End MachineFetchFacts.
